(** * WRF ADIOS2-to-NetCDF4 converter: a shallow embedding of [convert.py]

    The converter reads the attributes and variables of an ADIOS2 file,
    declares the matching NetCDF dimensions and variables, copies every
    variable step by step (serially, or slab by slab under MPI) and finally
    copies the attributes.

    Python integers are [Z]; Python [str] is [string]; a Python [dict] is an
    association list in insertion order; a raised exception is the [Raise]
    branch of [result].  The two I/O libraries are not part of the program:
    the ADIOS2 handle is a record of its read methods, the NetCDF handle is
    a record holding the declared schema and the assignments issued. *)

From Stdlib Require Import ZArith String Ascii List Lia Bool.
From stdpp Require Import base list strings.


Local Open Scope Z_scope.

(** ** Python primitives *)

Inductive exn : Type :=
| ValueError
| KeyError (key : string)
| IndexError
| ZeroDivisionError
| RuntimeError
| UnboundLocalError.

Inductive result (A : Type) : Type :=
| Ok (a : A)
| Raise (e : exn).
Arguments Ok {A} a.
Arguments Raise {A} e.

Global Instance result_ret : MRet result := fun A a => Ok a.
Global Instance result_bind : MBind result :=
  fun A B f m => match m with Ok a => f a | Raise e => Raise e end.
Global Instance result_fmap : FMap result :=
  fun A B f m => match m with Ok a => Ok (f a) | Raise e => Raise e end.

Definition is_Ok {A} (r : result A) : Prop := exists a, r = Ok a.

(** A [for] loop that threads an accumulator and stops at the first
    exception. *)
Fixpoint foldM {A B} (f : A -> B -> result A) (acc : A) (l : list B) : result A :=
  match l with
  | [] => Ok acc
  | x :: l' => acc' ← f acc x; foldM f acc' l'
  end.

(** *** Dictionaries in insertion order *)

Definition dict (V : Type) : Type := list (string * V).

Fixpoint dict_get {V} (k : string) (d : dict V) : option V :=
  match d with
  | [] => None
  | (k', v) :: d' => if String.eqb k k' then Some v else dict_get k d'
  end.

(** [d[k] = v]: an existing key keeps its position, a new key goes last. *)
Fixpoint dict_set {V} (k : string) (v : V) (d : dict V) : dict V :=
  match d with
  | [] => [(k, v)]
  | (k', v') :: d' =>
      if String.eqb k k' then (k, v) :: d' else (k', v') :: dict_set k v d'
  end.

Definition dict_keys {V} (d : dict V) : list string := map fst d.

(** [d[k]] as an expression: [KeyError] on a missing key. *)
Definition getitem {V} (d : dict V) (k : string) : result V :=
  match dict_get k d with
  | Some v => Ok v
  | None => Raise (KeyError k)
  end.

(** *** Strings *)

(** [s.startswith(p)] *)
Fixpoint startswith (s p : string) {struct p} : bool :=
  match p with
  | EmptyString => true
  | String a p' =>
      match s with
      | EmptyString => false
      | String b s' => Ascii.eqb a b && startswith s' p'
      end
  end.

(** [sub in s] *)
Fixpoint contains (sub s : string) : bool :=
  startswith s sub ||
  match s with
  | EmptyString => false
  | String _ s' => contains sub s'
  end.

(** [s.split(sep)] for a one-character separator. *)
Fixpoint split (sep : ascii) (s : string) : list string :=
  match s with
  | EmptyString => [EmptyString]
  | String c s' =>
      if Ascii.eqb c sep then EmptyString :: split sep s'
      else match split sep s' with
           | [] => [String c EmptyString]
           | w :: ws => String c w :: ws
           end
  end.

(** [s[n:]] *)
Fixpoint str_from (n : nat) (s : string) : string :=
  match n, s with
  | O, _ => s
  | S n', String _ s' => str_from n' s'
  | S _, EmptyString => EmptyString
  end.

(** *** [int(str)] in base ten

    Surrounding white space is stripped, one sign is allowed, and the digits
    may be grouped by single underscores.  Only ASCII is modelled, where
    the white space is the blank and the codes 9 to 13; the length of the
    literal is not limited. *)

Definition is_space (c : ascii) : bool :=
  let n := nat_of_ascii c in
  ((9 <=? n)%nat && (n <=? 13)%nat) || (n =? 32)%nat.

Definition digit_of (c : ascii) : option Z :=
  let n := Z.of_nat (nat_of_ascii c) in
  if (48 <=? n) && (n <=? 57) then Some (n - 48) else None.

Fixpoint lstrip (l : list ascii) : list ascii :=
  match l with
  | c :: l' => if is_space c then lstrip l' else l
  | [] => []
  end.

Definition strip (l : list ascii) : list ascii := rev (lstrip (rev (lstrip l))).

(** The digits after a first digit, whose value so far is [acc]. *)
Fixpoint int_digits (acc : Z) (l : list ascii) : option Z :=
  match l with
  | [] => Some acc
  | c :: l' =>
      match digit_of c with
      | Some d => int_digits (10 * acc + d) l'
      | None =>
          if Ascii.eqb c "_" then
            match l' with
            | c2 :: l'' =>
                match digit_of c2 with
                | Some d => int_digits (10 * acc + d) l''
                | None => None
                end
            | [] => None
            end
          else None
      end
  end.

Definition int_unsigned (l : list ascii) : option Z :=
  match l with
  | c :: l' =>
      match digit_of c with
      | Some d => int_digits d l'
      | None => None
      end
  | [] => None
  end.

Definition int_literal (l : list ascii) : option Z :=
  match l with
  | c :: l' =>
      if Ascii.eqb c "-" then Z.opp <$> int_unsigned l'
      else if Ascii.eqb c "+" then int_unsigned l'
      else int_unsigned l
  | [] => None
  end.

Definition py_int (s : string) : result Z :=
  match int_literal (strip (list_ascii_of_string s)) with
  | Some n => Ok n
  | None => Raise ValueError
  end.

(** [a // b] and [a % b]: floor division, the remainder has the sign of the
    divisor, and a zero divisor raises. *)
Definition floordiv (a b : Z) : result Z :=
  if b =? 0 then Raise ZeroDivisionError else Ok (a / b).

Definition pymod (a b : Z) : result Z :=
  if b =? 0 then Raise ZeroDivisionError else Ok (a mod b).

(** ** The decomposition: [Locate] and [decomp] *)

(** The process group as [decomp] sees it through [MPI.COMM_WORLD]. *)
Record Comm : Type := { Get_size : Z; Get_rank : Z }.

Definition Locate (rank nproc datasize : Z) : result (Z * Z) :=
  extra ← (if rank =? nproc - 1 then pymod datasize nproc else Ok 0);
  num ← floordiv datasize nproc;
  let start := num * rank in
  let size := num + extra in
  Ok (start, size).

(** An entry of [available_variables()]: only the two keys the converter
    reads. *)
Record var_info : Type := { v_Type : string; v_Shape : string }.

(** [np.argmax]: the first index of the largest entry; an empty array
    raises. *)
Fixpoint argmax_from (best_i : nat) (best : Z) (i : nat) (l : list Z) : nat :=
  match l with
  | [] => best_i
  | x :: l' =>
      if best <? x then argmax_from i x (S i) l'
      else argmax_from best_i best (S i) l'
  end.

Definition argmax (l : list Z) : result nat :=
  match l with
  | [] => Raise ValueError
  | x :: l' => Ok (argmax_from 0 x 1 l')
  end.

Definition zeros_like (l : list Z) : list Z := replicate (length l) 0.

(** [list(map(int, vars[var]["Shape"].split(",")))] *)
Definition parse_shape (shape : string) : result (list Z) :=
  mapM py_int (split "," shape).

(** The integers that [np.array] stores as they are when it is given a
    list of Python integers: those of 64 bits.  A list with an entry
    outside this range becomes an array of another element type. *)
Definition int64_range (x : Z) : Prop := - 2 ^ 63 <= x < 2 ^ 63.

(** The part of [decomp] after the shape has been parsed.  Arrays of
    extents are lists of [Z], which is what numpy holds when every extent
    is in [int64_range]. *)
Definition decomp_shape (comm : Comm) (dshape : list Z) : result (list Z * list Z) :=
  let size := Get_size comm in
  let rank := Get_rank comm in
  max_ind ← argmax dshape;
  match dshape !! max_ind with
  | None => Raise IndexError
  | Some extent =>
      (* do not decompose small arrays *)
      if extent <? 50 then
        let start_arr := zeros_like dshape in
        let count_arr := dshape in
        Ok (start_arr, count_arr)
      else
        '(start, count) ← Locate rank size extent;
        let start_arr := <[max_ind := start]> (zeros_like dshape) in
        let count_arr := <[max_ind := count]> dshape in
        Ok (start_arr, count_arr)
  end.

Definition decomp (comm : Comm) (var : string) (vars : dict var_info)
  : result (list Z * list Z) :=
  info ← getitem vars var;
  dshape ← parse_shape (v_Shape info);
  decomp_shape comm dshape.

(** ** The ADIOS2 handle *)

(** An entry of [available_attributes()]; the converter reads ["Value"]. *)
Record attr_info : Type :=
  { a_Type : string; a_Elements : string; a_Value : string }.

(** What an attribute read returns: a numeric array from the typed read, a
    list of strings from the string read.  Element values are only copied,
    never inspected; they are carried as integers. *)
Inductive attr_val : Type :=
| NumArray (elems : list Z)
| StrList (elems : list string).

(** A numpy array as the copy loop uses it: a shape and its elements by
    index. *)
Record ndarray : Type := { nd_shape : list Z; nd_at : list Z -> Z }.

Definition ndim (a : ndarray) : nat := length (nd_shape a).
Definition len (a : ndarray) : Z := hd 0 (nd_shape a).

(** The opened source file.  Every field is a method of the handle, and no
    behaviour of the library is assumed beyond its signature: the typed
    attribute read may raise, the string reads return a list.  The data
    reads take the iteration of the step loop in which they are called, the
    handle's state being otherwise hidden. *)
Record Adios2File : Type := {
  available_attributes : dict attr_info;
  read_attribute : string -> result (list Z);
  read_attribute_string : string -> list string;
  available_variables : dict var_info;
  steps : nat;
  read : string -> nat -> ndarray;
  read_sel : string -> list Z -> list Z -> nat -> ndarray;
  read_string : string -> nat -> list string
}.

(** [adios2f.read_attribute_string(name, var)]: the attribute [name] of the
    variable [var], stored under the key [var/name]. *)
Definition read_attribute_string_of (f : Adios2File) (name var : string)
  : list string :=
  read_attribute_string f (var +:+ "/" +:+ name).

(** ** Reading the metadata: [r_attrs] and [r_metadata] *)

(** The [try]/[except ValueError] of [r_attrs]. *)
Definition read_value (f : Adios2File) (attr : string) : result attr_val :=
  match read_attribute f attr with
  | Ok a => Ok (NumArray a)
  | Raise ValueError => Ok (StrList (read_attribute_string f attr))
  | Raise e => Raise e
  end.

(** One iteration of the loop of [r_attrs]; [var_attrs] is a
    [defaultdict(dict)]. *)
Definition r_attrs_body (f : Adios2File)
    (acc : dict (dict attr_val) * dict attr_val) (attr : string)
  : result (dict (dict attr_val) * dict attr_val) :=
  let '(var_attrs, global_attrs) := acc in
  (* "Dims" attribute not needed in NetCDF file *)
  if contains "/Dims" attr then Ok acc
  else
    val ← read_value f attr;
    if contains "/" attr then
      match split "/" attr with
      | [var; var_attrib] =>
          let entry := default [] (dict_get var var_attrs) in
          Ok (dict_set var (dict_set var_attrib val entry) var_attrs, global_attrs)
      | _ => Raise ValueError
      end
    else if negb (startswith attr "_DIM_") then
      Ok (var_attrs, dict_set attr val global_attrs)
    else Ok acc.

Definition r_attrs (f : Adios2File)
  : result (dict attr_info * dict (dict attr_val) * dict attr_val) :=
  let attrs := available_attributes f in
  '(var_attrs, global_attrs) ← foldM (r_attrs_body f) ([], []) (dict_keys attrs);
  Ok (attrs, var_attrs, global_attrs).

Definition typemap : dict string :=
  [("float", "f"); ("int32_t", "i"); ("string", "c")].

Definition dim_lens_body (d : dict Z) (item : string * attr_info)
  : result (dict Z) :=
  let '(key, value) := item in
  if startswith key "_DIM_" then
    n ← py_int (a_Value value);
    Ok (dict_set (str_from 5 key) n d)
  else Ok d.

Definition var_dims_body (f : Adios2File) (var_dims : dict (list string))
    (var : string) : dict (list string) :=
  let dims := read_attribute_string_of f "Dims" var in
  dict_set var (rev dims) var_dims.

Definition var_types_body (vars : dict var_info) (var_types : dict string)
    (var : string) : result (dict string) :=
  info ← getitem vars var;
  let vtype := v_Type info in
  t ← getitem typemap vtype;
  Ok (dict_set var t var_types).

Definition r_metadata (f : Adios2File) (attrs : dict attr_info)
  : result (list string * nat * dict Z * dict (list string) * dict string
            * dict var_info) :=
  let vars := available_variables f in
  let var_names := dict_keys vars in
  let num_steps := steps f in
  dim_lens ← foldM dim_lens_body [] attrs;
  let var_dims := fold_left (var_dims_body f) (dict_keys vars) [] in
  var_types ← foldM (var_types_body vars) [] (dict_keys vars);
  Ok (var_names, num_steps, dim_lens, var_dims, var_types, vars).

(** ** The NetCDF handle *)

(** The index expressions the copy loops write:
    [[step]], [[step, :]] and [[step, a0:b0, ...]]. *)
Inductive index : Type :=
| At (step : nat)
| AtAll (step : nat)
| AtSlices (step : nat) (slices : list (Z * Z)).

Inductive pydata : Type :=
| Arr (a : ndarray)
| Str (s : list string).

(** The calls on a destination variable, in the order issued. *)
Inductive nc_op : Type :=
| SetItem (var : string) (ix : index) (data : pydata)
| SetCollective (var : string) (value : bool).

Record nc_variable : Type := {
  datatype : string;
  var_dimensions : list string;
  var_ncattrs : dict attr_val
}.

Record Dataset : Type := {
  fill : bool;
  dimensions : dict Z;
  variables : dict nc_variable;
  ncattrs : dict attr_val;
  issued : list nc_op;
  closed : bool
}.

(** Code that works on the destination: the handle is threaded through, and
    an exception leaves it as it was when raised. *)
Definition NC (A : Type) : Type := Dataset -> Dataset * result A.

Global Instance NC_ret : MRet NC := fun A a ds => (ds, Ok a).
Global Instance NC_bind : MBind NC :=
  fun A B k m ds =>
    match m ds with
    | (ds', Ok a) => k a ds'
    | (ds', Raise e) => (ds', Raise e)
    end.

Definition lift {A} (r : result A) : NC A := fun ds => (ds, r).

Fixpoint for_each {A} (l : list A) (body : A -> NC unit) : NC unit :=
  match l with
  | [] => mret tt
  | x :: l' => _ ← body x; for_each l' body
  end.

(** [Dataset(output_file, "w", ...)] followed by [set_fill_off()]. *)
Definition new_Dataset : Dataset :=
  {| fill := false; dimensions := []; variables := []; ncattrs := [];
     issued := []; closed := false |}.

(** [createDimension]: a name already in use is refused.  The size is
    recorded as given: that the library refuses a negative one is not part
    of this model. *)
Definition createDimension (name : string) (size : Z) : NC unit := fun ds =>
  match dict_get name (dimensions ds) with
  | Some _ => (ds, Raise RuntimeError)
  | None =>
      ({| fill := fill ds; dimensions := dict_set name size (dimensions ds);
          variables := variables ds; ncattrs := ncattrs ds;
          issued := issued ds; closed := closed ds |}, Ok tt)
  end.

(** [createVariable]: the name must be new and every dimension declared. *)
Definition createVariable (name dtype : string) (dims : list string)
  : NC unit := fun ds =>
  match dict_get name (variables ds) with
  | Some _ => (ds, Raise RuntimeError)
  | None =>
      if forallb (fun d => bool_decide (is_Some (dict_get d (dimensions ds)))) dims
      then
        let v := {| datatype := dtype; var_dimensions := dims;
                    var_ncattrs := [] |} in
        ({| fill := fill ds; dimensions := dimensions ds;
            variables := dict_set name v (variables ds); ncattrs := ncattrs ds;
            issued := issued ds; closed := closed ds |}, Ok tt)
      else (ds, Raise ValueError)
  end.

Definition issue (op : nc_op) (ds : Dataset) : Dataset :=
  {| fill := fill ds; dimensions := dimensions ds; variables := variables ds;
     ncattrs := ncattrs ds; issued := issued ds ++ [op]; closed := closed ds |}.

(** [netcdff.variables[var][ix] = data]: the call is recorded.  The check
    of the index and the data against the declared dimensions, which the
    library makes, is not part of this model. *)
Definition setitem (var : string) (ix : index) (data : pydata) : NC unit :=
  fun ds =>
    match dict_get var (variables ds) with
    | None => (ds, Raise (KeyError var))
    | Some _ => (issue (SetItem var ix data) ds, Ok tt)
    end.

(** [netcdff.variables[var].set_collective(value)] *)
Definition set_collective (var : string) (value : bool) : NC unit :=
  fun ds =>
    match dict_get var (variables ds) with
    | None => (ds, Raise (KeyError var))
    | Some _ => (issue (SetCollective var value) ds, Ok tt)
    end.

(** [netcdff.setncatts(attrs)] *)
Definition setncatts (attrs : dict attr_val) : NC unit := fun ds =>
  ({| fill := fill ds; dimensions := dimensions ds; variables := variables ds;
      ncattrs := fold_left (fun d kv => dict_set (fst kv) (snd kv) d) attrs (ncattrs ds);
      issued := issued ds; closed := closed ds |}, Ok tt).

(** [netcdff.variables[var].setncattr(attr, val)] *)
Definition setncattr (var attr : string) (val : attr_val) : NC unit :=
  fun ds =>
    match dict_get var (variables ds) with
    | None => (ds, Raise (KeyError var))
    | Some v =>
        let v' := {| datatype := datatype v;
                     var_dimensions := var_dimensions v;
                     var_ncattrs := dict_set attr val (var_ncattrs v) |} in
        ({| fill := fill ds; dimensions := dimensions ds;
            variables := dict_set var v' (variables ds); ncattrs := ncattrs ds;
            issued := issued ds; closed := closed ds |}, Ok tt)
    end.

Definition close : NC unit := fun ds =>
  ({| fill := fill ds; dimensions := dimensions ds; variables := variables ds;
      ncattrs := ncattrs ds; issued := issued ds; closed := true |}, Ok tt).

(** ** Declaring the schema *)

Definition create_nc_dims (num_steps : nat) (dim_lens : dict Z) : NC unit :=
  _ ← createDimension "Time" (Z.of_nat num_steps);
  for_each (dict_keys dim_lens) (fun dim =>
    size ← lift (getitem dim_lens dim);
    createDimension dim size).

Definition create_nc_vars (var_names : list string) (var_types : dict string)
    (var_dims : dict (list string)) : NC unit :=
  for_each var_names (fun var =>
    t ← lift (getitem var_types var);
    dims ← lift (getitem var_dims var);
    createVariable var t dims).

(** ** Copying the data: [r_w_data_serial] and [r_w_data_parallel]

    [progress] only prints, and is left out. *)

Definition range (n : nat) : list nat := seq 0 n.

(** [data.ndim == 1 and len(data) == 1] *)
Definition single_element (data : ndarray) : bool :=
  (ndim data =? 1)%nat && (len data =? 1).

Definition serial_step (f : Adios2File) (vars : dict var_info)
    (var : string) (step : nat) : NC unit :=
  info ← lift (getitem vars var);
  if String.eqb (v_Type info) "string" then
    let data := read_string f var step in
    setitem var (AtAll step) (Str data)
  else
    let data := read f var step in
    if single_element data then setitem var (At step) (Arr data)
    else setitem var (AtAll step) (Arr data).

Definition r_w_data_serial (f : Adios2File) (var_names : list string)
    (num_steps : nat) (vars : dict var_info) : NC unit :=
  for_each var_names (fun var =>
    for_each (range num_steps) (serial_step f vars var)).

(** The body of the step loop of [r_w_data_parallel].  [plan] holds
    [start_arr, count_arr], which are bound only for a variable that is not
    a string.  The two vectors come from [decomp] and have one length. *)
Definition parallel_step (f : Adios2File) (vars : dict var_info)
    (var : string) (plan : option (list Z * list Z)) (step : nat) : NC unit :=
  info ← lift (getitem vars var);
  if String.eqb (v_Type info) "string" then
    let data := read_string f var step in
    setitem var (AtAll step) (Str data)
  else
    match plan with
    | None => lift (Raise UnboundLocalError)
    | Some (start_arr, count_arr) =>
        let data := read_sel f var start_arr count_arr step in
        if single_element data then setitem var (At step) (Arr data)
        else
          _ ← set_collective var true;
          match start_arr, count_arr with
          | [s0; s1; s2], [c0; c1; c2] =>
              setitem var
                (AtSlices step [(s0, s0 + c0); (s1, s1 + c1); (s2, s2 + c2)])
                (Arr data)
          | [s0; s1], [c0; c1] =>
              setitem var (AtSlices step [(s0, s0 + c0); (s1, s1 + c1)])
                (Arr data)
          | [s0], [c0] =>
              setitem var (AtSlices step [(s0, s0 + c0)]) (Arr data)
          | _, _ => mret tt
          end
    end.

(** The body of the variable loop of [r_w_data_parallel]. *)
Definition parallel_var (f : Adios2File) (comm : Comm) (num_steps : nat)
    (vars : dict var_info) (var : string) : NC unit :=
  info ← lift (getitem vars var);
  plan ← (if negb (String.eqb (v_Type info) "string")
          then lift (Some <$> decomp comm var vars)
          else mret None);
  for_each (range num_steps) (parallel_step f vars var plan).

Definition r_w_data_parallel (f : Adios2File) (comm : Comm)
    (var_names : list string) (num_steps : nat) (vars : dict var_info)
  : NC unit :=
  for_each var_names (parallel_var f comm num_steps vars).

(** ** Writing the attributes and closing *)

Definition w_global_attrs (global_attrs : dict attr_val) : NC unit :=
  setncatts global_attrs.

Definition w_var_attrs (var_attrs : dict (dict attr_val)) : NC unit :=
  for_each (dict_keys var_attrs) (fun var =>
    entry ← lift (getitem var_attrs var);
    for_each (dict_keys entry) (fun attr =>
      val ← lift (getitem entry attr);
      setncattr var attr val)).

(** The source handle has no state to close in this model. *)
Definition close_files (diskless : bool) : NC unit :=
  if negb diskless then close else mret tt.

(** ** The driver *)

(** [convert] after [open_files]: [f] is the opened source, the state is
    the opened destination. *)
Definition convert_opened (f : Adios2File) (comm : Comm)
    (parallel diskless : bool) : NC unit :=
  '(attrs, var_attrs, global_attrs) ← lift (r_attrs f);
  '(var_names, num_steps, dim_lens, var_dims, var_types, vars) ←
    lift (r_metadata f attrs);
  _ ← create_nc_dims num_steps dim_lens;
  _ ← create_nc_vars var_names var_types var_dims;
  _ ← (if parallel
       then r_w_data_parallel f comm var_names num_steps vars
       else r_w_data_serial f var_names num_steps vars);
  _ ← w_global_attrs global_attrs;
  _ ← w_var_attrs var_attrs;
  close_files diskless.

(** The destination as [convert] leaves it, and how it ended. *)
Definition convert (f : Adios2File) (comm : Comm) (parallel diskless : bool)
  : Dataset * result unit :=
  convert_opened f comm parallel diskless new_Dataset.

(** ** What the issued assignments leave in the destination

    A cell of the destination is a variable, a step and an index on the
    axes after [Time].  An assignment whose data conforms to the region it
    addresses stores the data element by element; that is the only kind the
    copy loops are compared on. *)

Definition cell : Type := (string * nat * list Z)%type.

Inductive stored : Type :=
| Num (x : Z)
| Text (s : list string).

Fixpoint in_box (shape idx : list Z) : bool :=
  match shape, idx with
  | [], [] => true
  | n :: shape', i :: idx' => (0 <=? i) && (i <? n) && in_box shape' idx'
  | _, _ => false
  end.

Fixpoint in_slices (slices : list (Z * Z)) (idx : list Z) : bool :=
  match slices, idx with
  | [], [] => true
  | (a, b) :: slices', i :: idx' => (a <=? i) && (i <? b) && in_slices slices' idx'
  | _, _ => false
  end.

(** The element of the data that lands in the cell at [idx]. *)
Definition rel_index (slices : list (Z * Z)) (idx : list Z) : list Z :=
  zip_with Z.sub idx (map fst slices).

Definition written (op : nc_op) (c : cell) : option stored :=
  let '(v, s, idx) := c in
  match op with
  | SetItem var ix data =>
      if String.eqb v var then
        match ix, data with
        | At step, Arr a | AtAll step, Arr a =>
            if (s =? step)%nat && in_box (nd_shape a) idx
            then Some (Num (nd_at a idx)) else None
        | AtAll step, Str t =>
            if (s =? step)%nat && bool_decide (idx = [])
            then Some (Text t) else None
        | AtSlices step slices, Arr a =>
            if (s =? step)%nat && in_slices slices idx
            then Some (Num (nd_at a (rel_index slices idx))) else None
        | _, _ => None
        end
      else None
  | SetCollective _ _ => None
  end.

Definition apply_op (st : cell -> option stored) (op : nc_op)
  : cell -> option stored :=
  fun c => match written op c with Some x => Some x | None => st c end.

Definition contents (ops : list nc_op) : cell -> option stored :=
  fold_left apply_op ops (fun _ => None).

(** Rank [r] of a group of [nranks]. *)
Definition comm_of (nranks r : nat) : Comm :=
  {| Get_size := Z.of_nat nranks; Get_rank := Z.of_nat r |}.

(** The assignments of every rank of a group of [nranks], rank after
    rank, each rank starting from the destination [ds]. *)
Definition parallel_issued (f : Adios2File) (nranks : nat)
    (var_names : list string) (num_steps : nat) (vars : dict var_info)
    (ds : Dataset) : list nc_op :=
  flat_map
    (fun r =>
       issued (fst (r_w_data_parallel f (comm_of nranks r)
                      var_names num_steps vars ds)))
    (range nranks).

(** ** The partition as the specification words it

    Rank [r] of [W] gets [floor(L / W)] elements of an axis of length [L]
    from [r * floor(L / W)] on, the last rank [L mod W] more. *)

Definition block_start (L W r : Z) : Z := r * (L / W).

Definition block_count (L W r : Z) : Z :=
  L / W + (if r =? W - 1 then L mod W else 0).

(** [d[k1][k2]], if both keys are there. *)
Definition dict_get2 {V} (k1 k2 : string) (d : dict (dict V)) : option V :=
  match dict_get k1 d with
  | Some e => dict_get k2 e
  | None => None
  end.

(** ** What [r_attrs] has recorded

    After the keys [seen] have gone through the loop: a variable-bound
    entry comes from a key of two pieces that does not contain ["/Dims"], a
    global entry from a key without separator and without the dimension
    marker, and each holds the value read for its key. *)
Definition attrs_recorded (f : Adios2File) (seen : list string)
    (var_attrs : dict (dict attr_val)) (global_attrs : dict attr_val) : Prop :=
  (forall var name v,
      dict_get2 var name var_attrs = Some v <->
      exists k, k ∈ seen /\ contains "/Dims" k = false
                /\ split "/" k = [var; name] /\ read_value f k = Ok v)
  /\ (forall k v,
      dict_get k global_attrs = Some v <->
      k ∈ seen /\ contains "/" k = false /\ startswith k "_DIM_" = false
      /\ read_value f k = Ok v).

(** ** A small source file

    One array variable [temp] of 100 by 4 elements over three steps and one
    string variable, with the attributes a WRF history file carries: global
    ones, dimension lengths, per-variable ones and the dimension-order
    hints.  Textual attributes make the typed read raise [ValueError]; a
    selection read returns the addressed block of the full array. *)

Definition sample_attributes : dict attr_info :=
  [("TITLE", {| a_Type := "string"; a_Elements := "1"; a_Value := "OUTPUT FROM WRF" |});
   ("DX", {| a_Type := "float"; a_Elements := "1"; a_Value := "3000" |});
   ("_DIM_south_north", {| a_Type := "int32_t"; a_Elements := "1"; a_Value := "100" |});
   ("_DIM_west_east", {| a_Type := "int32_t"; a_Elements := "1"; a_Value := "4" |});
   ("_DIM_DateStrLen", {| a_Type := "int32_t"; a_Elements := "1"; a_Value := "19" |});
   ("temp/Dims", {| a_Type := "string"; a_Elements := "3"; a_Value := "" |});
   ("temp/units", {| a_Type := "string"; a_Elements := "1"; a_Value := "K" |});
   ("temp/DimsInfo", {| a_Type := "string"; a_Elements := "1"; a_Value := "staggered" |});
   ("Times/Dims", {| a_Type := "string"; a_Elements := "2"; a_Value := "" |})].

Definition sample_strings (key : string) : list string :=
  if String.eqb key "TITLE" then ["OUTPUT FROM WRF"]
  else if String.eqb key "temp/Dims" then ["west_east"; "south_north"; "Time"]
  else if String.eqb key "temp/units" then ["K"]
  else if String.eqb key "temp/DimsInfo" then ["staggered"]
  else if String.eqb key "Times/Dims" then ["DateStrLen"; "Time"]
  else [].

Definition sample_numbers (key : string) : result (list Z) :=
  if String.eqb key "DX" then Ok [3000]
  else if String.eqb key "_DIM_south_north" then Ok [100]
  else if String.eqb key "_DIM_west_east" then Ok [4]
  else if String.eqb key "_DIM_DateStrLen" then Ok [19]
  else Raise ValueError.

Definition sample_array (step : nat) : ndarray :=
  {| nd_shape := [100; 4];
     nd_at := fun idx => 1000 * Z.of_nat step + 4 * nth 0 idx 0 + nth 1 idx 0 |}.

(** The block of [a] that starts at [start] and has the shape [count]. *)
Definition block_of (a : ndarray) (start count : list Z) : ndarray :=
  {| nd_shape := count; nd_at := fun j => nd_at a (zip_with Z.add start j) |}.

Definition sample_variables : dict var_info :=
  [("temp", {| v_Type := "float"; v_Shape := "100, 4" |});
   ("Times", {| v_Type := "string"; v_Shape := "" |})].

Definition sample_file : Adios2File :=
  {| available_attributes := sample_attributes;
     read_attribute := sample_numbers;
     read_attribute_string := sample_strings;
     available_variables := sample_variables;
     steps := 3;
     read := fun _ step => sample_array step;
     read_sel := fun _ start count step => block_of (sample_array step) start count;
     read_string := fun _ _ => ["2026-01-01_00:00:00"] |}.

(** The shape of a variable declared on the dimensions [dims], when the
    dimension [d] has the length [lens d]. *)
Definition shape_along (lens : string -> Z) (dims : list string) : list Z :=
  map lens dims.

(** A type tag outside the three that [typemap] knows. *)
Definition unsupported (t : string) : Prop :=
  t <> "float" /\ t <> "int32_t" /\ t <> "string".

(** A file with a variable that carries no [Time] in its dimension list. *)
Definition static_file : Adios2File :=
  {| available_attributes :=
       [("_DIM_west_east", {| a_Type := "int32_t"; a_Elements := "1"; a_Value := "4" |});
        ("HGT/Dims", {| a_Type := "string"; a_Elements := "1"; a_Value := "" |})];
     read_attribute := fun k =>
       if String.eqb k "_DIM_west_east" then Ok [4] else Raise ValueError;
     read_attribute_string := fun k =>
       if String.eqb k "HGT/Dims" then ["west_east"] else [];
     available_variables := [("HGT", {| v_Type := "float"; v_Shape := "4" |})];
     steps := 1;
     read := fun _ _ => {| nd_shape := [4]; nd_at := fun idx => nth 0 idx 0 |};
     read_sel := fun _ start count _ =>
       block_of {| nd_shape := [4]; nd_at := fun idx => nth 0 idx 0 |} start count;
     read_string := fun _ _ => [] |}.

(** The sample file with a double-precision variable added. *)
Definition double_file : Adios2File :=
  {| available_attributes := sample_attributes;
     read_attribute := sample_numbers;
     read_attribute_string := sample_strings;
     available_variables :=
       sample_variables ++ [("PSFC", {| v_Type := "double"; v_Shape := "100, 4" |})];
     steps := 3;
     read := fun _ step => sample_array step;
     read_sel := fun _ start count step => block_of (sample_array step) start count;
     read_string := fun _ _ => ["2026-01-01_00:00:00"] |}.

(** ** The calls one step issues

    What [serial_step] and [parallel_step] issue for a variable that the
    destination declares and the catalog describes by [info]. *)

Definition issue_all (ops : list nc_op) (ds : Dataset) : Dataset :=
  {| fill := fill ds; dimensions := dimensions ds; variables := variables ds;
     ncattrs := ncattrs ds; issued := issued ds ++ ops; closed := closed ds |}.

Definition serial_ops (f : Adios2File) (info : var_info) (var : string)
    (step : nat) : list nc_op :=
  if String.eqb (v_Type info) "string" then
    [SetItem var (AtAll step) (Str (read_string f var step))]
  else
    let data := read f var step in
    if single_element data then [SetItem var (At step) (Arr data)]
    else [SetItem var (AtAll step) (Arr data)].

Definition slices_of (start_arr count_arr : list Z) : list (Z * Z) :=
  zip_with (fun s c => (s, s + c)) start_arr count_arr.

Definition parallel_ops (f : Adios2File) (info : var_info) (var : string)
    (start_arr count_arr : list Z) (step : nat) : list nc_op :=
  if String.eqb (v_Type info) "string" then
    [SetItem var (AtAll step) (Str (read_string f var step))]
  else
    let data := read_sel f var start_arr count_arr step in
    if single_element data then [SetItem var (At step) (Arr data)]
    else if bool_decide (1 <= length start_arr <= 3)%nat then
      [SetCollective var true;
       SetItem var (AtSlices step (slices_of start_arr count_arr)) (Arr data)]
    else [SetCollective var true].

(** The cells some assignment of [ops] reaches. *)
Definition covered (ops : list nc_op) (c : cell) : bool :=
  existsb (fun op => bool_decide (is_Some (written op c))) ops.

(** The value the source holds for a cell. *)
Definition source_value (f : Adios2File) (vars : dict var_info) (c : cell)
  : stored :=
  let '(v, s, idx) := c in
  match dict_get v vars with
  | Some info =>
      if String.eqb (v_Type info) "string" then Text (read_string f v s)
      else Num (nd_at (read f v s) idx)
  | None => Num 0
  end.

(** A variable the two copy paths are compared on: a string, or an array of
    one to three axes that the handle reads with the catalogued shape, a
    selection being the addressed block of the whole; and a one-axis array
    of 50 elements or more is not cut into blocks of one element. *)
Definition comparable (f : Adios2File) (nranks : Z) (vars : dict var_info)
    (var : string) : Prop :=
  exists info,
    dict_get var vars = Some info
    /\ (v_Type info = "string"
        \/ (v_Type info <> "string"
            /\ exists dshape,
                 parse_shape (v_Shape info) = Ok dshape
                 /\ (1 <= length dshape <= 3)%nat
                 /\ (forall step, nd_shape (read f var step) = dshape)
                 /\ (forall step start count,
                       nd_shape (read_sel f var start count step) = count
                       /\ forall j,
                            nd_at (read_sel f var start count step) j
                            = nd_at (read f var step) (zip_with Z.add start j))
                 /\ (forall L, dshape = [L] -> 50 <= L -> L / nranks <> 1))).

(** The assignments of one variable over all its steps, serially and on one
    rank. *)
Definition serial_var_ops (f : Adios2File) (vars : dict var_info)
    (num_steps : nat) (var : string) : list nc_op :=
  match dict_get var vars with
  | Some info => flat_map (serial_ops f info var) (range num_steps)
  | None => []
  end.

Definition parallel_var_ops (f : Adios2File) (comm : Comm)
    (vars : dict var_info) (num_steps : nat) (var : string) : list nc_op :=
  match dict_get var vars with
  | Some info =>
      if String.eqb (v_Type info) "string" then
        flat_map (parallel_ops f info var [] []) (range num_steps)
      else
        match decomp comm var vars with
        | Ok (start_arr, count_arr) =>
            flat_map (parallel_ops f info var start_arr count_arr)
                     (range num_steps)
        | Raise _ => []
        end
  | None => []
  end.

(** Every assignment of [ops] stores what the source holds. *)
Definition faithful (f : Adios2File) (vars : dict var_info)
    (ops : list nc_op) : Prop :=
  forall op, op ∈ ops ->
    forall c x, written op c = Some x -> x = source_value f vars c.

(** A file with one variable of four axes. *)
Definition four_axes_file : Adios2File :=
  {| available_attributes :=
       [("_DIM_a", {| a_Type := "int32_t"; a_Elements := "1"; a_Value := "2" |});
        ("_DIM_b", {| a_Type := "int32_t"; a_Elements := "1"; a_Value := "3" |});
        ("_DIM_c", {| a_Type := "int32_t"; a_Elements := "1"; a_Value := "4" |});
        ("_DIM_d", {| a_Type := "int32_t"; a_Elements := "1"; a_Value := "5" |});
        ("tracer/Dims", {| a_Type := "string"; a_Elements := "5"; a_Value := "" |})];
     read_attribute := fun _ => Raise ValueError;
     read_attribute_string := fun k =>
       if String.eqb k "tracer/Dims" then ["d"; "c"; "b"; "a"; "Time"] else [];
     available_variables :=
       [("tracer", {| v_Type := "float"; v_Shape := "2, 3, 4, 5" |})];
     steps := 1;
     read := fun _ _ => {| nd_shape := [2; 3; 4; 5]; nd_at := fun _ => 7 |};
     read_sel := fun _ start count _ =>
       block_of {| nd_shape := [2; 3; 4; 5]; nd_at := fun _ => 7 |} start count;
     read_string := fun _ _ => [] |}.

(** A destination in which [tracer] is declared. *)
Definition four_axes_dest : Dataset :=
  {| fill := false;
     dimensions := [("Time", 1); ("a", 2); ("b", 3); ("c", 4); ("d", 5)];
     variables := [("tracer", {| datatype := "f";
                                 var_dimensions := ["Time"; "a"; "b"; "c"; "d"];
                                 var_ncattrs := [] |})];
     ncattrs := []; issued := []; closed := false |}.

(** The cells of step [step] of [var] whose index is in [region]. *)
Definition reach (var : string) (step : nat) (region : list Z -> bool)
    (c : cell) : bool :=
  let '(v, s, idx) := c in
  String.eqb v var && (s =? step)%nat && region idx.

(** The destination of the sample file once its schema is declared. *)
Definition sample_dest : Dataset := Eval vm_compute in
    fst (create_nc_vars ["temp"; "Times"] [("temp", "f"); ("Times", "c")]
           [("temp", ["Time"; "south_north"; "west_east"]);
            ("Times", ["Time"; "DateStrLen"])]
           (fst (create_nc_dims 3
                   [("south_north", 100); ("west_east", 4); ("DateStrLen", 19)]
                   new_Dataset))).

(** ** The entry point *)

(** The module-level flag [parallel]: true when [mpi4py] imports and the
    group has more than one process; [None] stands for the failed import. *)
Definition parallel_flag (mpi : option Comm) : bool :=
  match mpi with
  | Some comm => Get_size comm >? 1
  | None => false
  end.

(** The script body: [convert(args.input, args.output, parallel=parallel)],
    with [diskless] left at its default.  Without MPI the group is never
    consulted. *)
Definition main (f : Adios2File) (mpi : option Comm) : Dataset * result unit :=
  convert f (default {| Get_size := 1; Get_rank := 0 |} mpi)
          (parallel_flag mpi) false.

(** ** More small source files *)

(** The sample file with one more attribute, whose key has three pieces. *)
Definition nested_key_file : Adios2File :=
  {| available_attributes :=
       sample_attributes
       ++ [("temp/stagger/x", {| a_Type := "string"; a_Elements := "1"; a_Value := "X" |})];
     read_attribute := sample_numbers;
     read_attribute_string := sample_strings;
     available_variables := sample_variables;
     steps := 3;
     read := fun _ step => sample_array step;
     read_sel := fun _ start count step => block_of (sample_array step) start count;
     read_string := fun _ _ => ["2026-01-01_00:00:00"] |}.

(** A file whose dimension length is not a number. *)
Definition bad_length_file : Adios2File :=
  {| available_attributes :=
       [("_DIM_west_east", {| a_Type := "string"; a_Elements := "1"; a_Value := "four" |})];
     read_attribute := fun _ => Raise ValueError;
     read_attribute_string := fun _ => ["four"];
     available_variables := [];
     steps := 1;
     read := fun _ _ => {| nd_shape := []; nd_at := fun _ => 0 |};
     read_sel := fun _ _ count _ => {| nd_shape := count; nd_at := fun _ => 0 |};
     read_string := fun _ _ => [] |}.

(** A file with a single-value variable: its shape string is empty and a
    read returns one element. *)
Definition single_value_file : Adios2File :=
  {| available_attributes :=
       [("P_TOP/Dims", {| a_Type := "string"; a_Elements := "1"; a_Value := "" |})];
     read_attribute := fun _ => Raise ValueError;
     read_attribute_string := fun k =>
       if String.eqb k "P_TOP/Dims" then ["Time"] else [];
     available_variables := [("P_TOP", {| v_Type := "float"; v_Shape := "" |})];
     steps := 2;
     read := fun _ _ => {| nd_shape := [1]; nd_at := fun _ => 5000 |};
     read_sel := fun _ _ _ _ => {| nd_shape := [1]; nd_at := fun _ => 5000 |};
     read_string := fun _ _ => [] |}.

(** The sample file with an attribute bound to a name that is no
    variable. *)
Definition ghost_attr_file : Adios2File :=
  {| available_attributes :=
       sample_attributes
       ++ [("ghost/units", {| a_Type := "string"; a_Elements := "1"; a_Value := "m" |})];
     read_attribute := sample_numbers;
     read_attribute_string := fun k =>
       if String.eqb k "ghost/units" then ["m"] else sample_strings k;
     available_variables := sample_variables;
     steps := 3;
     read := fun _ step => sample_array step;
     read_sel := fun _ start count step => block_of (sample_array step) start count;
     read_string := fun _ _ => ["2026-01-01_00:00:00"] |}.

(** ** What an operation leaves alone *)

(** The flags and the global attributes of [d'] are those of [d]. *)
Definition same_meta (d d' : Dataset) : Prop :=
  fill d' = fill d /\ closed d' = closed d /\ ncattrs d' = ncattrs d.

(** The schema of [d'] is that of [d]. *)
Definition same_schema (d d' : Dataset) : Prop :=
  dimensions d' = dimensions d /\ variables d' = variables d.

(** The variable [var] of [d] has the attribute [name] with value [val]. *)
Definition has_var_attr (d : Dataset) (var name : string) (val : attr_val)
  : Prop :=
  exists v, dict_get var (variables d) = Some v
            /\ dict_get name (var_ncattrs v) = Some val.

(** The variables of [d'] are those of [d], with the same types and
    dimension lists; only their attributes may differ. *)
Definition same_declarations (d d' : Dataset) : Prop :=
  dimensions d' = dimensions d
  /\ dict_keys (variables d') = dict_keys (variables d)
  /\ forall var v', dict_get var (variables d') = Some v' ->
       exists v, dict_get var (variables d) = Some v
                 /\ datatype v' = datatype v
                 /\ var_dimensions v' = var_dimensions v.

(** The state of the loops of [w_var_attrs] on the way from [ds0] to [d]:
    the declarations, flags, global attributes and assignments are those of
    [ds0], and the attributes of [var_attrs] picked out by [done] are set. *)
Definition attrs_written (var_attrs : dict (dict attr_val)) (ds0 : Dataset)
    (done : string -> string -> Prop) (d : Dataset) : Prop :=
  same_declarations ds0 d /\ same_meta ds0 d /\ issued d = issued ds0
  /\ forall v n val,
       done v n -> dict_get2 v n var_attrs = Some val -> has_var_attr d v n val.

(** ** Data that fits its variable *)

(** The destination declares [var] as the catalog describes it: on a first
    dimension with room for [num_steps] steps, followed, for an array, by
    dimensions that have the extents of its shape, which are 64-bit
    integers.  The assignments of the copy loops then address regions of
    the shape of their data. *)
Definition declared_as (vars : dict var_info) (num_steps : nat)
    (ds : Dataset) (var : string) : Prop :=
  exists info v time dims n,
    dict_get var vars = Some info
    /\ dict_get var (variables ds) = Some v
    /\ var_dimensions v = time :: dims
    /\ dict_get time (dimensions ds) = Some n
    /\ Z.of_nat num_steps <= n
    /\ (v_Type info <> "string" ->
        exists dshape,
          parse_shape (v_Shape info) = Ok dshape
          /\ Forall int64_range dshape
          /\ Forall2 (fun d extent => dict_get d (dimensions ds) = Some extent)
                     dims dshape).

(** * Properties *)

(** ** Sanity checks of the primitives *)

Example py_int_ex : py_int " 100" = Ok 100 /\ py_int "-7" = Ok (-7)
  /\ py_int "" = Raise ValueError /\ py_int "1_000" = Ok 1000
  /\ py_int "4x" = Raise ValueError.
Proof. repeat split; reflexivity. Qed.

Example split_ex : split "/" "T/units" = ["T"; "units"]
  /\ split "/" "a/b/c" = ["a"; "b"; "c"] /\ split "," "" = [""].
Proof. repeat split; reflexivity. Qed.

Example parse_shape_ex : parse_shape "100, 4" = Ok [100; 4]
  /\ parse_shape "" = Raise ValueError.
Proof. split; reflexivity. Qed.

Example decomp_ex :
  decomp {| Get_size := 2; Get_rank := 1 |} "temp"
         [("temp", {| v_Type := "float"; v_Shape := "100, 4" |})]
  = Ok ([50; 0], [50; 4]).
Proof. reflexivity. Qed.

(** ** The decomposition *)

(** [argmax_from] keeps the first largest entry seen so far. *)
Lemma argmax_from_spec (l pre : list Z) (best_i : nat) (best : Z) :
  pre !! best_i = Some best ->
  (forall x, x ∈ pre -> x <= best) ->
  (forall j x, (j < best_i)%nat -> pre !! j = Some x -> x < best) ->
  exists L,
    (pre ++ l) !! argmax_from best_i best (length pre) l = Some L
    /\ (forall x, x ∈ pre ++ l -> x <= L)
    /\ (forall j x, (j < argmax_from best_i best (length pre) l)%nat ->
                    (pre ++ l) !! j = Some x -> x < L).
Proof.
  revert pre best_i best.
  induction l as [|y l IH]; intros pre best_i best Hat Hmax Hfirst; simpl.
  - rewrite app_nil_r. exists best. auto.
  - replace (pre ++ y :: l) with ((pre ++ [y]) ++ l)
      by (rewrite <- app_assoc; reflexivity).
    replace (S (length pre)) with (length (pre ++ [y]))
      by (rewrite length_app; simpl; lia).
    destruct (best <? y) eqn:Hlt.
    + apply Z.ltb_lt in Hlt.
      apply IH.
      * rewrite lookup_app_r by lia.
        replace (length pre - length pre)%nat with 0%nat by lia.
        reflexivity.
      * intros x Hx. apply elem_of_app in Hx as [Hx|Hx].
        -- specialize (Hmax x Hx). lia.
        -- apply list_elem_of_singleton in Hx. lia.
      * intros j x Hj Hjx.
        rewrite lookup_app_l in Hjx by lia.
        assert (x ∈ pre) as Hx by (eapply list_elem_of_lookup_2; eauto).
        specialize (Hmax x Hx). lia.
    + apply Z.ltb_ge in Hlt.
      apply IH.
      * rewrite lookup_app_l; [assumption|].
        eapply lookup_lt_Some; eauto.
      * intros x Hx. apply elem_of_app in Hx as [Hx|Hx].
        -- auto.
        -- apply list_elem_of_singleton in Hx. lia.
      * intros j x Hj Hjx.
        assert (best_i < length pre)%nat by (eapply lookup_lt_Some; eauto).
        rewrite lookup_app_l in Hjx by lia.
        eauto.
Qed.

(** [np.argmax]: defined on a non-empty shape, where it returns the first
    position of the largest extent. *)
Lemma argmax_spec (dshape : list Z) (L : Z) :
  L ∈ dshape ->
  (forall x, x ∈ dshape -> x <= L) ->
  exists m : nat,
    argmax dshape = Ok m
    /\ dshape !! m = Some L
    /\ (forall j x, (j < m)%nat -> dshape !! j = Some x -> x < L).
Proof.
  intros Hin Hmax.
  destruct dshape as [|x l]; [inversion Hin|].
  destruct (argmax_from_spec l [x] 0 x) as (L' & Hat & Hle & Hfirst).
  - reflexivity.
  - intros y Hy. apply list_elem_of_singleton in Hy. lia.
  - intros j y Hj. lia.
  - simpl in Hat, Hle, Hfirst.
    assert (L' = L) as ->.
    { assert (L' ∈ x :: l) as HL' by (eapply list_elem_of_lookup_2; eauto).
      specialize (Hmax _ HL'). specialize (Hle _ Hin). lia. }
    exists (argmax_from 0 x 1 l). simpl. auto.
Qed.

(** [Locate] on a group that has at least one rank. *)
Lemma Locate_spec (rank nproc datasize : Z) :
  nproc <> 0 ->
  Locate rank nproc datasize =
    Ok ((datasize / nproc) * rank,
        datasize / nproc
        + (if rank =? nproc - 1 then datasize mod nproc else 0)).
Proof.
  intros Hn. unfold Locate, pymod, floordiv.
  apply Z.eqb_neq in Hn. rewrite Hn.
  destruct (rank =? nproc - 1); reflexivity.
Qed.

Lemma decomp_parsed (comm : Comm) (var : string) (vars : dict var_info)
    (info : var_info) (dshape : list Z) :
  getitem vars var = Ok info ->
  parse_shape (v_Shape info) = Ok dshape ->
  decomp comm var vars = decomp_shape comm dshape.
Proof. intros Hv Hs. unfold decomp. rewrite Hv. simpl. rewrite Hs. reflexivity. Qed.

Lemma decomp_shape_small (comm : Comm) (dshape : list Z) (L : Z) :
  L ∈ dshape -> (forall x, x ∈ dshape -> x <= L) -> L < 50 ->
  decomp_shape comm dshape = Ok (zeros_like dshape, dshape).
Proof.
  intros Hin Hmax Hsmall.
  destruct (argmax_spec dshape L Hin Hmax) as (m & Hm & Hat & _).
  unfold decomp_shape. rewrite Hm. simpl. rewrite Hat.
  apply Z.ltb_lt in Hsmall. rewrite Hsmall. reflexivity.
Qed.

Lemma decomp_shape_large (W r : Z) (dshape : list Z) (L : Z) (m : nat) :
  argmax dshape = Ok m -> dshape !! m = Some L -> 50 <= L -> W <> 0 ->
  decomp_shape {| Get_size := W; Get_rank := r |} dshape =
    Ok (<[m := (L / W) * r]> (zeros_like dshape),
        <[m := L / W + (if r =? W - 1 then L mod W else 0)]> dshape).
Proof.
  intros Hm Hat Hbig HW.
  unfold decomp_shape. rewrite Hm. simpl. rewrite Hat.
  apply Z.ltb_ge in Hbig. rewrite Hbig.
  rewrite Locate_spec by assumption. reflexivity.
Qed.

(** The blocks [Locate] hands out tile the axis. *)
Section Blocks.
Variables (L W : Z).
Hypothesis HL : 0 <= L.
Hypothesis HW : 1 <= W.

Lemma block_quotient : 0 <= L / W /\ L = W * (L / W) + L mod W
                       /\ 0 <= L mod W < W.
Proof.
  split; [apply Z.div_pos; lia|].
  split; [apply Z.div_mod; lia|].
  apply Z.mod_pos_bound; lia.
Qed.

Lemma blocks_disjoint (r1 r2 : Z) :
  0 <= r1 < r2 -> r2 < W ->
  block_start L W r1 + block_count L W r1 <= block_start L W r2.
Proof.
  intros H1 H2. unfold block_start, block_count.
  destruct block_quotient as (Hq & _ & _).
  destruct (Z.eqb_spec r1 (W - 1)); [lia|]. nia.
Qed.

Lemma blocks_inside (r x : Z) :
  0 <= r < W ->
  block_start L W r <= x < block_start L W r + block_count L W r ->
  0 <= x < L.
Proof.
  intros Hr Hx. unfold block_start, block_count in *.
  destruct block_quotient as (Hq & Hdm & Hm).
  destruct (Z.eqb_spec r (W - 1)); nia.
Qed.

Lemma blocks_cover (x : Z) :
  0 <= x < L ->
  exists r, 0 <= r < W
            /\ block_start L W r <= x < block_start L W r + block_count L W r.
Proof.
  intros Hx. unfold block_start, block_count.
  destruct block_quotient as (Hq & Hdm & Hm).
  destruct (Z_lt_le_dec x ((W - 1) * (L / W))) as [Hlow|Hhigh].
  - assert (0 < L / W) as Hpos by nia.
    exists (x / (L / W)).
    assert (0 <= x / (L / W)) by (apply Z.div_pos; lia).
    assert (x / (L / W) < W - 1) by (apply Z.div_lt_upper_bound; lia).
    pose proof (Z.div_mod x (L / W) ltac:(lia)) as Hxd.
    pose proof (Z.mod_pos_bound x (L / W) Hpos) as Hxm.
    destruct (Z.eqb_spec (x / (L / W)) (W - 1)); [lia|]. nia.
  - exists (W - 1). rewrite Z.eqb_refl. nia.
Qed.

End Blocks.

Lemma decomp_shape_blocks (W r : Z) (dshape : list Z) (L : Z) (m : nat) :
  argmax dshape = Ok m -> dshape !! m = Some L -> 50 <= L -> W <> 0 ->
  decomp_shape {| Get_size := W; Get_rank := r |} dshape =
    Ok (<[m := block_start L W r]> (zeros_like dshape),
        <[m := block_count L W r]> dshape).
Proof.
  intros Hm Hat Hbig HW.
  rewrite (decomp_shape_large W r dshape L m) by assumption.
  unfold block_start, block_count. rewrite (Z.mul_comm (L / W) r). reflexivity.
Qed.

(** C1.  A variable whose largest axis has length [L >= 50], on [W >= 1]
    ranks, every extent being a 64-bit integer as numpy stores it:
    [decomp] gives rank [r] the block of [floor(L/W)] elements that
    starts at [r * floor(L/W)] on the first largest axis, the last rank
    [L mod W] more; every other axis keeps start 0 and its full length; the
    blocks of two ranks never overlap, and together they are exactly
    [0, L). *)
Theorem decomp_partitions_largest_axis
    (vars : dict var_info) (var : string) (info : var_info)
    (dshape : list Z) (L W : Z) :
  getitem vars var = Ok info ->
  parse_shape (v_Shape info) = Ok dshape ->
  Forall int64_range dshape ->
  L ∈ dshape -> (forall x, x ∈ dshape -> x <= L) ->
  50 <= L -> 1 <= W ->
  exists m : nat,
    dshape !! m = Some L
    /\ (forall r, 0 <= r < W ->
          exists start_arr count_arr,
            decomp {| Get_size := W; Get_rank := r |} var vars
              = Ok (start_arr, count_arr)
            /\ start_arr !! m = Some (block_start L W r)
            /\ count_arr !! m = Some (block_count L W r)
            /\ length start_arr = length dshape
            /\ length count_arr = length dshape
            /\ (forall j, j <> m -> (j < length dshape)%nat ->
                  start_arr !! j = Some 0 /\ count_arr !! j = dshape !! j))
    /\ (forall r1 r2, 0 <= r1 < r2 -> r2 < W ->
          block_start L W r1 + block_count L W r1 <= block_start L W r2)
    /\ (forall x, 0 <= x < L <->
          exists r, 0 <= r < W
            /\ block_start L W r <= x < block_start L W r + block_count L W r).
Proof.
  intros Hv Hs _ Hin Hmax Hbig HW.
  destruct (argmax_spec dshape L Hin Hmax) as (m & Hm & Hat & _).
  assert (m < length dshape)%nat as Hlt by (eapply lookup_lt_Some; eauto).
  exists m. split; [assumption|]. split; [|split].
  - intros r Hr.
    exists (<[m := block_start L W r]> (zeros_like dshape)),
           (<[m := block_count L W r]> dshape).
    rewrite (decomp_parsed _ _ _ _ _ Hv Hs).
    rewrite (decomp_shape_blocks W r dshape L m) by (assumption || lia).
    unfold zeros_like.
    split; [reflexivity|].
    split; [apply list_lookup_insert_eq; rewrite length_replicate; lia|].
    split; [apply list_lookup_insert_eq; lia|].
    split; [rewrite length_insert, length_replicate; reflexivity|].
    split; [rewrite length_insert; reflexivity|].
    intros j Hj Hjl. split.
    + rewrite list_lookup_insert_ne by congruence.
      apply lookup_replicate_2. assumption.
    + rewrite list_lookup_insert_ne by congruence. reflexivity.
  - intros r1 r2 H1 H2. apply blocks_disjoint; lia.
  - intros x. split.
    + intros Hx. apply blocks_cover; lia.
    + intros (r & Hr & Hx). apply (blocks_inside L W) with (r := r); lia.
Qed.

Lemma decomp_partitions_largest_axis_witness :
  exists m : nat,
    [100; 4] !! m = Some 100
    /\ (forall r, 0 <= r < 2 ->
          exists start_arr count_arr,
            decomp {| Get_size := 2; Get_rank := r |} "temp"
                   [("temp", {| v_Type := "float"; v_Shape := "100, 4" |})]
              = Ok (start_arr, count_arr)
            /\ start_arr !! m = Some (block_start 100 2 r)
            /\ count_arr !! m = Some (block_count 100 2 r)
            /\ length start_arr = length [100; 4]
            /\ length count_arr = length [100; 4]
            /\ (forall j, j <> m -> (j < length [100; 4])%nat ->
                  start_arr !! j = Some 0 /\ count_arr !! j = [100; 4] !! j))
    /\ (forall r1 r2, 0 <= r1 < r2 -> r2 < 2 ->
          block_start 100 2 r1 + block_count 100 2 r1 <= block_start 100 2 r2)
    /\ (forall x, 0 <= x < 100 <->
          exists r, 0 <= r < 2
            /\ block_start 100 2 r <= x
                < block_start 100 2 r + block_count 100 2 r).
Proof.
  apply (decomp_partitions_largest_axis
           [("temp", {| v_Type := "float"; v_Shape := "100, 4" |})]
           "temp" {| v_Type := "float"; v_Shape := "100, 4" |} [100; 4] 100 2).
  - reflexivity.
  - reflexivity.
  - repeat constructor; unfold int64_range; lia.
  - apply list_elem_of_here.
  - intros x Hx.
    repeat (apply elem_of_cons in Hx as [->|Hx]; [lia|]). inversion Hx.
  - lia.
  - lia.
Defined.

(** C5.  A variable whose largest axis is shorter than 50: whatever the
    rank and the size of the group, [decomp] returns the zero vector as
    start and the full shape as count. *)
Theorem decomp_small_is_full_range
    (comm : Comm) (vars : dict var_info) (var : string) (info : var_info)
    (dshape : list Z) (L : Z) :
  getitem vars var = Ok info ->
  parse_shape (v_Shape info) = Ok dshape ->
  L ∈ dshape -> (forall x, x ∈ dshape -> x <= L) ->
  L < 50 ->
  decomp comm var vars = Ok (replicate (length dshape) 0, dshape).
Proof.
  intros Hv Hs Hin Hmax Hsmall.
  rewrite (decomp_parsed _ _ _ _ _ Hv Hs).
  apply (decomp_shape_small comm dshape L); assumption.
Qed.

Lemma decomp_small_is_full_range_witness :
  decomp {| Get_size := 4; Get_rank := 3 |} "ZNU"
         [("ZNU", {| v_Type := "float"; v_Shape := "49" |})]
  = Ok (replicate (length [49]) 0, [49]).
Proof.
  apply (decomp_small_is_full_range
           {| Get_size := 4; Get_rank := 3 |}
           [("ZNU", {| v_Type := "float"; v_Shape := "49" |})]
           "ZNU" {| v_Type := "float"; v_Shape := "49" |} [49] 49).
  - reflexivity.
  - reflexivity.
  - apply list_elem_of_here.
  - intros x Hx.
    repeat (apply elem_of_cons in Hx as [->|Hx]; [lia|]). inversion Hx.
  - lia.
Defined.

(** ** Dictionaries and strings *)

Lemma dict_get_set_eq {V} (k : string) (v : V) (d : dict V) :
  dict_get k (dict_set k v d) = Some v.
Proof.
  induction d as [|[k' v'] d IH]; simpl.
  - rewrite String.eqb_refl. reflexivity.
  - destruct (String.eqb k k') eqn:E; simpl.
    + rewrite String.eqb_refl. reflexivity.
    + rewrite E. exact IH.
Qed.

Lemma dict_get_set_ne {V} (k k0 : string) (v : V) (d : dict V) :
  k <> k0 -> dict_get k0 (dict_set k v d) = dict_get k0 d.
Proof.
  intros Hne. induction d as [|[k' v'] d IH]; simpl.
  - destruct (String.eqb_spec k0 k); [congruence | reflexivity].
  - destruct (String.eqb_spec k k') as [->|Hk]; simpl.
    + destruct (String.eqb_spec k0 k'); [congruence | reflexivity].
    + destruct (String.eqb_spec k0 k'); [reflexivity | exact IH].
Qed.

Lemma dict_get_set {V} (k k0 : string) (v : V) (d : dict V) :
  dict_get k0 (dict_set k v d) = if String.eqb k0 k then Some v else dict_get k0 d.
Proof.
  destruct (String.eqb_spec k0 k) as [->|Hne].
  - apply dict_get_set_eq.
  - apply dict_get_set_ne. congruence.
Qed.

Lemma getitem_Some {V} (d : dict V) (k : string) (v : V) :
  dict_get k d = Some v -> getitem d k = Ok v.
Proof. intros H. unfold getitem. rewrite H. reflexivity. Qed.

Lemma getitem_Ok {V} (d : dict V) (k : string) (v : V) :
  getitem d k = Ok v -> dict_get k d = Some v.
Proof.
  unfold getitem. destruct (dict_get k d); intros H; inversion H; reflexivity.
Qed.

Lemma dict_get_Some_key {V} (k : string) (v : V) (d : dict V) :
  dict_get k d = Some v -> k ∈ dict_keys d.
Proof.
  induction d as [|[k' v'] d IH]; simpl; [discriminate|].
  destruct (String.eqb_spec k k') as [->|Hne]; intros H.
  - apply list_elem_of_here.
  - apply list_elem_of_further. auto.
Qed.

Lemma dict_get_key_Some {V} (k : string) (d : dict V) :
  k ∈ dict_keys d -> exists v, dict_get k d = Some v.
Proof.
  induction d as [|[k' v'] d IH]; simpl; intros H.
  - inversion H.
  - destruct (String.eqb_spec k k') as [->|Hne]; [eauto|].
    apply elem_of_cons in H as [H|H]; [congruence | auto].
Qed.

(** In a dictionary, whose keys are distinct, an item is what its key
    looks up. *)
Lemma dict_get_item {V} (k : string) (v : V) (d : dict V) :
  NoDup (dict_keys d) -> (k, v) ∈ d -> dict_get k d = Some v.
Proof.
  induction d as [|[k' v'] d IH]; simpl; intros Hnd Hin.
  - inversion Hin.
  - apply NoDup_cons in Hnd as [Hk' Hnd].
    apply elem_of_cons in Hin as [Heq|Hin].
    + inversion Heq; subst. rewrite String.eqb_refl. reflexivity.
    + destruct (String.eqb_spec k k') as [->|Hne]; [|auto].
      exfalso. apply Hk'. unfold dict_keys.
      apply list_elem_of_fmap. exists (k', v). auto.
Qed.

Lemma append_cons (c : ascii) (s t : string) :
  String c s +:+ t = String c (s +:+ t).
Proof. reflexivity. Qed.

Lemma append_empty (t : string) : "" +:+ t = t.
Proof. reflexivity. Qed.

Lemma startswith_split (s p : string) :
  startswith s p = true <-> exists b, s = p +:+ b.
Proof.
  revert s. induction p as [|a p IH]; intros s; simpl.
  - split; [intros _; exists s; reflexivity | intros _; reflexivity].
  - destruct s as [|c s].
    + split; [discriminate | intros [b Hb]; discriminate].
    + destruct (Ascii.eqb_spec a c) as [->|Hne]; simpl.
      * rewrite IH. split; intros [b Hb]; exists b;
          rewrite append_cons in *; congruence.
      * split; [discriminate|].
        intros [b Hb]. rewrite append_cons in Hb. congruence.
Qed.

(** [contains] is the substring test. *)
Lemma contains_spec (sub s : string) :
  contains sub s = true <-> exists a b, s = a +:+ sub +:+ b.
Proof.
  induction s as [|c s IH]; simpl.
  - rewrite orb_false_r, startswith_split. split.
    + intros [b Hb]. exists "", b. exact Hb.
    + intros (a & b & Hab). destruct a; [exists b; exact Hab|discriminate].
  - rewrite orb_true_iff, startswith_split, IH. split.
    + intros [[b Hb]|(a & b & Hab)].
      * exists "", b. exact Hb.
      * exists (String c a), b. rewrite append_cons. congruence.
    + intros (a & b & Hab). destruct a as [|c' a].
      * left. exists b. exact Hab.
      * right. exists a, b. rewrite append_cons in Hab. congruence.
Qed.

Lemma contains_Dims_separator (s : string) :
  contains "/Dims" s = true -> contains "/" s = true.
Proof.
  rewrite !contains_spec. intros (a & b & ->).
  exists a, ("Dims" +:+ b). reflexivity.
Qed.

Lemma startswith_from (s p : string) :
  startswith s p = true -> s = p +:+ str_from (String.length p) s.
Proof.
  revert s. induction p as [|a p IH]; intros s; simpl.
  - reflexivity.
  - destruct s as [|c s]; [discriminate|].
    destruct (Ascii.eqb_spec a c) as [->|]; [|discriminate].
    simpl. intros H. rewrite append_cons. f_equal. auto.
Qed.

Lemma contains_separator_cons (sep c : ascii) (s : string) :
  contains (String sep "") (String c s)
  = Ascii.eqb sep c || contains (String sep "") s.
Proof.
  simpl. destruct (Ascii.eqb sep c); simpl; [|reflexivity].
  destruct s; reflexivity.
Qed.

Lemma split_nonempty (sep : ascii) (s : string) : split sep s <> [].
Proof.
  destruct s as [|c s]; simpl; [discriminate|].
  destruct (Ascii.eqb c sep); [discriminate|].
  destruct (split sep s); discriminate.
Qed.

(** A key without the separator is one piece. *)
Lemma split_no_separator (sep : ascii) (s : string) :
  contains (String sep "") s = false -> split sep s = [s].
Proof.
  induction s as [|c s IH]; [reflexivity|].
  rewrite contains_separator_cons. intros H.
  apply orb_false_iff in H as [Hc Hs]. simpl.
  rewrite Ascii.eqb_sym, Hc, IH by exact Hs. reflexivity.
Qed.

Lemma split_separator_two (sep : ascii) (s : string) :
  contains (String sep "") s = true ->
  exists a b rest, split sep s = a :: b :: rest.
Proof.
  induction s as [|c s IH]; [discriminate|].
  rewrite contains_separator_cons. intros H. simpl.
  destruct (Ascii.eqb_spec c sep) as [->|Hne].
  - pose proof (split_nonempty sep s).
    destruct (split sep s) as [|b rest]; [congruence|]. eauto.
  - destruct (Ascii.eqb_spec sep c); [congruence|]. simpl in H.
    destruct (IH H) as (a & b & rest & ->). eauto.
Qed.

(** Two pieces are the two sides of the only separator. *)
Lemma split_two (sep : ascii) (s a b : string) :
  split sep s = [a; b] ->
  s = a +:+ String sep b /\ contains (String sep "") s = true.
Proof.
  revert a. induction s as [|c s IH]; intros a; [discriminate|].
  rewrite contains_separator_cons. simpl.
  destruct (Ascii.eqb_spec c sep) as [->|Hne].
  - intros H. rewrite Ascii.eqb_refl. split; [|reflexivity].
    inversion H as [[Ha Hs]]. rewrite append_empty. f_equal.
    destruct (contains (String sep "") s) eqn:Hc.
    + destruct (split_separator_two sep s Hc) as (x & y & rest & Hxy).
      congruence.
    + apply split_no_separator in Hc. congruence.
  - destruct (split sep s) as [|w ws] eqn:Hsp; [discriminate|].
    intros H. inversion H; subst.
    destruct (IH w eq_refl) as [-> Hc].
    split; [rewrite append_cons; reflexivity|].
    rewrite Hc. apply orb_true_r.
Qed.

(** ** Reading the attributes *)

Arguments startswith : simpl never.
Arguments contains : simpl never.
Arguments split : simpl never.
Arguments str_from : simpl never.
Arguments py_int : simpl never.

Lemma dict_get2_set {V} (var0 name0 var name : string) (val : V)
    (d : dict (dict V)) :
  dict_get2 var name
    (dict_set var0 (dict_set name0 val (default [] (dict_get var0 d))) d)
  = if String.eqb var var0 && String.eqb name name0 then Some val
    else dict_get2 var name d.
Proof.
  unfold dict_get2. rewrite dict_get_set.
  destruct (String.eqb_spec var var0) as [->|Hv]; simpl; [|reflexivity].
  rewrite dict_get_set.
  destruct (String.eqb_spec name name0) as [->|Hn]; [reflexivity|].
  destruct (dict_get var0 d); reflexivity.
Qed.

Lemma foldM_app {A B} (f : A -> B -> result A) (acc : A) (l1 l2 : list B) :
  foldM f acc (l1 ++ l2) = (acc' ← foldM f acc l1; foldM f acc' l2).
Proof.
  revert acc. induction l1 as [|x l1 IH]; intros acc; simpl; [reflexivity|].
  destruct (f acc x) as [acc'|e]; simpl; [apply IH | reflexivity].
Qed.

(** A loop that ended normally ran every iteration normally. *)
Lemma foldM_Ok_each {A B} (f : A -> B -> result A) (acc acc' : A) (l : list B) :
  foldM f acc l = Ok acc' ->
  forall x, x ∈ l -> exists a a', f a x = Ok a'.
Proof.
  revert acc. induction l as [|y l IH]; intros acc H x Hx; [inversion Hx|].
  simpl in H. destruct (f acc y) as [acc1|e] eqn:Hy; [|discriminate].
  apply elem_of_cons in Hx as [->|Hx]; [eauto|].
  eapply IH; eauto.
Qed.

Lemma foldM_invariant {A B} (f : A -> B -> result A) (I : list B -> A -> Prop) :
  (forall seen acc x acc', I seen acc -> f acc x = Ok acc' -> I (seen ++ [x]) acc') ->
  forall l seen acc acc',
    I seen acc -> foldM f acc l = Ok acc' -> I (seen ++ l) acc'.
Proof.
  intros Hstep. induction l as [|x l IH]; intros seen acc acc' HI H; simpl in H.
  - inversion H; subst. rewrite app_nil_r. exact HI.
  - destruct (f acc x) as [acc1|e] eqn:Hx; [|discriminate]. simpl in H.
    replace (seen ++ x :: l) with ((seen ++ [x]) ++ l)
      by (rewrite <- app_assoc; reflexivity).
    eapply IH; eauto.
Qed.

(** The three outcomes of one iteration of [r_attrs] that ends normally. *)
Lemma r_attrs_body_Ok (f : Adios2File) (va va' : dict (dict attr_val))
    (ga ga' : dict attr_val) (k : string) :
  r_attrs_body f (va, ga) k = Ok (va', ga') ->
  (contains "/Dims" k = true /\ va' = va /\ ga' = ga)
  \/ (contains "/Dims" k = false /\ exists val, read_value f k = Ok val /\
      ((contains "/" k = true /\ exists var name,
          split "/" k = [var; name] /\ ga' = ga /\
          va' = dict_set var (dict_set name val (default [] (dict_get var va))) va)
       \/ (contains "/" k = false /\ startswith k "_DIM_" = false
           /\ va' = va /\ ga' = dict_set k val ga)
       \/ (contains "/" k = false /\ startswith k "_DIM_" = true
           /\ va' = va /\ ga' = ga))).
Proof.
  unfold r_attrs_body.
  destruct (contains "/Dims" k) eqn:HD.
  - intros H. inversion H. auto.
  - destruct (read_value f k) as [val|e]; simpl; [|discriminate].
    intros H. right. split; [reflexivity|]. exists val. split; [reflexivity|].
    destruct (contains "/" k) eqn:Hsep.
    + left. split; [reflexivity|].
      destruct (split "/" k) as [|var [|name [|x rest]]]; try discriminate.
      inversion H. eauto.
    + destruct (startswith k "_DIM_") eqn:Hdim; simpl in H; inversion H; subst;
        [right; right | right; left]; repeat split; reflexivity.
Qed.

Lemma r_attrs_body_recorded (f : Adios2File) (seen : list string)
    (acc acc' : dict (dict attr_val) * dict attr_val) (k : string) :
  attrs_recorded f seen (fst acc) (snd acc) ->
  r_attrs_body f acc k = Ok acc' ->
  attrs_recorded f (seen ++ [k]) (fst acc') (snd acc').
Proof.
  destruct acc as [va ga], acc' as [va' ga']. simpl.
  intros [Hva Hga] Hbody.
  apply r_attrs_body_Ok in Hbody
    as [(HD & -> & ->) | (HD & val & Hval & Hcase)].
  - (* skipped *)
    split.
    + intros var name v. rewrite Hva. split.
      * intros (k' & Hin & H). exists k'. split; [|exact H].
        apply elem_of_app. auto.
      * intros (k' & Hin & HD' & H). exists k'. split; [|auto].
        apply elem_of_app in Hin as [Hin|Hin]; [exact Hin|].
        apply list_elem_of_singleton in Hin. congruence.
    + intros k' v. rewrite Hga. split.
      * intros (Hin & H). split; [apply elem_of_app; auto | exact H].
      * intros (Hin & Hsep & H). split; [|auto].
        apply elem_of_app in Hin as [Hin|Hin]; [exact Hin|].
        apply list_elem_of_singleton in Hin. subst k'.
        apply contains_Dims_separator in HD. congruence.
  - destruct Hcase as [(Hsep & var0 & name0 & Hsplit & -> & ->)
                      | [(Hsep & Hdim & -> & ->) | (Hsep & Hdim & -> & ->)]].
    + (* variable-bound *)
      split.
      * intros var name v. rewrite dict_get2_set.
        destruct (String.eqb_spec var var0) as [->|Hv]; simpl.
        -- destruct (String.eqb_spec name name0) as [->|Hn].
           ++ split.
              ** intros H. inversion H; subst. exists k.
                 split; [apply elem_of_app; right; apply list_elem_of_here|].
                 auto.
              ** intros (k' & _ & _ & Hsplit' & Hval').
                 apply split_two in Hsplit as [Hk _].
                 apply split_two in Hsplit' as [Hk' _].
                 congruence.
           ++ rewrite Hva. split.
              ** intros (k' & Hin & H). exists k'.
                 split; [apply elem_of_app; auto | exact H].
              ** intros (k' & Hin & HD' & Hsplit' & Hval'). exists k'.
                 split; [|auto].
                 apply elem_of_app in Hin as [Hin|Hin]; [exact Hin|].
                 apply list_elem_of_singleton in Hin. congruence.
        -- rewrite Hva. split.
           ++ intros (k' & Hin & H). exists k'.
              split; [apply elem_of_app; auto | exact H].
           ++ intros (k' & Hin & HD' & Hsplit' & Hval'). exists k'.
              split; [|auto].
              apply elem_of_app in Hin as [Hin|Hin]; [exact Hin|].
              apply list_elem_of_singleton in Hin. congruence.
      * intros k' v. rewrite Hga. split.
        -- intros (Hin & H). split; [apply elem_of_app; auto | exact H].
        -- intros (Hin & Hsep' & H). split; [|auto].
           apply elem_of_app in Hin as [Hin|Hin]; [exact Hin|].
           apply list_elem_of_singleton in Hin. congruence.
    + (* global *)
      split.
      * intros var name v. rewrite Hva. split.
        -- intros (k' & Hin & H). exists k'.
           split; [apply elem_of_app; auto | exact H].
        -- intros (k' & Hin & HD' & Hsplit' & Hval'). exists k'.
           split; [|auto].
           apply elem_of_app in Hin as [Hin|Hin]; [exact Hin|].
           apply list_elem_of_singleton in Hin. subst k'.
           apply split_two in Hsplit' as [_ Hc]. congruence.
      * intros k' v. rewrite dict_get_set.
        destruct (String.eqb_spec k' k) as [->|Hk].
        -- split.
           ++ intros H. inversion H; subst.
              split; [apply elem_of_app; right; apply list_elem_of_here|].
              auto.
           ++ intros (_ & _ & _ & Hval'). congruence.
        -- rewrite Hga. split.
           ++ intros (Hin & H). split; [apply elem_of_app; auto | exact H].
           ++ intros (Hin & H). split; [|exact H].
              apply elem_of_app in Hin as [Hin|Hin]; [exact Hin|].
              apply list_elem_of_singleton in Hin. congruence.
    + (* dimension length *)
      split.
      * intros var name v. rewrite Hva. split.
        -- intros (k' & Hin & H). exists k'.
           split; [apply elem_of_app; auto | exact H].
        -- intros (k' & Hin & HD' & Hsplit' & Hval'). exists k'.
           split; [|auto].
           apply elem_of_app in Hin as [Hin|Hin]; [exact Hin|].
           apply list_elem_of_singleton in Hin. subst k'.
           apply split_two in Hsplit' as [_ Hc]. congruence.
      * intros k' v. rewrite Hga. split.
        -- intros (Hin & H). split; [apply elem_of_app; auto | exact H].
        -- intros (Hin & Hsep' & Hdim' & H). split; [|auto].
           apply elem_of_app in Hin as [Hin|Hin]; [exact Hin|].
           apply list_elem_of_singleton in Hin. congruence.
Qed.

Lemma attrs_recorded_nil (f : Adios2File) : attrs_recorded f [] [] [].
Proof.
  split.
  - intros var name v. split; [discriminate|].
    intros (k & Hin & _). inversion Hin.
  - intros k v. split; [discriminate|]. intros (Hin & _). inversion Hin.
Qed.

(** What [r_attrs] returns when it returns. *)
Lemma r_attrs_recorded (f : Adios2File) (attrs : dict attr_info)
    (var_attrs : dict (dict attr_val)) (global_attrs : dict attr_val) :
  r_attrs f = Ok (attrs, var_attrs, global_attrs) ->
  attrs = available_attributes f
  /\ attrs_recorded f (dict_keys attrs) var_attrs global_attrs
  /\ (forall k, k ∈ dict_keys attrs -> contains "/Dims" k = false ->
        exists val, read_value f k = Ok val
          /\ (contains "/" k = true -> exists var name, split "/" k = [var; name])).
Proof.
  unfold r_attrs.
  destruct (foldM (r_attrs_body f) ([], []) (dict_keys (available_attributes f)))
    as [[va ga]|e] eqn:Hfold; simpl; [|discriminate].
  intros H. inversion H; subst. split; [reflexivity|]. split.
  - apply (foldM_invariant (r_attrs_body f)
             (fun seen acc => attrs_recorded f seen (fst acc) (snd acc)))
      with (seen := []) (acc := ([], [])) (acc' := (var_attrs, global_attrs))
           (l := dict_keys (available_attributes f)).
    + intros seen acc x acc'. apply r_attrs_body_recorded.
    + apply attrs_recorded_nil.
    + exact Hfold.
  - intros k Hin HD.
    destruct (foldM_Ok_each _ _ _ _ Hfold k Hin) as ([va0 ga0] & [va1 ga1] & Hb).
    apply r_attrs_body_Ok in Hb as [(HD' & _) | (_ & val & Hval & Hcase)];
      [congruence|].
    exists val. split; [exact Hval|]. intros Hsep.
    destruct Hcase as [(_ & var & name & Hs & _) | [(Hn & _) | (Hn & _)]];
      [eauto | congruence | congruence].
Qed.

Example r_attrs_sample :
  r_attrs sample_file =
    Ok (sample_attributes,
        [("temp", [("units", StrList ["K"])])],
        [("TITLE", StrList ["OUTPUT FROM WRF"]); ("DX", NumArray [3000])]).
Proof. reflexivity. Qed.



(** C10.  Every key that contains ["/Dims"] goes through the loop of
    [r_attrs] without being read and without leaving a trace, whatever
    follows ["/Dims"] in it: it is not a global attribute, and no
    variable-bound attribute comes from it.  [T/DimsInfo] is such a key. *)
Theorem Dims_keys_are_dropped (f : Adios2File) (attrs : dict attr_info)
    (var_attrs : dict (dict attr_val)) (global_attrs : dict attr_val) :
  r_attrs f = Ok (attrs, var_attrs, global_attrs) ->
  (forall k acc, contains "/Dims" k = true -> r_attrs_body f acc k = Ok acc)
  /\ contains "/Dims" "T/DimsInfo" = true
  /\ (forall k, contains "/Dims" k = true ->
        dict_get k global_attrs = None
        /\ (forall var name, k = var +:+ "/" +:+ name ->
              dict_get2 var name var_attrs = None)).
Proof.
  intros Hr. apply r_attrs_recorded in Hr as (_ & [Hva Hga] & _).
  split; [|split].
  - intros k [va ga] HD. unfold r_attrs_body. rewrite HD. reflexivity.
  - reflexivity.
  - intros k HD. split.
    + destruct (dict_get k global_attrs) as [v|] eqn:Hg; [|reflexivity].
      apply Hga in Hg as (_ & Hsep & _).
      apply contains_Dims_separator in HD. congruence.
    + intros var name Hk.
      destruct (dict_get2 var name var_attrs) as [v|] eqn:Hg; [|reflexivity].
      apply Hva in Hg as (k' & _ & HD' & Hsplit & _).
      apply split_two in Hsplit as [Hk' _].
      assert (k' = k) by (rewrite Hk, Hk'; reflexivity). congruence.
Qed.

Lemma Dims_keys_are_dropped_witness :
  (forall k acc, contains "/Dims" k = true ->
     r_attrs_body sample_file acc k = Ok acc)
  /\ contains "/Dims" "T/DimsInfo" = true
  /\ (forall k, contains "/Dims" k = true ->
        dict_get k [("TITLE", StrList ["OUTPUT FROM WRF"]); ("DX", NumArray [3000])]
          = None
        /\ (forall var name, k = var +:+ "/" +:+ name ->
              dict_get2 var name [("temp", [("units", StrList ["K"])])] = None)).
Proof.
  apply (Dims_keys_are_dropped sample_file sample_attributes).
  reflexivity.
Defined.



(** ** Reading the variables: [r_metadata] *)

Lemma r_metadata_Ok (f : Adios2File) (attrs : dict attr_info)
    (var_names : list string) (num_steps : nat) (dim_lens : dict Z)
    (var_dims : dict (list string)) (var_types : dict string)
    (vars : dict var_info) :
  r_metadata f attrs
    = Ok (var_names, num_steps, dim_lens, var_dims, var_types, vars) ->
  vars = available_variables f
  /\ var_names = dict_keys vars
  /\ num_steps = steps f
  /\ foldM dim_lens_body [] attrs = Ok dim_lens
  /\ var_dims = fold_left (var_dims_body f) (dict_keys vars) []
  /\ foldM (var_types_body vars) [] (dict_keys vars) = Ok var_types.
Proof.
  unfold r_metadata.
  destruct (foldM dim_lens_body [] attrs) as [dl|e] eqn:Hd;
    simpl; [|discriminate].
  destruct (foldM (var_types_body (available_variables f)) []
              (dict_keys (available_variables f))) as [vt|e] eqn:Ht;
    simpl; [|discriminate].
  intros H. inversion H; subst. repeat split; reflexivity || assumption.
Qed.

Lemma var_dims_kept (f : Adios2File) (var : string) (l : list string)
    (acc : dict (list string)) :
  dict_get var acc = Some (rev (read_attribute_string_of f "Dims" var)) ->
  dict_get var (fold_left (var_dims_body f) l acc)
  = Some (rev (read_attribute_string_of f "Dims" var)).
Proof.
  revert acc. induction l as [|x l IH]; intros acc H; simpl; [exact H|].
  apply IH. unfold var_dims_body. rewrite dict_get_set.
  destruct (String.eqb_spec var x) as [->|Hne]; [reflexivity | exact H].
Qed.

Lemma var_dims_reversed (f : Adios2File) (var : string) (l : list string)
    (acc : dict (list string)) :
  var ∈ l ->
  dict_get var (fold_left (var_dims_body f) l acc)
  = Some (rev (read_attribute_string_of f "Dims" var)).
Proof.
  revert acc. induction l as [|x l IH]; intros acc Hin; [inversion Hin|].
  simpl. destruct (String.eqb_spec var x) as [->|Hne].
  - apply var_dims_kept. unfold var_dims_body. apply dict_get_set_eq.
  - apply elem_of_cons in Hin as [Hin|Hin]; [congruence|]. apply IH. exact Hin.
Qed.

(** C3.  For every variable of the file, [r_metadata] records as its
    dimension list the variable's ["Dims"] attribute in reverse order.
    Hence, whatever the lengths of the dimensions, the shape along the
    recorded list is the shape along the source list reversed; and where
    the source list ends with ["Time"], the recorded list starts with it
    and the shape after that first axis is the reversed shape of the other
    source axes. *)
Theorem r_metadata_reverses_dims (f : Adios2File) (attrs : dict attr_info)
    (var_names : list string) (num_steps : nat) (dim_lens : dict Z)
    (var_dims : dict (list string)) (var_types : dict string)
    (vars : dict var_info) (var : string) :
  r_metadata f attrs
    = Ok (var_names, num_steps, dim_lens, var_dims, var_types, vars) ->
  var ∈ dict_keys (available_variables f) ->
  exists dims,
    dict_get var var_dims = Some dims
    /\ dims = rev (read_attribute_string_of f "Dims" var)
    /\ (forall lens,
          shape_along lens dims
          = rev (shape_along lens (read_attribute_string_of f "Dims" var)))
    /\ (forall body,
          read_attribute_string_of f "Dims" var = body ++ ["Time"] ->
          dims = "Time" :: rev body
          /\ forall lens,
               tl (shape_along lens dims) = rev (shape_along lens body)).
Proof.
  intros Hr Hin.
  apply r_metadata_Ok in Hr as (-> & _ & _ & _ & -> & _).
  exists (rev (read_attribute_string_of f "Dims" var)).
  split; [apply var_dims_reversed; exact Hin|].
  split; [reflexivity|].
  split.
  - intros lens. unfold shape_along. apply map_rev.
  - intros body Hbody. rewrite Hbody, rev_app_distr. simpl.
    split; [reflexivity|].
    intros lens. unfold shape_along. apply map_rev.
Qed.

Example r_metadata_sample :
  r_metadata sample_file sample_attributes =
    Ok (["temp"; "Times"], 3%nat,
        [("south_north", 100); ("west_east", 4); ("DateStrLen", 19)],
        [("temp", ["Time"; "south_north"; "west_east"]);
         ("Times", ["Time"; "DateStrLen"])],
        [("temp", "f"); ("Times", "c")],
        sample_variables).
Proof. reflexivity. Qed.

Lemma r_metadata_reverses_dims_witness :
  exists dims,
    dict_get "temp" [("temp", ["Time"; "south_north"; "west_east"]);
                     ("Times", ["Time"; "DateStrLen"])] = Some dims
    /\ dims = rev (read_attribute_string_of sample_file "Dims" "temp")
    /\ (forall lens,
          shape_along lens dims
          = rev (shape_along lens
                   (read_attribute_string_of sample_file "Dims" "temp")))
    /\ (forall body,
          read_attribute_string_of sample_file "Dims" "temp" = body ++ ["Time"] ->
          dims = "Time" :: rev body
          /\ forall lens,
               tl (shape_along lens dims) = rev (shape_along lens body)).
Proof.
  apply (r_metadata_reverses_dims sample_file sample_attributes
           ["temp"; "Times"] 3%nat
           [("south_north", 100); ("west_east", 4); ("DateStrLen", 19)]
           [("temp", ["Time"; "south_north"; "west_east"]);
            ("Times", ["Time"; "DateStrLen"])]
           [("temp", "f"); ("Times", "c")] sample_variables "temp").
  - reflexivity.
  - apply list_elem_of_here.
Defined.

(** ** The classification of the attribute keys *)

Lemma DIM_key_from (k : string) :
  startswith k "_DIM_" = true -> k = "_DIM_" +:+ str_from 5 k.
Proof. intros H. apply (startswith_from k "_DIM_") in H. exact H. Qed.

(** The dimension lengths are exactly what the marked keys declare. *)
Lemma dim_lens_spec (attrs : dict attr_info) (dim_lens : dict Z) :
  NoDup (dict_keys attrs) ->
  foldM dim_lens_body [] attrs = Ok dim_lens ->
  forall name n,
    dict_get name dim_lens = Some n <->
    exists k info, (k, info) ∈ attrs /\ startswith k "_DIM_" = true
                   /\ name = str_from 5 k /\ py_int (a_Value info) = Ok n.
Proof.
  intros Hnd Hfold.
  pose proof (foldM_invariant dim_lens_body
    (fun seen d =>
       NoDup (dict_keys seen) ->
       forall name n,
         dict_get name d = Some n <->
         exists k info, (k, info) ∈ seen /\ startswith k "_DIM_" = true
                        /\ name = str_from 5 k /\ py_int (a_Value info) = Ok n))
    as Hinv.
  simpl in Hinv.
  apply (Hinv) with (l := attrs) (seen := []) (acc := []) (acc' := dim_lens);
    [| | exact Hfold | exact Hnd].
  - clear. intros seen d [k info] d' IH Hbody Hnd name n.
    unfold dict_keys in Hnd. rewrite map_app in Hnd. simpl in Hnd.
    apply NoDup_app in Hnd as (Hnd & Hfresh & _).
    specialize (IH Hnd).
    assert (forall info', (k, info') ∈ seen -> False) as Hnew.
    { intros info' Hin. apply (Hfresh k).
      - apply list_elem_of_fmap. exists (k, info'). auto.
      - apply list_elem_of_here. }
    unfold dim_lens_body in Hbody.
    destruct (startswith k "_DIM_") eqn:Hdim.
    + destruct (py_int (a_Value info)) as [n0|e] eqn:Hint; simpl in Hbody;
        [|discriminate].
      inversion Hbody; subst d'. rewrite dict_get_set.
      destruct (String.eqb_spec name (str_from 5 k)) as [->|Hne].
      * split.
        -- intros H. inversion H; subst. exists k, info.
           split; [apply elem_of_app; right; apply list_elem_of_here|]. auto.
        -- intros (k' & info' & Hin & Hdim' & Hname & Hint').
           assert (k' = k) as ->.
           { rewrite (DIM_key_from k Hdim), (DIM_key_from k' Hdim').
             congruence. }
           apply elem_of_app in Hin as [Hin|Hin]; [destruct (Hnew _ Hin)|].
           apply list_elem_of_singleton in Hin. inversion Hin; subst.
           congruence.
      * rewrite IH. split.
        -- intros (k' & info' & Hin & H). exists k', info'.
           split; [apply elem_of_app; auto | exact H].
        -- intros (k' & info' & Hin & Hdim' & Hname & Hint').
           exists k', info'. split; [|auto].
           apply elem_of_app in Hin as [Hin|Hin]; [exact Hin|].
           apply list_elem_of_singleton in Hin. inversion Hin; subst.
           congruence.
    + inversion Hbody; subst d'. rewrite IH. split.
      * intros (k' & info' & Hin & H). exists k', info'.
        split; [apply elem_of_app; auto | exact H].
      * intros (k' & info' & Hin & Hdim' & H).
        exists k', info'. split; [|auto].
        apply elem_of_app in Hin as [Hin|Hin]; [exact Hin|].
        apply list_elem_of_singleton in Hin. inversion Hin; subst.
        congruence.
  - intros _ name n. split; [discriminate|].
    intros (k & info & Hin & _). inversion Hin.
Qed.

Lemma dim_lens_Ok_each (attrs : dict attr_info) (dim_lens : dict Z) :
  foldM dim_lens_body [] attrs = Ok dim_lens ->
  forall k info, (k, info) ∈ attrs -> startswith k "_DIM_" = true ->
    exists n, py_int (a_Value info) = Ok n.
Proof.
  intros Hfold k info Hin Hdim.
  destruct (foldM_Ok_each _ _ _ _ Hfold (k, info) Hin) as (a & a' & Hb).
  unfold dim_lens_body in Hb. rewrite Hdim in Hb.
  destruct (py_int (a_Value info)) as [n|e]; [eauto | discriminate].
Qed.

(** C7.  The sample file carries the attribute [DimsInfo] of [temp], a key
    with a separator that is no dimension-order hint.  [r_attrs] reads the
    source without error and records [temp/units] under its variable, but
    it records [temp/DimsInfo], whose value it could read, neither under
    its variable nor among the global attributes: the test that is to skip
    the hint [temp/Dims] skips every key that contains ["/Dims"]. *)
Theorem DimsInfo_key_not_recorded :
  exists attrs var_attrs global_attrs,
    r_attrs sample_file = Ok (attrs, var_attrs, global_attrs)
    /\ "temp/DimsInfo" ∈ dict_keys attrs
    /\ contains "/" "temp/DimsInfo" = true
    /\ split "/" "temp/DimsInfo" = ["temp"; "DimsInfo"]
    /\ read_value sample_file "temp/DimsInfo" = Ok (StrList ["staggered"])
    /\ dict_get2 "temp" "units" var_attrs = Some (StrList ["K"])
    /\ dict_get2 "temp" "DimsInfo" var_attrs = None
    /\ dict_get "temp/DimsInfo" global_attrs = None.
Proof.
  exists sample_attributes, [("temp", [("units", StrList ["K"])])],
         [("TITLE", StrList ["OUTPUT FROM WRF"]); ("DX", NumArray [3000])].
  split; [vm_compute; reflexivity|].
  split; [do 7 apply list_elem_of_further; apply list_elem_of_here|].
  repeat split; vm_compute; reflexivity.
Qed.

(** X22.  When the metadata is read without error, every key of the source
    falls in one class.  A key with a separator is never a global
    attribute; if it does not contain ["/Dims"], it has two pieces,
    variable and name, and is recorded under them with the value read for
    it.  A key without separator that starts with ["_DIM_"] gives the
    dimension named by the rest of the key the integer value of the entry,
    and is not a global attribute.  Every other key without separator is a
    global attribute with the value read for it.  And each variable-bound
    attribute comes from a key with a separator. *)
Theorem attribute_keys_classified (f : Adios2File) (attrs : dict attr_info)
    (var_attrs : dict (dict attr_val)) (global_attrs : dict attr_val)
    (var_names : list string) (num_steps : nat) (dim_lens : dict Z)
    (var_dims : dict (list string)) (var_types : dict string)
    (vars : dict var_info) :
  NoDup (dict_keys (available_attributes f)) ->
  r_attrs f = Ok (attrs, var_attrs, global_attrs) ->
  r_metadata f attrs
    = Ok (var_names, num_steps, dim_lens, var_dims, var_types, vars) ->
  (forall k info, (k, info) ∈ attrs ->
     (contains "/" k = true ->
        dict_get k global_attrs = None
        /\ (contains "/Dims" k = false ->
              exists var name val,
                split "/" k = [var; name] /\ k = var +:+ "/" +:+ name
                /\ read_value f k = Ok val
                /\ dict_get2 var name var_attrs = Some val))
     /\ (contains "/" k = false -> startswith k "_DIM_" = true ->
           (exists n, py_int (a_Value info) = Ok n
                      /\ dict_get (str_from 5 k) dim_lens = Some n)
           /\ dict_get k global_attrs = None)
     /\ (contains "/" k = false -> startswith k "_DIM_" = false ->
           exists val, read_value f k = Ok val
                       /\ dict_get k global_attrs = Some val))
  /\ (forall var name v,
        dict_get2 var name var_attrs = Some v ->
        (var +:+ "/" +:+ name) ∈ dict_keys attrs
        /\ contains "/" (var +:+ "/" +:+ name) = true).
Proof.
  intros Hnd Hr Hm.
  apply r_attrs_recorded in Hr as (-> & [Hva Hga] & Hkeys).
  apply r_metadata_Ok in Hm as (_ & _ & _ & Hdl & _ & _).
  split.
  - intros k info Hin.
    assert (k ∈ dict_keys (available_attributes f)) as Hk.
    { apply list_elem_of_fmap. exists (k, info). auto. }
    split; [|split].
    + intros Hsep. split.
      * destruct (dict_get k global_attrs) as [v|] eqn:Hg; [|reflexivity].
        apply Hga in Hg as (_ & Hsep' & _). congruence.
      * intros HD.
        destruct (Hkeys k Hk HD) as (val & Hval & Hsplit).
        destruct (Hsplit Hsep) as (var & name & Hs).
        exists var, name, val. split; [exact Hs|].
        split; [apply split_two in Hs as [Hs _]; exact Hs|].
        split; [exact Hval|].
        apply Hva. exists k. auto.
    + intros Hsep Hdim. split.
      * destruct (dim_lens_Ok_each _ _ Hdl k info Hin Hdim) as [n Hn].
        exists n. split; [exact Hn|].
        apply (dim_lens_spec _ _ Hnd Hdl). exists k, info. auto.
      * destruct (dict_get k global_attrs) as [v|] eqn:Hg; [|reflexivity].
        apply Hga in Hg as (_ & _ & Hdim' & _). congruence.
    + intros Hsep Hdim.
      assert (contains "/Dims" k = false) as HD.
      { destruct (contains "/Dims" k) eqn:HD; [|reflexivity].
        apply contains_Dims_separator in HD. congruence. }
      destruct (Hkeys k Hk HD) as (val & Hval & _).
      exists val. split; [exact Hval|]. apply Hga. auto.
  - intros var name v Hg.
    apply Hva in Hg as (k & Hin & _ & Hs & _).
    apply split_two in Hs as [Hk Hc].
    change ("/" +:+ name) with (String "/" name).
    rewrite <- Hk. auto.
Qed.

Lemma attribute_keys_classified_witness :
  (exists var name val,
     split "/" "temp/units" = [var; name]
     /\ dict_get2 var name [("temp", [("units", StrList ["K"])])] = Some val)
  /\ dict_get (str_from 5 "_DIM_west_east")
       [("south_north", 100); ("west_east", 4); ("DateStrLen", 19)] = Some 4
  /\ dict_get "_DIM_west_east"
       [("TITLE", StrList ["OUTPUT FROM WRF"]); ("DX", NumArray [3000])] = None
  /\ dict_get "DX"
       [("TITLE", StrList ["OUTPUT FROM WRF"]); ("DX", NumArray [3000])]
     = Some (NumArray [3000]).
Proof.
  destruct (attribute_keys_classified sample_file sample_attributes
              [("temp", [("units", StrList ["K"])])]
              [("TITLE", StrList ["OUTPUT FROM WRF"]); ("DX", NumArray [3000])]
              ["temp"; "Times"] 3%nat
              [("south_north", 100); ("west_east", 4); ("DateStrLen", 19)]
              [("temp", ["Time"; "south_north"; "west_east"]);
               ("Times", ["Time"; "DateStrLen"])]
              [("temp", "f"); ("Times", "c")] sample_variables)
    as [Hkeys _].
  - apply (bool_decide_unpack (NoDup _)). vm_compute. exact I.
  - reflexivity.
  - reflexivity.
  - split; [|split; [|split]].
    + destruct (Hkeys "temp/units" {| a_Type := "string"; a_Elements := "1"; a_Value := "K" |})
        as ((_ & H) & _).
      * do 6 apply list_elem_of_further. apply list_elem_of_here.
      * reflexivity.
      * destruct (H eq_refl) as (var & name & val & Hs & _ & _ & Hg). eauto.
    + destruct (Hkeys "_DIM_west_east"
                  {| a_Type := "int32_t"; a_Elements := "1"; a_Value := "4" |})
        as (_ & H & _).
      * do 3 apply list_elem_of_further. apply list_elem_of_here.
      * destruct (H eq_refl eq_refl) as ((n & Hn & Hd) & _).
        replace n with 4 in Hd; [exact Hd|].
        vm_compute in Hn. congruence.
    + destruct (Hkeys "_DIM_west_east"
                  {| a_Type := "int32_t"; a_Elements := "1"; a_Value := "4" |})
        as (_ & H & _).
      * do 3 apply list_elem_of_further. apply list_elem_of_here.
      * destruct (H eq_refl eq_refl) as (_ & Hg). exact Hg.
    + destruct (Hkeys "DX" {| a_Type := "float"; a_Elements := "1"; a_Value := "3000" |})
        as (_ & _ & H).
      * apply list_elem_of_further, list_elem_of_here.
      * destruct (H eq_refl eq_refl) as (val & Hv & Hg).
        vm_compute in Hv. congruence.
Defined.

(** ** The type map and the schema *)

Lemma typemap_cases (t : string) :
  (t = "float" /\ getitem typemap t = Ok "f")
  \/ (t = "int32_t" /\ getitem typemap t = Ok "i")
  \/ (t = "string" /\ getitem typemap t = Ok "c")
  \/ (unsupported t /\ getitem typemap t = Raise (KeyError t)).
Proof.
  unfold getitem, typemap, unsupported. simpl.
  destruct (String.eqb_spec t "float") as [->|H1]; [auto|].
  destruct (String.eqb_spec t "int32_t") as [->|H2]; [auto|].
  destruct (String.eqb_spec t "string") as [->|H3]; [auto 6|].
  right; right; right. repeat split; assumption.
Qed.

Lemma var_types_fold_unsupported (vars : dict var_info) (l : list string)
    (acc : dict string) :
  (forall x, x ∈ l -> exists i, dict_get x vars = Some i) ->
  (exists var info, var ∈ l /\ dict_get var vars = Some info
                    /\ unsupported (v_Type info)) ->
  exists t, unsupported t
            /\ foldM (var_types_body vars) acc l = Raise (KeyError t).
Proof.
  revert acc. induction l as [|x l IH]; intros acc Hall (var & info & Hin & Hv & Hbad).
  - inversion Hin.
  - destruct (Hall x (list_elem_of_here _ _)) as [ix Hx].
    assert (var_types_body vars acc x
            = (t ← getitem typemap (v_Type ix); Ok (dict_set x t acc))) as Hb.
    { unfold var_types_body. rewrite (getitem_Some _ _ _ Hx). reflexivity. }
    cbn [foldM]. rewrite Hb.
    destruct (typemap_cases (v_Type ix))
      as [[Ht ->]|[[Ht ->]|[[Ht ->]|[Hu ->]]]]; cbn [mbind result_bind].
    4: { exists (v_Type ix). auto. }
    all: apply IH;
      [ intros y Hy; apply Hall; apply list_elem_of_further; exact Hy
      | exists var, info; split; [|auto];
        apply elem_of_cons in Hin as [->|Hin]; [|exact Hin];
        exfalso; rewrite Hx in Hv; inversion Hv; subst;
        destruct Hbad as (B1 & B2 & B3); congruence ].
Qed.

Lemma r_metadata_unsupported (f : Adios2File) (attrs : dict attr_info)
    (var : string) (info : var_info) :
  dict_get var (available_variables f) = Some info ->
  unsupported (v_Type info) ->
  is_Ok (foldM dim_lens_body [] attrs) ->
  exists t, unsupported t /\ r_metadata f attrs = Raise (KeyError t).
Proof.
  intros Hv Hbad [dl Hdl].
  destruct (var_types_fold_unsupported (available_variables f)
              (dict_keys (available_variables f)) [])
    as (t & Ht & Hfold).
  - intros x Hx. apply dict_get_key_Some. exact Hx.
  - exists var, info. split; [|auto]. eapply dict_get_Some_key; eauto.
  - exists t. split; [exact Ht|].
    unfold r_metadata. rewrite Hdl. simpl. rewrite Hfold. reflexivity.
Qed.

Lemma r_metadata_fails (f : Adios2File) (attrs : dict attr_info)
    (var : string) (info : var_info) :
  dict_get var (available_variables f) = Some info ->
  unsupported (v_Type info) ->
  exists e, r_metadata f attrs = Raise e.
Proof.
  intros Hv Hbad.
  destruct (foldM dim_lens_body [] attrs) as [dl|e] eqn:Hdl.
  - destruct (r_metadata_unsupported f attrs var info Hv Hbad) as (t & _ & H).
    + exists dl. exact Hdl.
    + eauto.
  - exists e. unfold r_metadata. rewrite Hdl. reflexivity.
Qed.

(** C6.  [typemap] maps ["float"], ["int32_t"] and ["string"] to the codes
    of float32, int32 and character, and nothing else: any other tag raises
    the [KeyError] of the lookup.  A file with a variable of such a type
    makes [r_metadata] raise it (once the dimension lengths are parsed),
    and [convert] stops there: it ends with an exception and the
    destination is as it was opened, with no dimension and no variable. *)
Theorem unsupported_type_aborts_before_schema (f : Adios2File)
    (var : string) (info : var_info) :
  dict_get var (available_variables f) = Some info ->
  unsupported (v_Type info) ->
  (getitem typemap "float" = Ok "f"
   /\ getitem typemap "int32_t" = Ok "i"
   /\ getitem typemap "string" = Ok "c"
   /\ forall t, unsupported t <-> getitem typemap t = Raise (KeyError t))
  /\ (forall attrs, is_Ok (foldM dim_lens_body [] attrs) ->
        exists t, unsupported t /\ r_metadata f attrs = Raise (KeyError t))
  /\ (forall comm parallel diskless,
        exists e, convert f comm parallel diskless = (new_Dataset, Raise e)
                  /\ dimensions (fst (convert f comm parallel diskless)) = []
                  /\ variables (fst (convert f comm parallel diskless)) = []).
Proof.
  intros Hv Hbad. split; [|split].
  - split; [reflexivity|]. split; [reflexivity|]. split; [reflexivity|].
    intros t. split; intros Ht.
    + destruct (typemap_cases t) as [[-> _]|[[-> _]|[[-> _]|[_ Hk]]]];
        try exact Hk; destruct Ht as (B1 & B2 & B3); congruence.
    + destruct (typemap_cases t) as [[_ Hk]|[[_ Hk]|[[_ Hk]|[Hk _]]]];
        try exact Hk; congruence.
  - intros attrs Hdl. eapply r_metadata_unsupported; eauto.
  - intros comm parallel diskless.
    unfold convert, convert_opened, mbind, NC_bind, lift.
    destruct (r_attrs f) as [[[attrs va] ga]|e]; [|eauto].
    destruct (r_metadata_fails f attrs var info Hv Hbad) as [e ->]. eauto.
Qed.

Lemma unsupported_type_aborts_before_schema_witness :
  exists e, convert double_file {| Get_size := 1; Get_rank := 0 |} false false
            = (new_Dataset, Raise e).
Proof.
  destruct (unsupported_type_aborts_before_schema double_file "PSFC"
              {| v_Type := "double"; v_Shape := "100, 4" |})
    as (_ & _ & H).
  - reflexivity.
  - repeat split; discriminate.
  - destruct (H {| Get_size := 1; Get_rank := 0 |} false false) as (e & He & _).
    exists e. exact He.
Defined.

Example convert_double_file :
  convert double_file {| Get_size := 1; Get_rank := 0 |} false false
  = (new_Dataset, Raise (KeyError "double")).
Proof. reflexivity. Qed.

(** ** Declaring the destination *)

Lemma for_each_invariant {A} (body : A -> NC unit)
    (I : list A -> Dataset -> Prop) :
  (forall seen x ds ds', I seen ds -> body x ds = (ds', Ok tt) ->
                         I (seen ++ [x]) ds') ->
  forall l seen ds ds',
    I seen ds -> for_each l body ds = (ds', Ok tt) -> I (seen ++ l) ds'.
Proof.
  intros Hstep. induction l as [|x l IH]; intros seen ds ds' HI H.
  - inversion H; subst. rewrite app_nil_r. exact HI.
  - simpl in H. unfold mbind, NC_bind in H.
    destruct (body x ds) as [ds1 [[]|e]] eqn:Hx; [|discriminate].
    replace (seen ++ x :: l) with ((seen ++ [x]) ++ l)
      by (rewrite <- app_assoc; reflexivity).
    eapply IH; eauto.
Qed.

Lemma createDimension_Ok (name : string) (size : Z) (ds ds' : Dataset) :
  createDimension name size ds = (ds', Ok tt) ->
  dict_get name (dimensions ds) = None
  /\ dimensions ds' = dict_set name size (dimensions ds)
  /\ variables ds' = variables ds
  /\ issued ds' = issued ds.
Proof.
  unfold createDimension.
  destruct (dict_get name (dimensions ds)); intros H; inversion H; subst.
  auto.
Qed.

Lemma createVariable_Ok (name dtype : string) (dims : list string)
    (ds ds' : Dataset) :
  createVariable name dtype dims ds = (ds', Ok tt) ->
  dict_get name (variables ds) = None
  /\ variables ds'
     = dict_set name {| datatype := dtype; var_dimensions := dims;
                        var_ncattrs := [] |} (variables ds)
  /\ dimensions ds' = dimensions ds
  /\ issued ds' = issued ds.
Proof.
  unfold createVariable.
  destruct (dict_get name (variables ds)); [discriminate|].
  destruct (forallb _ dims); intros H; inversion H; subst. auto.
Qed.

(** [create_nc_dims] leaves ["Time"] with the number of steps. *)
Lemma create_nc_dims_Ok (num_steps : nat) (dim_lens : dict Z)
    (ds ds' : Dataset) :
  create_nc_dims num_steps dim_lens ds = (ds', Ok tt) ->
  dict_get "Time" (dimensions ds') = Some (Z.of_nat num_steps)
  /\ variables ds' = variables ds
  /\ issued ds' = issued ds.
Proof.
  unfold create_nc_dims, mbind, NC_bind.
  destruct (createDimension "Time" (Z.of_nat num_steps) ds)
    as [ds1 [[]|e]] eqn:Ht; [|discriminate].
  apply createDimension_Ok in Ht as (_ & Hd & Hv & Hi).
  intros H.
  apply (for_each_invariant _
           (fun _ d => dict_get "Time" (dimensions d) = Some (Z.of_nat num_steps)
                       /\ variables d = variables ds
                       /\ issued d = issued ds))
    with (seen := []) in H.
  - exact H.
  - clear. intros _ dim d d' (Ht & Hv & Hi) Hb.
    unfold lift in Hb.
    destruct (getitem dim_lens dim) as [size|e]; [|discriminate].
    apply createDimension_Ok in Hb as (Hfree & Hd & Hv' & Hi').
    rewrite Hd, Hv', Hi'. split; [|auto].
    rewrite dict_get_set_ne; [exact Ht|]. intros ->. congruence.
  - rewrite Hd, Hv, Hi. split; [apply dict_get_set_eq | auto].
Qed.

(** [create_nc_vars] declares each variable with its mapped type and the
    dimension list [var_dims] holds for it. *)
Lemma create_nc_vars_Ok (var_names : list string) (var_types : dict string)
    (var_dims : dict (list string)) (ds ds' : Dataset) :
  create_nc_vars var_names var_types var_dims ds = (ds', Ok tt) ->
  dimensions ds' = dimensions ds
  /\ issued ds' = issued ds
  /\ forall var, var ∈ var_names ->
       exists t dims,
         dict_get var var_types = Some t
         /\ dict_get var var_dims = Some dims
         /\ dict_get var (variables ds')
            = Some {| datatype := t; var_dimensions := dims; var_ncattrs := [] |}.
Proof.
  intros H. unfold create_nc_vars in H.
  apply (for_each_invariant _
           (fun seen d =>
              dimensions d = dimensions ds /\ issued d = issued ds
              /\ forall var, var ∈ seen ->
                   exists t dims,
                     dict_get var var_types = Some t
                     /\ dict_get var var_dims = Some dims
                     /\ dict_get var (variables d)
                        = Some {| datatype := t; var_dimensions := dims;
                                  var_ncattrs := [] |}))
    with (seen := []) in H.
  - exact H.
  - clear. intros seen var d d' (Hd & Hi & Hseen) Hb.
    unfold mbind, NC_bind, lift in Hb.
    destruct (getitem var_types var) as [t|e] eqn:Ht; [|discriminate].
    destruct (getitem var_dims var) as [dims|e] eqn:Hdims; [|discriminate].
    apply createVariable_Ok in Hb as (Hfree & Hv & Hd' & Hi').
    rewrite Hd', Hi'. split; [exact Hd|]. split; [exact Hi|].
    intros x Hx. rewrite Hv, dict_get_set.
    destruct (String.eqb_spec x var) as [->|Hne].
    + exists t, dims. apply getitem_Ok in Ht, Hdims. auto.
    + apply elem_of_app in Hx as [Hx|Hx]; [auto|].
      apply list_elem_of_singleton in Hx. congruence.
  - split; [reflexivity|]. split; [reflexivity|].
    intros var Hin. inversion Hin.
Qed.

Lemma var_types_body_Ok (vars : dict var_info) (acc acc' : dict string)
    (x : string) :
  var_types_body vars acc x = Ok acc' ->
  exists info t, dict_get x vars = Some info
                 /\ getitem typemap (v_Type info) = Ok t
                 /\ acc' = dict_set x t acc.
Proof.
  unfold var_types_body.
  destruct (getitem vars x) as [info|e] eqn:Hx; [|discriminate]. simpl.
  destruct (getitem typemap (v_Type info)) as [t|e] eqn:Ht; [|discriminate].
  simpl. intros H. inversion H. apply getitem_Ok in Hx. eauto.
Qed.

Lemma var_types_kept (vars : dict var_info) (var t : string)
    (l : list string) (acc var_types : dict string) :
  foldM (var_types_body vars) acc l = Ok var_types ->
  (forall info, dict_get var vars = Some info ->
                getitem typemap (v_Type info) = Ok t) ->
  dict_get var acc = Some t ->
  dict_get var var_types = Some t.
Proof.
  revert acc. induction l as [|x l IH]; intros acc Hf Hty Hacc.
  - inversion Hf; subst. exact Hacc.
  - simpl in Hf.
    destruct (var_types_body vars acc x) as [acc1|e] eqn:Hb; [|discriminate].
    simpl in Hf. apply (IH _ Hf Hty).
    apply var_types_body_Ok in Hb as (info & tx & Hx & Htx & ->).
    rewrite dict_get_set.
    destruct (String.eqb_spec var x) as [->|Hne]; [|exact Hacc].
    rewrite (Hty _ Hx) in Htx. congruence.
Qed.

(** Every variable gets the code [typemap] has for its type. *)
Lemma var_types_spec (vars : dict var_info) (l : list string)
    (acc var_types : dict string) :
  foldM (var_types_body vars) acc l = Ok var_types ->
  forall var, var ∈ l ->
    exists info t, dict_get var vars = Some info
                   /\ getitem typemap (v_Type info) = Ok t
                   /\ dict_get var var_types = Some t.
Proof.
  revert acc. induction l as [|x l IH]; intros acc Hf var Hin; [inversion Hin|].
  simpl in Hf.
  destruct (var_types_body vars acc x) as [acc1|e] eqn:Hb; [|discriminate].
  simpl in Hf.
  destruct (String.eqb_spec var x) as [->|Hne].
  - apply var_types_body_Ok in Hb as (info & t & Hx & Ht & ->).
    exists info, t. split; [exact Hx|]. split; [exact Ht|].
    apply (var_types_kept vars x t l _ _ Hf).
    + intros i Hi. congruence.
    + apply dict_get_set_eq.
  - apply elem_of_cons in Hin as [Hin|Hin]; [congruence|].
    apply (IH _ Hf). exact Hin.
Qed.

Lemma head_rev {A} (l : list A) : head (rev l) = last l.
Proof.
  destruct l as [|x l] using rev_ind; [reflexivity|].
  rewrite rev_app_distr, last_snoc. reflexivity.
Qed.

(** Against C4 as stated.  The destination variable [HGT] of a file whose
    dimension list for it is [west_east] alone is declared on [west_east]
    alone: no ["Time"] is put in front.  And [temp] of the sample file, whose list ends with
    ["Time"], is declared on the reversed list, not on ["Time"] followed by
    the reversed list. *)
Lemma Time_is_not_prepended :
  (exists v,
     dict_get "HGT"
       (variables (fst (convert static_file {| Get_size := 1; Get_rank := 0 |}
                          false false))) = Some v
     /\ var_dimensions v = ["west_east"]
     /\ var_dimensions v
        <> "Time" :: rev (read_attribute_string_of static_file "Dims" "HGT"))
  /\ (exists v,
        dict_get "temp"
          (variables (fst (convert sample_file {| Get_size := 1; Get_rank := 0 |}
                             false false))) = Some v
        /\ var_dimensions v = ["Time"; "south_north"; "west_east"]
        /\ var_dimensions v
           <> "Time" :: rev (read_attribute_string_of sample_file "Dims" "temp")).
Proof.
  split.
  - exists {| datatype := "f"; var_dimensions := ["west_east"]; var_ncattrs := [] |}.
    split; [vm_compute; reflexivity|]. split; [reflexivity|].
    vm_compute. discriminate.
  - exists {| datatype := "f"; var_dimensions := ["Time"; "south_north"; "west_east"];
              var_ncattrs := [("units", StrList ["K"])] |}.
    split; [vm_compute; reflexivity|]. split; [reflexivity|].
    vm_compute. discriminate.
Qed.

(** C4, as the code has it.  The destination gets a dimension ["Time"] of
    the length of the step count, and every variable of the catalog is
    declared with its mapped type on exactly the reversed dimension list of
    the source.  ["Time"] is the first axis of the variable exactly when it
    is the last name of the source list. *)
Theorem schema_declares_reversed_dims (f : Adios2File)
    (attrs : dict attr_info) (var_names : list string) (num_steps : nat)
    (dim_lens : dict Z) (var_dims : dict (list string))
    (var_types : dict string) (vars : dict var_info) (ds ds1 ds2 : Dataset) :
  r_metadata f attrs
    = Ok (var_names, num_steps, dim_lens, var_dims, var_types, vars) ->
  create_nc_dims num_steps dim_lens ds = (ds1, Ok tt) ->
  create_nc_vars var_names var_types var_dims ds1 = (ds2, Ok tt) ->
  dict_get "Time" (dimensions ds2) = Some (Z.of_nat (steps f))
  /\ forall var, var ∈ var_names ->
       exists v,
         dict_get var (variables ds2) = Some v
         /\ Ok (datatype v)
            = (info ← getitem (available_variables f) var;
               getitem typemap (v_Type info))
         /\ var_dimensions v = rev (read_attribute_string_of f "Dims" var)
         /\ (head (var_dimensions v) = Some "Time" <->
             last (read_attribute_string_of f "Dims" var) = Some "Time").
Proof.
  intros Hm Hdims Hvars.
  apply r_metadata_Ok in Hm as (-> & -> & -> & _ & -> & Htypes).
  apply create_nc_dims_Ok in Hdims as (Htime & _ & _).
  apply create_nc_vars_Ok in Hvars as (Hd & _ & Hdecl).
  split; [rewrite Hd; exact Htime|].
  intros var Hin.
  destruct (Hdecl var Hin) as (t & dims & Ht & Hdims & Hv).
  rewrite var_dims_reversed in Hdims by exact Hin.
  inversion Hdims; subst dims.
  eexists. split; [exact Hv|]. simpl.
  split; [|split; [reflexivity|rewrite head_rev; reflexivity]].
  destruct (var_types_spec _ _ _ _ Htypes var Hin) as (info & t' & Hi & Htm & Ht').
  rewrite (getitem_Some _ _ _ Hi). simpl. rewrite Htm. congruence.
Qed.

Lemma schema_declares_reversed_dims_witness :
  let ds1 := fst (create_nc_dims 3
                    [("south_north", 100); ("west_east", 4); ("DateStrLen", 19)]
                    new_Dataset) in
  let ds2 := fst (create_nc_vars ["temp"; "Times"]
                    [("temp", "f"); ("Times", "c")]
                    [("temp", ["Time"; "south_north"; "west_east"]);
                     ("Times", ["Time"; "DateStrLen"])] ds1) in
  dict_get "Time" (dimensions ds2) = Some 3
  /\ exists v, dict_get "temp" (variables ds2) = Some v
               /\ var_dimensions v = ["Time"; "south_north"; "west_east"]
               /\ head (var_dimensions v) = Some "Time".
Proof.
  intros ds1 ds2.
  destruct (schema_declares_reversed_dims sample_file sample_attributes
              ["temp"; "Times"] 3%nat
              [("south_north", 100); ("west_east", 4); ("DateStrLen", 19)]
              [("temp", ["Time"; "south_north"; "west_east"]);
               ("Times", ["Time"; "DateStrLen"])]
              [("temp", "f"); ("Times", "c")] sample_variables
              new_Dataset ds1 ds2)
    as [Htime Hvars].
  - reflexivity.
  - reflexivity.
  - reflexivity.
  - split; [exact Htime|].
    destruct (Hvars "temp" (list_elem_of_here _ _)) as (v & Hv & _ & Hd & Hh).
    exists v. split; [exact Hv|]. split; [exact Hd|].
    apply Hh. reflexivity.
Defined.

(** ** The copy loops *)

Lemma issue_all_nil (ds : Dataset) : issue_all [] ds = ds.
Proof. destruct ds. unfold issue_all. simpl. rewrite app_nil_r. reflexivity. Qed.

Lemma issue_all_app (ops1 ops2 : list nc_op) (ds : Dataset) :
  issue_all ops2 (issue_all ops1 ds) = issue_all (ops1 ++ ops2) ds.
Proof. unfold issue_all. simpl. rewrite app_assoc. reflexivity. Qed.

Lemma issue_one (op : nc_op) (ds : Dataset) : issue op ds = issue_all [op] ds.
Proof. reflexivity. Qed.

(** A loop whose iterations only issue calls issues them in order. *)
Lemma for_each_issues {A} (l : list A) (body : A -> NC unit)
    (g : A -> list nc_op) (ds : Dataset) :
  (forall x d, x ∈ l -> variables d = variables ds ->
               body x d = (issue_all (g x) d, Ok tt)) ->
  for_each l body ds = (issue_all (flat_map g l) ds, Ok tt).
Proof.
  revert ds. induction l as [|x l IH]; intros ds Hbody; simpl.
  - rewrite issue_all_nil. reflexivity.
  - unfold mbind, NC_bind.
    rewrite (Hbody x ds (list_elem_of_here _ _) eq_refl).
    rewrite IH.
    + rewrite issue_all_app. reflexivity.
    + intros y d Hy Hd. apply Hbody; [apply list_elem_of_further; exact Hy|].
      exact Hd.
Qed.

Lemma setitem_issues (var : string) (ix : index) (data : pydata) (d : Dataset) :
  is_Some (dict_get var (variables d)) ->
  setitem var ix data d = (issue_all [SetItem var ix data] d, Ok tt).
Proof. intros [v Hv]. unfold setitem. rewrite Hv. reflexivity. Qed.

Lemma set_collective_issues (var : string) (b : bool) (d : Dataset) :
  is_Some (dict_get var (variables d)) ->
  set_collective var b d = (issue_all [SetCollective var b] d, Ok tt).
Proof. intros [v Hv]. unfold set_collective. rewrite Hv. reflexivity. Qed.

Lemma serial_step_issues (f : Adios2File) (vars : dict var_info)
    (var : string) (info : var_info) (step : nat) (d : Dataset) :
  dict_get var vars = Some info ->
  is_Some (dict_get var (variables d)) ->
  serial_step f vars var step d = (issue_all (serial_ops f info var step) d, Ok tt).
Proof.
  intros Hv Hd. unfold serial_step, serial_ops, mbind, NC_bind, lift.
  rewrite (getitem_Some _ _ _ Hv).
  destruct (String.eqb (v_Type info) "string"); [apply setitem_issues; exact Hd|].
  simpl. destruct (single_element (read f var step));
    apply setitem_issues; exact Hd.
Qed.

Lemma parallel_step_issues (f : Adios2File) (vars : dict var_info)
    (var : string) (info : var_info) (start_arr count_arr : list Z)
    (step : nat) (d : Dataset) :
  dict_get var vars = Some info ->
  is_Some (dict_get var (variables d)) ->
  length start_arr = length count_arr ->
  parallel_step f vars var (Some (start_arr, count_arr)) step d
  = (issue_all (parallel_ops f info var start_arr count_arr step) d, Ok tt).
Proof.
  intros Hv Hd Hlen. unfold parallel_step, parallel_ops, mbind, NC_bind, lift.
  rewrite (getitem_Some _ _ _ Hv).
  destruct (String.eqb (v_Type info) "string"); [apply setitem_issues; exact Hd|].
  simpl. destruct (single_element (read_sel f var start_arr count_arr step));
    [apply setitem_issues; exact Hd|].
  rewrite (set_collective_issues var true d Hd).
  assert (is_Some (dict_get var (variables (issue_all [SetCollective var true] d))))
    as Hd' by exact Hd.
  destruct start_arr as [|s0 [|s1 [|s2 [|s3 rest]]]];
    destruct count_arr as [|c0 [|c1 [|c2 [|c3 rest']]]]; try discriminate Hlen;
    simpl;
    try (rewrite (setitem_issues _ _ _ _ Hd'), issue_all_app; reflexivity);
    reflexivity.
Qed.

(** [decomp] returns on a shape that parses, in a group that has a rank, and
    its two vectors have the length of the shape. *)
Lemma decomp_shape_Ok (comm : Comm) (dshape : list Z) :
  dshape <> [] -> Get_size comm <> 0 ->
  exists start_arr count_arr,
    decomp_shape comm dshape = Ok (start_arr, count_arr)
    /\ length start_arr = length dshape
    /\ length count_arr = length dshape.
Proof.
  intros Hne Hsize. unfold decomp_shape.
  destruct dshape as [|x l]; [congruence|].
  cbn [argmax mbind result_bind].
  assert (exists L, (x :: l) !! argmax_from 0 x 1 l = Some L) as [L ->].
  { destruct (argmax_from_spec l [x] 0 x) as (L & HL & _); eauto.
    - intros y Hy. apply list_elem_of_singleton in Hy. lia.
    - intros j y Hj. lia. }
  destruct (L <? 50).
  - eexists _, _. split; [reflexivity|].
    unfold zeros_like. rewrite length_replicate. auto.
  - rewrite Locate_spec by exact Hsize. cbn [mbind result_bind].
    eexists _, _. split; [reflexivity|].
    unfold zeros_like. rewrite !length_insert, length_replicate. auto.
Qed.

Lemma parse_shape_nonempty (s : string) (dshape : list Z) :
  parse_shape s = Ok dshape -> dshape <> [].
Proof.
  unfold parse_shape. pose proof (split_nonempty "," s) as Hne.
  destruct (split "," s) as [|w ws]; [congruence|].
  cbn [mapM]. destruct (py_int w); cbn [mbind result_bind]; [|discriminate].
  destruct (mapM py_int ws); cbn [mbind result_bind mret result_ret];
    intros H; inversion H; discriminate.
Qed.

(** The body of the variable loop, for an array variable. *)
Lemma parallel_var_issues (f : Adios2File) (comm : Comm) (num_steps : nat)
    (vars : dict var_info) (var : string) (info : var_info)
    (start_arr count_arr : list Z) (d : Dataset) :
  dict_get var vars = Some info ->
  String.eqb (v_Type info) "string" = false ->
  decomp comm var vars = Ok (start_arr, count_arr) ->
  length start_arr = length count_arr ->
  is_Some (dict_get var (variables d)) ->
  parallel_var f comm num_steps vars var d
  = (issue_all
       (flat_map (parallel_ops f info var start_arr count_arr) (range num_steps))
       d, Ok tt).
Proof.
  intros Hv Hty Hplan Hlen Hd.
  unfold parallel_var, mbind at 1 2, NC_bind, lift.
  rewrite (getitem_Some _ _ _ Hv), Hty. cbn [negb]. rewrite Hplan.
  cbn [fmap result_fmap].
  apply for_each_issues. intros step d' _ Hd'.
  apply parallel_step_issues; [exact Hv | rewrite Hd'; exact Hd | exact Hlen].
Qed.

Lemma flat_map_constant {A B} (l : list A) (ys : list B) (g : A -> list B) :
  (forall x, x ∈ l -> g x = ys) ->
  flat_map g l = concat (replicate (length l) ys).
Proof.
  induction l as [|x l IH]; intros H; simpl; [reflexivity|].
  rewrite (H x (list_elem_of_here _ _)), IH; [reflexivity|].
  intros y Hy. apply H. apply list_elem_of_further. exact Hy.
Qed.

(** C9.  An array variable whose shape has more than three axes, read in
    blocks that are not single elements: the parallel copy of the variable
    runs through all its steps without an exception and issues, step after
    step, nothing but [set_collective(True)]; no assignment is added to the
    destination. *)
Theorem no_write_beyond_three_axes (f : Adios2File) (comm : Comm)
    (num_steps : nat) (vars : dict var_info) (var : string)
    (info : var_info) (dshape : list Z) (ds : Dataset) :
  dict_get var vars = Some info ->
  v_Type info <> "string" ->
  parse_shape (v_Shape info) = Ok dshape ->
  (3 < length dshape)%nat ->
  Get_size comm <> 0 ->
  is_Some (dict_get var (variables ds)) ->
  (forall step start_arr count_arr,
     decomp comm var vars = Ok (start_arr, count_arr) ->
     (step < num_steps)%nat ->
     single_element (read_sel f var start_arr count_arr step) = false) ->
  exists start_arr count_arr,
    decomp comm var vars = Ok (start_arr, count_arr)
    /\ (3 < length start_arr)%nat /\ (3 < length count_arr)%nat
    /\ parallel_var f comm num_steps vars var ds
       = (issue_all (replicate num_steps (SetCollective var true)) ds, Ok tt)
    /\ forall v ix data,
         SetItem v ix data ∈ issued (fst (parallel_var f comm num_steps vars var ds)) ->
         SetItem v ix data ∈ issued ds.
Proof.
  intros Hv Hty Hshape Hlen Hsize Hd Hdata.
  destruct (decomp_shape_Ok comm dshape) as (start_arr & count_arr & Hplan & Hls & Hlc).
  { intros ->. simpl in Hlen. lia. }
  { exact Hsize. }
  assert (decomp comm var vars = Ok (start_arr, count_arr)) as Hdecomp.
  { rewrite (decomp_parsed comm var vars info dshape);
      [exact Hplan | apply getitem_Some; exact Hv | exact Hshape]. }
  assert (String.eqb (v_Type info) "string" = false) as Hty'.
  { apply String.eqb_neq. exact Hty. }
  assert (parallel_var f comm num_steps vars var ds
          = (issue_all (replicate num_steps (SetCollective var true)) ds, Ok tt))
    as Hrun.
  { rewrite (parallel_var_issues f comm num_steps vars var info start_arr count_arr)
      by (assumption || congruence).
    f_equal. f_equal.
    rewrite (flat_map_constant _ [SetCollective var true]).
    - unfold range. rewrite length_seq.
      clear. induction num_steps as [|n IH]; simpl; [reflexivity|].
      rewrite IH. reflexivity.
    - intros step Hstep. unfold parallel_ops. rewrite Hty'.
      rewrite (Hdata step start_arr count_arr Hdecomp)
        by (apply elem_of_seq in Hstep; lia).
      rewrite bool_decide_false by lia. reflexivity. }
  exists start_arr, count_arr.
  split; [exact Hdecomp|]. split; [lia|]. split; [lia|].
  split; [exact Hrun|].
  intros v ix data. rewrite Hrun. simpl.
  intros Hin. apply elem_of_app in Hin as [Hin|Hin]; [exact Hin|].
  apply elem_of_replicate in Hin as [Hin _]. discriminate.
Qed.

Lemma no_write_beyond_three_axes_witness :
  parallel_var four_axes_file {| Get_size := 2; Get_rank := 0 |} 1
    (available_variables four_axes_file) "tracer" four_axes_dest
  = (issue_all (replicate 1 (SetCollective "tracer" true)) four_axes_dest, Ok tt).
Proof.
  destruct (no_write_beyond_three_axes four_axes_file
              {| Get_size := 2; Get_rank := 0 |} 1
              (available_variables four_axes_file) "tracer"
              {| v_Type := "float"; v_Shape := "2, 3, 4, 5" |} [2; 3; 4; 5]
              four_axes_dest)
    as (start_arr & count_arr & _ & _ & _ & Hrun & _).
  - reflexivity.
  - discriminate.
  - reflexivity.
  - simpl. lia.
  - simpl. lia.
  - eexists. reflexivity.
  - intros step start_arr count_arr Hplan _.
    vm_compute in Hplan. inversion Hplan; subst. reflexivity.
  - exact Hrun.
Defined.

(** ** The contents of the destination *)

Lemma contents_snoc (ops : list nc_op) (op : nc_op) (c : cell) :
  contents (ops ++ [op]) c
  = match written op c with Some x => Some x | None => contents ops c end.
Proof. unfold contents. rewrite fold_left_app. reflexivity. Qed.

Lemma covered_snoc (ops : list nc_op) (op : nc_op) (c : cell) :
  covered (ops ++ [op]) c
  = covered ops c || bool_decide (is_Some (written op c)).
Proof. unfold covered. rewrite existsb_app. simpl. rewrite orb_false_r. reflexivity. Qed.

Lemma faithful_app (f : Adios2File) (vars : dict var_info)
    (ops1 ops2 : list nc_op) :
  faithful f vars (ops1 ++ ops2) <-> faithful f vars ops1 /\ faithful f vars ops2.
Proof.
  unfold faithful. split.
  - intros H. split; intros op Hop; apply H; apply elem_of_app; auto.
  - intros [H1 H2] op Hop.
    apply elem_of_app in Hop as [Hop|Hop]; [apply H1 | apply H2]; exact Hop.
Qed.

Lemma faithful_flat_map {A} (f : Adios2File) (vars : dict var_info)
    (g : A -> list nc_op) (l : list A) :
  (forall x, x ∈ l -> faithful f vars (g x)) ->
  faithful f vars (flat_map g l).
Proof.
  induction l as [|x l IH]; intros H; simpl.
  - intros op Hop. inversion Hop.
  - apply faithful_app. split.
    + apply H. apply list_elem_of_here.
    + apply IH. intros y Hy. apply H. apply list_elem_of_further. exact Hy.
Qed.

(** Faithful assignments leave the source's value in every cell they
    reach, and nothing elsewhere. *)
Lemma contents_faithful (f : Adios2File) (vars : dict var_info)
    (ops : list nc_op) :
  faithful f vars ops ->
  forall c, contents ops c
            = if covered ops c then Some (source_value f vars c) else None.
Proof.
  induction ops as [|op ops IH] using rev_ind; intros Hf c; [reflexivity|].
  apply faithful_app in Hf as [Hops Hop].
  rewrite contents_snoc, covered_snoc, (IH Hops).
  destruct (written op c) as [x|] eqn:Hw.
  - rewrite bool_decide_true by eauto. rewrite orb_true_r.
    f_equal. apply (Hop op (list_elem_of_here _ _) c x Hw).
  - rewrite bool_decide_false by (intros [y Hy]; discriminate).
    rewrite orb_false_r. reflexivity.
Qed.

Lemma covered_flat_map {A} (g : A -> list nc_op) (l : list A) (c : cell) :
  covered (flat_map g l) c = true <-> exists x, x ∈ l /\ covered (g x) c = true.
Proof.
  unfold covered. rewrite existsb_exists. split.
  - intros (op & Hin & Hop). apply in_flat_map in Hin as (x & Hx & Hin).
    exists x. split; [apply list_elem_of_In; exact Hx|].
    apply existsb_exists. eauto.
  - intros (x & Hx & Hc). apply existsb_exists in Hc as (op & Hin & Hop).
    exists op. split; [|exact Hop].
    apply in_flat_map. exists x. split; [apply list_elem_of_In; exact Hx|exact Hin].
Qed.

(** ** Boxes and blocks of indices *)

Lemma in_box_length (shape idx : list Z) :
  in_box shape idx = true -> length idx = length shape.
Proof.
  revert idx. induction shape as [|n sh IH]; intros [|i idx] H;
    simpl in *; try discriminate; [reflexivity|].
  apply andb_true_iff in H as [_ H]. f_equal. auto.
Qed.

Lemma in_slices_length (slices : list (Z * Z)) (idx : list Z) :
  in_slices slices idx = true -> length idx = length slices.
Proof.
  revert idx. induction slices as [|[a b] sl IH]; intros [|i idx] H;
    simpl in *; try discriminate; [reflexivity|].
  apply andb_true_iff in H as [_ H]. f_equal. auto.
Qed.

(** Slices from zero over the whole shape address the whole box. *)
Lemma in_slices_full (shape idx : list Z) :
  in_slices (slices_of (zeros_like shape) shape) idx = in_box shape idx.
Proof.
  revert idx. induction shape as [|n sh IH]; intros [|i idx]; try reflexivity.
  unfold zeros_like, slices_of in *. simpl. rewrite IH. reflexivity.
Qed.

Lemma in_box_axis (shape : list Z) (m : nat) (L : Z) (idx : list Z) :
  shape !! m = Some L ->
  in_box shape idx
  = in_box (take m shape) (take m idx)
    && match drop m idx with
       | x :: rest => (0 <=? x) && (x <? L) && in_box (drop (S m) shape) rest
       | [] => false
       end.
Proof.
  revert m idx. induction shape as [|n sh IH]; intros m idx Hm.
  - destruct m; discriminate.
  - destruct m as [|m].
    + inversion Hm; subst. simpl. destruct idx as [|i idx]; reflexivity.
    + simpl in Hm. destruct idx as [|i idx]; [reflexivity|].
      simpl. rewrite (IH m idx Hm).
      rewrite !andb_assoc. reflexivity.
Qed.

Lemma in_slices_axis (shape : list Z) (m : nat) (L st ct : Z) (idx : list Z) :
  shape !! m = Some L ->
  in_slices (slices_of (<[m := st]> (zeros_like shape)) (<[m := ct]> shape)) idx
  = in_box (take m shape) (take m idx)
    && match drop m idx with
       | x :: rest => (st <=? x) && (x <? st + ct) && in_box (drop (S m) shape) rest
       | [] => false
       end.
Proof.
  revert m idx. induction shape as [|n sh IH]; intros m idx Hm.
  - destruct m; discriminate.
  - destruct m as [|m].
    + inversion Hm; subst. destruct idx as [|i idx]; [reflexivity|].
      change (in_slices
                ((st, st + ct) :: slices_of (zeros_like sh) sh) (i :: idx)
              = in_box [] [] && ((st <=? i) && (i <? st + ct) && in_box sh idx)).
      simpl. rewrite in_slices_full. reflexivity.
    + simpl in Hm. destruct idx as [|i idx]; [reflexivity|].
      change (in_slices
                ((0, 0 + n) :: slices_of (<[m := st]> (zeros_like sh)) (<[m := ct]> sh))
                (i :: idx)
              = in_box (n :: take m sh) (i :: take m idx)
                && match drop m idx with
                   | x :: rest =>
                       (st <=? x) && (x <? st + ct) && in_box (drop (S m) sh) rest
                   | [] => false
                   end).
      simpl. rewrite (IH m idx Hm). rewrite !andb_assoc. reflexivity.
Qed.

(** The blocks [decomp] gives the ranks tile the box of the shape. *)
Lemma blocks_tile_box (shape : list Z) (m : nat) (L W : Z) (idx : list Z) :
  shape !! m = Some L -> 0 <= L -> 1 <= W ->
  in_box shape idx = true <->
  exists r, 0 <= r < W
    /\ in_slices (slices_of (<[m := block_start L W r]> (zeros_like shape))
                            (<[m := block_count L W r]> shape)) idx = true.
Proof.
  intros Hm HL HW. rewrite (in_box_axis shape m L idx Hm). split.
  - intros H. apply andb_true_iff in H as [Hpre H].
    destruct (drop m idx) as [|x rest] eqn:Hdrop; [discriminate|].
    apply andb_true_iff in H as [Hx Hpost].
    apply andb_true_iff in Hx as [Hx0 HxL].
    apply Z.leb_le in Hx0. apply Z.ltb_lt in HxL.
    destruct (blocks_cover L W HL HW x) as (r & Hr & Hxr); [lia|].
    exists r. split; [exact Hr|].
    rewrite (in_slices_axis shape m L _ _ idx Hm), Hdrop, Hpre, Hpost.
    simpl. rewrite andb_true_r. apply andb_true_iff.
    split; [apply Z.leb_le | apply Z.ltb_lt]; lia.
  - intros (r & Hr & H).
    rewrite (in_slices_axis shape m L _ _ idx Hm) in H.
    apply andb_true_iff in H as [Hpre H]. rewrite Hpre. simpl.
    destruct (drop m idx) as [|x rest]; [discriminate|].
    apply andb_true_iff in H as [Hx Hpost]. rewrite Hpost, andb_true_r.
    apply andb_true_iff in Hx as [Hx0 HxL].
    apply Z.leb_le in Hx0. apply Z.ltb_lt in HxL.
    pose proof (blocks_inside L W HL HW r x Hr ltac:(lia)).
    apply andb_true_iff. split; [apply Z.leb_le | apply Z.ltb_lt]; lia.
Qed.

Lemma slices_of_starts (start_arr count_arr : list Z) :
  length start_arr = length count_arr ->
  map fst (slices_of start_arr count_arr) = start_arr.
Proof.
  revert count_arr. induction start_arr as [|s st IH]; intros [|c ct] H;
    simpl in *; try discriminate; [reflexivity|].
  f_equal. apply IH. lia.
Qed.

Lemma slices_of_length (start_arr count_arr : list Z) :
  length start_arr = length count_arr ->
  length (slices_of start_arr count_arr) = length start_arr.
Proof.
  revert count_arr. induction start_arr as [|s st IH]; intros [|c ct] H;
    simpl in *; try discriminate; [reflexivity|].
  f_equal. apply IH. lia.
Qed.

(** The element a block holds for a cell is the one the whole array holds
    there. *)
Lemma block_index (start_arr idx : list Z) :
  length idx = length start_arr ->
  zip_with Z.add start_arr (zip_with Z.sub idx start_arr) = idx.
Proof.
  revert idx. induction start_arr as [|s st IH]; intros [|i idx] H;
    simpl in *; try discriminate; [reflexivity|].
  f_equal; [lia|]. apply IH. lia.
Qed.

(** ** One step of one variable, on both paths *)

Lemma covered_one (op : nc_op) (c : cell) :
  covered [op] c = bool_decide (is_Some (written op c)).
Proof. unfold covered. simpl. apply orb_false_r. Qed.

Lemma covered_collective (var : string) (b : bool) (ops : list nc_op) (c : cell) :
  covered (SetCollective var b :: ops) c = covered ops c.
Proof.
  destruct c as [[v s] idx]. reflexivity.
Qed.

Lemma written_whole (var : string) (ix : index) (step : nat) (a : ndarray)
    (c : cell) :
  ix = At step \/ ix = AtAll step ->
  written (SetItem var ix (Arr a)) c
  = if reach var step (in_box (nd_shape a)) c
    then Some (Num (nd_at a (snd c))) else None.
Proof.
  destruct c as [[v s] idx]. intros [-> | ->]; simpl;
    destruct (String.eqb v var); simpl; try reflexivity;
    destruct (s =? step)%nat; simpl; try reflexivity.
Qed.

Lemma written_slices (var : string) (step : nat) (slices : list (Z * Z))
    (a : ndarray) (c : cell) :
  written (SetItem var (AtSlices step slices) (Arr a)) c
  = if reach var step (in_slices slices) c
    then Some (Num (nd_at a (rel_index slices (snd c)))) else None.
Proof.
  destruct c as [[v s] idx]. simpl.
  destruct (String.eqb v var); simpl; [|reflexivity].
  destruct (s =? step)%nat; simpl; reflexivity.
Qed.

Lemma written_text (var : string) (step : nat) (t : list string) (c : cell) :
  written (SetItem var (AtAll step) (Str t)) c
  = if reach var step (fun idx => bool_decide (idx = [])) c
    then Some (Text t) else None.
Proof.
  destruct c as [[v s] idx]. simpl.
  destruct (String.eqb v var); simpl; [|reflexivity].
  destruct (s =? step)%nat; simpl; reflexivity.
Qed.

Lemma reach_cell (var : string) (step : nat) (region : list Z -> bool)
    (c : cell) :
  reach var step region c = true ->
  exists idx, c = (var, step, idx) /\ region idx = true.
Proof.
  destruct c as [[v s] idx]. simpl. intros H.
  apply andb_true_iff in H as [H Hr]. apply andb_true_iff in H as [Hv Hs].
  apply String.eqb_eq in Hv. apply Nat.eqb_eq in Hs. subst. eauto.
Qed.

Lemma covered_if {A} (b : bool) (x : A) :
  bool_decide (is_Some (if b then Some x else None)) = b.
Proof.
  destruct b.
  - apply bool_decide_true. eauto.
  - apply bool_decide_false. intros [y Hy]. discriminate.
Qed.

Section OneVariable.
Variables (f : Adios2File) (vars : dict var_info).
Variables (var : string) (info : var_info).
Hypothesis Hinfo : dict_get var vars = Some info.

(** A string variable: both paths issue the same assignment. *)
Lemma string_ops_same (start_arr count_arr : list Z) (step : nat) :
  v_Type info = "string" ->
  parallel_ops f info var start_arr count_arr step = serial_ops f info var step.
Proof.
  intros Hty. unfold parallel_ops, serial_ops. rewrite Hty. reflexivity.
Qed.

Lemma string_ops_faithful (step : nat) :
  v_Type info = "string" -> faithful f vars (serial_ops f info var step).
Proof.
  intros Hty op Hop c x Hw. unfold serial_ops in Hop. rewrite Hty in Hop.
  simpl in Hop. apply list_elem_of_singleton in Hop. subst op.
  rewrite written_text in Hw.
  destruct (reach var step _ c) eqn:Hr; [|discriminate].
  apply reach_cell in Hr as (idx & -> & _). inversion Hw; subst.
  simpl. rewrite Hinfo, Hty. reflexivity.
Qed.

Section Array.
Variable dshape : list Z.
Hypothesis Hty : v_Type info <> "string".
Hypothesis Hread : forall step, nd_shape (read f var step) = dshape.
Hypothesis Hsel : forall step start count,
  nd_shape (read_sel f var start count step) = count
  /\ forall j, nd_at (read_sel f var start count step) j
               = nd_at (read f var step) (zip_with Z.add start j).

Lemma array_source_value (step : nat) (idx : list Z) :
  source_value f vars (var, step, idx) = Num (nd_at (read f var step) idx).
Proof.
  simpl. rewrite Hinfo, (proj2 (String.eqb_neq _ _) Hty). reflexivity.
Qed.

Lemma serial_ops_array (step : nat) :
  faithful f vars (serial_ops f info var step)
  /\ forall c, covered (serial_ops f info var step) c
               = reach var step (in_box dshape) c.
Proof.
  assert (exists ix, (ix = At step \/ ix = AtAll step)
            /\ serial_ops f info var step
               = [SetItem var ix (Arr (read f var step))]) as (ix & Hix & ->).
  { unfold serial_ops.
    rewrite (proj2 (String.eqb_neq _ _) Hty). simpl.
    destruct (single_element (read f var step)); eauto. }
  split.
  - intros op Hop c x Hw. apply list_elem_of_singleton in Hop. subst op.
    rewrite (written_whole var ix step _ c Hix) in Hw.
    destruct (reach var step _ c) eqn:Hr; [|discriminate].
    apply reach_cell in Hr as (idx & -> & _). inversion Hw; subst.
    rewrite array_source_value. reflexivity.
  - intros c. rewrite covered_one, (written_whole var ix step _ c Hix).
    rewrite covered_if, Hread. reflexivity.
Qed.

(** The assignment of a rank whose block is [start_arr], [count_arr]:
    either the block is the whole one-element array, or it is written
    through its slices. *)
Lemma parallel_ops_array (start_arr count_arr : list Z) (step : nat) :
  length start_arr = length dshape ->
  length count_arr = length dshape ->
  (1 <= length dshape <= 3)%nat ->
  (single_element (read_sel f var start_arr count_arr step) = true ->
   start_arr = zeros_like dshape /\ count_arr = dshape) ->
  faithful f vars (parallel_ops f info var start_arr count_arr step)
  /\ forall c, covered (parallel_ops f info var start_arr count_arr step) c
               = reach var step (in_slices (slices_of start_arr count_arr)) c.
Proof.
  intros Hls Hlc Hlen Hsingle.
  destruct (Hsel step start_arr count_arr) as [Hshape Hat].
  unfold parallel_ops. rewrite (proj2 (String.eqb_neq _ _) Hty).
  cbv zeta.
  destruct (single_element (read_sel f var start_arr count_arr step)) eqn:Hs.
  - destruct (Hsingle eq_refl) as [-> ->]. split.
    + intros op Hop c x Hw. apply list_elem_of_singleton in Hop. subst op.
      rewrite (written_whole var (At step) step _ c (or_introl eq_refl)) in Hw.
      destruct (reach var step _ c) eqn:Hr; [|discriminate].
      apply reach_cell in Hr as (idx & -> & Hbox). inversion Hw; subst.
      rewrite array_source_value, Hat. simpl. f_equal. f_equal.
      rewrite Hshape in Hbox. apply in_box_length in Hbox.
      unfold zeros_like. clear -Hbox. revert idx Hbox.
      induction dshape as [|n sh IH]; intros [|i idx] H; simpl in *;
        try discriminate; [reflexivity|].
      f_equal. apply IH. lia.
    + intros c.
      rewrite covered_one,
        (written_whole var (At step) step _ c (or_introl eq_refl)).
      rewrite covered_if, Hshape.
      destruct c as [[v s] idx]. simpl. rewrite in_slices_full. reflexivity.
  - rewrite bool_decide_true by lia. split.
    + intros op Hop c x Hw.
      apply elem_of_cons in Hop as [-> | Hop].
      { destruct c as [[v s] idx]. discriminate. }
      apply list_elem_of_singleton in Hop. subst op.
      rewrite written_slices in Hw.
      destruct (reach var step _ c) eqn:Hr; [|discriminate].
      apply reach_cell in Hr as (idx & -> & Hin). inversion Hw; subst.
      rewrite array_source_value, Hat. simpl. f_equal. f_equal.
      unfold rel_index. rewrite slices_of_starts by congruence.
      apply block_index.
      apply in_slices_length in Hin.
      rewrite slices_of_length in Hin by congruence. exact Hin.
    + intros c. rewrite covered_collective, covered_one, written_slices.
      apply covered_if.
Qed.
End Array.
End OneVariable.

(** ** All ranks against the serial copy *)

(** The two ways [decomp] plans a shape, for every rank of a group. *)
Lemma decomp_shape_cases (W : Z) (dshape : list Z) :
  dshape <> [] -> W <> 0 ->
  exists (m : nat) (L : Z),
    dshape !! m = Some L
    /\ ((L < 50
         /\ forall r, decomp_shape {| Get_size := W; Get_rank := r |} dshape
                      = Ok (zeros_like dshape, dshape))
        \/ (50 <= L
            /\ forall r, decomp_shape {| Get_size := W; Get_rank := r |} dshape
                         = Ok (<[m := block_start L W r]> (zeros_like dshape),
                               <[m := block_count L W r]> dshape))).
Proof.
  intros Hne HW. destruct dshape as [|x l]; [congruence|].
  destruct (argmax_from_spec l [x] 0 x) as (L & Hat & Hmax & _).
  { reflexivity. }
  { intros y Hy. apply list_elem_of_singleton in Hy. lia. }
  { intros j y Hj. lia. }
  simpl in Hat, Hmax.
  exists (argmax_from 0 x 1 l), L. split; [exact Hat|].
  destruct (Z_lt_le_dec L 50) as [Hsmall|Hbig].
  - left. split; [exact Hsmall|]. intros r.
    apply (decomp_shape_small _ (x :: l) L); [|exact Hmax|exact Hsmall].
    eapply list_elem_of_lookup_2; eauto.
  - right. split; [exact Hbig|]. intros r.
    apply decomp_shape_blocks; auto.
Qed.

Lemma block_count_not_one (L W r : Z) :
  50 <= L -> 1 <= W -> L / W <> 1 -> block_count L W r <> 1.
Proof.
  intros HL HW Hq. unfold block_count.
  destruct (block_quotient L W ltac:(lia) HW) as (Hq0 & Hdm & Hm).
  destruct (Z.eqb_spec r (W - 1)); nia.
Qed.

Lemma reach_iff (var : string) (step : nat) (region : list Z -> bool) (c : cell) :
  reach var step region c = true <->
  exists idx, c = (var, step, idx) /\ region idx = true.
Proof.
  split; [apply reach_cell|].
  intros (idx & -> & H). simpl.
  rewrite String.eqb_refl, Nat.eqb_refl, H. reflexivity.
Qed.

Lemma parallel_step_text (f : Adios2File) (vars : dict var_info)
    (var : string) (info : var_info) (plan : option (list Z * list Z))
    (step : nat) (d : Dataset) :
  dict_get var vars = Some info ->
  v_Type info = "string" ->
  is_Some (dict_get var (variables d)) ->
  parallel_step f vars var plan step d
  = (issue_all (parallel_ops f info var [] [] step) d, Ok tt).
Proof.
  intros Hv Hty Hd. unfold parallel_step, parallel_ops, mbind, NC_bind, lift.
  rewrite (getitem_Some _ _ _ Hv), Hty. simpl.
  apply setitem_issues. exact Hd.
Qed.

Section BothPaths.
Variables (f : Adios2File) (vars : dict var_info) (num_steps : nat).
Variable nranks : nat.
Hypothesis Hranks : (1 <= nranks)%nat.

Lemma serial_var_issues (var : string) (d : Dataset) :
  comparable f (Z.of_nat nranks) vars var ->
  is_Some (dict_get var (variables d)) ->
  for_each (range num_steps) (serial_step f vars var) d
  = (issue_all (serial_var_ops f vars num_steps var) d, Ok tt).
Proof.
  intros (info & Hv & _) Hd. unfold serial_var_ops. rewrite Hv.
  apply for_each_issues. intros step d' _ Hd'.
  apply serial_step_issues; [exact Hv | rewrite Hd'; exact Hd].
Qed.

Lemma parallel_var_runs (r : nat) (var : string) (d : Dataset) :
  comparable f (Z.of_nat nranks) vars var ->
  is_Some (dict_get var (variables d)) ->
  parallel_var f (comm_of nranks r) num_steps vars var d
  = (issue_all (parallel_var_ops f (comm_of nranks r) vars num_steps var) d, Ok tt).
Proof.
  intros (info & Hv & [Hty | (Hty & dshape & Hparse & Hlen & _)]) Hd.
  - unfold parallel_var_ops, parallel_var, mbind at 1 2, NC_bind, lift.
    rewrite (getitem_Some _ _ _ Hv), Hv, Hty. simpl.
    apply for_each_issues. intros step d' _ Hd'.
    apply parallel_step_text; [exact Hv | exact Hty | rewrite Hd'; exact Hd].
  - destruct (decomp_shape_Ok (comm_of nranks r) dshape)
      as (start_arr & count_arr & Hplan & Hls & Hlc).
    { intros ->. simpl in Hlen. lia. }
    { simpl. lia. }
    assert (decomp (comm_of nranks r) var vars = Ok (start_arr, count_arr)) as Hdecomp.
    { rewrite (decomp_parsed _ var vars info dshape);
        [exact Hplan | apply getitem_Some; exact Hv | exact Hparse]. }
    unfold parallel_var_ops.
    rewrite Hv, (proj2 (String.eqb_neq _ _) Hty), Hdecomp.
    apply parallel_var_issues;
      [exact Hv | apply String.eqb_neq; exact Hty | exact Hdecomp
      | congruence | exact Hd].
Qed.

(** One variable: every rank stores what the source holds, and the ranks
    together reach the cells the serial copy reaches. *)
Lemma one_variable (var : string) :
  comparable f (Z.of_nat nranks) vars var ->
  faithful f vars (serial_var_ops f vars num_steps var)
  /\ (forall r, faithful f vars (parallel_var_ops f (comm_of nranks r) vars num_steps var))
  /\ forall c,
       covered (serial_var_ops f vars num_steps var) c = true <->
       exists r, (r < nranks)%nat
         /\ covered (parallel_var_ops f (comm_of nranks r) vars num_steps var) c = true.
Proof.
  intros (info & Hv & [Hty | (Hty & dshape & Hparse & Hlen & Hread & Hsel & Hone)]).
  - (* a string *)
    assert (forall r, parallel_var_ops f (comm_of nranks r) vars num_steps var
                      = serial_var_ops f vars num_steps var) as Hsame.
    { intros r. unfold parallel_var_ops, serial_var_ops.
      rewrite Hv, Hty. simpl.
      induction (range num_steps) as [|step l IH]; simpl; [reflexivity|].
      rewrite IH, (string_ops_same f var info [] [] step Hty). reflexivity. }
    assert (faithful f vars (serial_var_ops f vars num_steps var)) as Hf.
    { unfold serial_var_ops. rewrite Hv. apply faithful_flat_map.
      intros step _. apply string_ops_faithful; assumption. }
    split; [exact Hf|]. split; [intros r; rewrite Hsame; exact Hf|].
    intros c. split.
    + intros Hc. exists 0%nat. split; [lia|]. rewrite Hsame. exact Hc.
    + intros (r & _ & Hc). rewrite Hsame in Hc. exact Hc.
  - (* an array *)
    assert (dshape <> []) as Hne by (intros ->; simpl in Hlen; lia).
    assert (Z.of_nat nranks <> 0) as HW by lia.
    destruct (decomp_shape_cases (Z.of_nat nranks) dshape Hne HW)
      as (m & L & Hm & Hcases).
    assert (forall r, decomp (comm_of nranks r) var vars
                      = decomp_shape (comm_of nranks r) dshape) as Hdecomp.
    { intros r. apply (decomp_parsed _ var vars info dshape);
        [apply getitem_Some; exact Hv | exact Hparse]. }
    (* the block of every rank *)
    assert (forall r,
              exists start_arr count_arr,
                decomp (comm_of nranks r) var vars = Ok (start_arr, count_arr)
                /\ ((L < 50 /\ start_arr = zeros_like dshape /\ count_arr = dshape)
                    \/ (50 <= L
                        /\ start_arr = <[m := block_start L (Z.of_nat nranks) (Z.of_nat r)]>
                                         (zeros_like dshape)
                        /\ count_arr = <[m := block_count L (Z.of_nat nranks) (Z.of_nat r)]>
                                         dshape))) as Hplan.
    { intros r. rewrite Hdecomp.
      destruct Hcases as [[Hs Hall] | [Hb Hall]];
        eexists _, _; (split; [apply Hall|]); auto. }
    (* what its assignments do *)
    assert (forall r start_arr count_arr step,
              decomp (comm_of nranks r) var vars = Ok (start_arr, count_arr) ->
              faithful f vars (parallel_ops f info var start_arr count_arr step)
              /\ forall c,
                   covered (parallel_ops f info var start_arr count_arr step) c
                   = reach var step (in_slices (slices_of start_arr count_arr)) c)
      as Hops.
    { intros r start_arr count_arr step Hd.
      destruct (Hplan r) as (s' & c' & Hd' & Hcase).
      rewrite Hd in Hd'. inversion Hd'; subst s' c'.
      apply (parallel_ops_array f vars var info Hv dshape Hty Hsel).
      - destruct Hcase as [(_ & -> & _) | (_ & -> & _)]; unfold zeros_like;
          rewrite ?length_insert, length_replicate; reflexivity.
      - destruct Hcase as [(_ & _ & ->) | (_ & _ & ->)];
          rewrite ?length_insert; reflexivity.
      - exact Hlen.
      - intros Hsingle.
        destruct Hcase as [(_ & -> & ->) | (Hbig & -> & ->)]; [auto|].
        exfalso. unfold single_element, ndim, len in Hsingle.
        rewrite (proj1 (Hsel _ _ _)) in Hsingle.
        apply andb_true_iff in Hsingle as [Hnd Hl].
        apply Nat.eqb_eq in Hnd. apply Z.eqb_eq in Hl.
        rewrite length_insert in Hnd.
        destruct dshape as [|x [|y rest]]; simpl in Hnd; try discriminate.
        destruct m as [|m]; simpl in Hm; [|discriminate].
        inversion Hm; subst x. simpl in Hl.
        revert Hl. apply block_count_not_one; [exact Hbig | lia |].
        apply (Hone L eq_refl Hbig). }
    split; [|split].
    + unfold serial_var_ops. rewrite Hv. apply faithful_flat_map.
      intros step _.
      apply (serial_ops_array f vars var info Hv dshape Hty Hread step).
    + intros r. unfold parallel_var_ops.
      rewrite Hv, (proj2 (String.eqb_neq _ _) Hty).
      destruct (Hplan r) as (start_arr & count_arr & Hd & Hcase).
      rewrite Hd. apply faithful_flat_map. intros step _.
      apply (Hops r start_arr count_arr step Hd).
    + intros c. unfold serial_var_ops, parallel_var_ops.
      rewrite Hv, (proj2 (String.eqb_neq _ _) Hty).
      rewrite covered_flat_map. split.
      * intros (step & Hstep & Hc).
        rewrite (proj2 (serial_ops_array f vars var info Hv dshape Hty Hread step))
          in Hc.
        apply reach_iff in Hc as (idx & -> & Hbox).
        destruct Hcases as [[Hs Hall] | [Hb Hall]].
        -- exists 0%nat. split; [lia|].
           rewrite Hdecomp. unfold comm_of. rewrite Hall. apply covered_flat_map.
           exists step. split; [exact Hstep|].
           rewrite (proj2 (Hops 0%nat _ _ step
                             (eq_trans (Hdecomp 0%nat) (Hall _)))).
           apply reach_iff. exists idx. split; [reflexivity|].
           rewrite in_slices_full. exact Hbox.
        -- apply (blocks_tile_box dshape m L (Z.of_nat nranks) idx Hm) in Hbox
             as (r & Hr & Hin); [|lia|lia].
           exists (Z.to_nat r). split; [lia|].
           rewrite Hdecomp. unfold comm_of. rewrite Hall. apply covered_flat_map.
           exists step. split; [exact Hstep|].
           rewrite (proj2 (Hops (Z.to_nat r) _ _ step
                             (eq_trans (Hdecomp _) (Hall _)))).
           apply reach_iff. exists idx. split; [reflexivity|].
           simpl. rewrite Z2Nat.id by lia. exact Hin.
      * intros (r & Hr & Hc).
        destruct (Hplan r) as (start_arr & count_arr & Hd & Hcase).
        rewrite Hd in Hc. apply covered_flat_map in Hc as (step & Hstep & Hc).
        exists step. split; [exact Hstep|].
        rewrite (proj2 (serial_ops_array f vars var info Hv dshape Hty Hread step)).
        rewrite (proj2 (Hops r start_arr count_arr step Hd)) in Hc.
        apply reach_iff in Hc as (idx & -> & Hin).
        apply reach_iff. exists idx. split; [reflexivity|].
        destruct Hcase as [(_ & -> & ->) | (Hbig & -> & ->)].
        -- rewrite in_slices_full in Hin. exact Hin.
        -- apply (blocks_tile_box dshape m L (Z.of_nat nranks) idx Hm);
             [lia | lia |].
           exists (Z.of_nat r). split; [lia | exact Hin].
Qed.

Variables (var_names : list string) (ds : Dataset).
Hypothesis Hvars : forall var, var ∈ var_names ->
  is_Some (dict_get var (variables ds))
  /\ comparable f (Z.of_nat nranks) vars var.

Lemma serial_runs :
  r_w_data_serial f var_names num_steps vars ds
  = (issue_all (flat_map (serial_var_ops f vars num_steps) var_names) ds, Ok tt).
Proof.
  unfold r_w_data_serial. apply for_each_issues.
  intros var d Hin Hd. destruct (Hvars var Hin) as [Hdecl Hcmp].
  apply serial_var_issues; [exact Hcmp | rewrite Hd; exact Hdecl].
Qed.

Lemma parallel_runs (r : nat) :
  r_w_data_parallel f (comm_of nranks r) var_names num_steps vars ds
  = (issue_all
       (flat_map (parallel_var_ops f (comm_of nranks r) vars num_steps) var_names)
       ds, Ok tt).
Proof.
  unfold r_w_data_parallel. apply for_each_issues.
  intros var d Hin Hd. destruct (Hvars var Hin) as [Hdecl Hcmp].
  apply parallel_var_runs; [exact Hcmp | rewrite Hd; exact Hdecl].
Qed.

(** The destination after all ranks have written is the destination after
    the serial copy. *)
Lemma contents_agree :
  issued ds = [] ->
  forall c,
    contents (parallel_issued f nranks var_names num_steps vars ds) c
    = contents (issued (fst (r_w_data_serial f var_names num_steps vars ds))) c.
Proof.
  intros Hfresh c.
  assert (parallel_issued f nranks var_names num_steps vars ds
          = flat_map
              (fun r => flat_map
                          (parallel_var_ops f (comm_of nranks r) vars num_steps)
                          var_names)
              (range nranks)) as ->.
  { unfold parallel_issued.
    induction (range nranks) as [|r l IH]; simpl; [reflexivity|].
    rewrite IH, parallel_runs. simpl. rewrite Hfresh. reflexivity. }
  rewrite serial_runs. simpl. rewrite Hfresh. simpl.
  rewrite (contents_faithful f vars), (contents_faithful f vars).
  - assert (covered
              (flat_map
                 (fun r => flat_map
                             (parallel_var_ops f (comm_of nranks r) vars num_steps)
                             var_names)
                 (range nranks)) c
            = covered (flat_map (serial_var_ops f vars num_steps) var_names) c)
      as ->; [|reflexivity].
    apply eq_true_iff_eq.
    rewrite !covered_flat_map. split.
    + intros (r & Hr & Hc). apply covered_flat_map in Hc as (var & Hin & Hc).
      exists var. split; [exact Hin|].
      apply (one_variable var (proj2 (Hvars var Hin))).
      exists r. split; [apply elem_of_seq in Hr; lia | exact Hc].
    + intros (var & Hin & Hc).
      apply (one_variable var (proj2 (Hvars var Hin))) in Hc as (r & Hr & Hc).
      exists r. split; [apply elem_of_seq; lia|].
      apply covered_flat_map. eauto.
  - apply faithful_flat_map. intros var Hin.
    apply (one_variable var (proj2 (Hvars var Hin))).
  - apply faithful_flat_map. intros r _.
    apply faithful_flat_map. intros var Hin.
    apply (one_variable var (proj2 (Hvars var Hin))).
Qed.
End BothPaths.

Example four_axes_schema :
  r_metadata four_axes_file (available_attributes four_axes_file)
  = Ok (["tracer"], 1%nat, [("a", 2); ("b", 3); ("c", 4); ("d", 5)],
        [("tracer", ["Time"; "a"; "b"; "c"; "d"])], [("tracer", "f")],
        available_variables four_axes_file)
  /\ fst (create_nc_vars ["tracer"] [("tracer", "f")]
            [("tracer", ["Time"; "a"; "b"; "c"; "d"])]
            (fst (create_nc_dims 1 [("a", 2); ("b", 3); ("c", 4); ("d", 5)]
                    new_Dataset)))
     = four_axes_dest.
Proof. split; reflexivity. Qed.

(** C2.  A variable of four axes after [Time], under two ranks: the serial
    copy stores its elements, so that the first cell of the first step
    holds the value of the source, while both ranks of the parallel copy
    run without an exception and store nothing, so that the cell stays
    empty.  The destination data of the two paths differ. *)
Theorem parallel_copy_drops_four_axes :
  snd (r_w_data_serial four_axes_file ["tracer"] 1
         (available_variables four_axes_file) four_axes_dest) = Ok tt
  /\ (forall r, (r < 2)%nat ->
        snd (r_w_data_parallel four_axes_file (comm_of 2 r) ["tracer"] 1
               (available_variables four_axes_file) four_axes_dest) = Ok tt)
  /\ contents
       (issued (fst (r_w_data_serial four_axes_file ["tracer"] 1
                       (available_variables four_axes_file) four_axes_dest)))
       ("tracer", 0%nat, [0; 0; 0; 0]) = Some (Num 7)
  /\ contents
       (parallel_issued four_axes_file 2 ["tracer"] 1
          (available_variables four_axes_file) four_axes_dest)
       ("tracer", 0%nat, [0; 0; 0; 0]) = None.
Proof.
  split; [reflexivity|]. split.
  - intros r Hr. destruct r as [|[|r]]; [reflexivity | reflexivity | lia].
  - split; reflexivity.
Qed.

(** The plan of the scenario, as the two ranks issue it: for the array of
    100 by 4 elements of the sample file, rank 0 assigns the rows 0 to 49
    and rank 1 the rows 50 to 99, each through one slice assignment. *)
Example two_ranks_assign_their_slabs :
  issued (fst (r_w_data_parallel sample_file (comm_of 2 0) ["temp"] 1
                 sample_variables sample_dest))
  = [SetCollective "temp" true;
     SetItem "temp" (AtSlices 0 [(0, 50); (0, 4)])
             (Arr (read_sel sample_file "temp" [0; 0] [50; 4] 0))]
  /\ issued (fst (r_w_data_parallel sample_file (comm_of 2 1) ["temp"] 1
                    sample_variables sample_dest))
     = [SetCollective "temp" true;
        SetItem "temp" (AtSlices 0 [(50, 100); (0, 4)])
                (Arr (read_sel sample_file "temp" [50; 0] [50; 4] 0))].
Proof. split; reflexivity. Qed.

(** X23.  Take variables that are strings or arrays of one to three axes,
    read with their catalogued shape, a selection being the addressed
    block, and no one-axis array of 50 elements or more cut into single
    elements; and a destination that holds no data yet and declares each
    variable on dimensions of the extents of its shape.  When the serial
    copy and the copy of every rank of the group end without an exception,
    the assignments of all ranks together leave in every cell what the
    serial copy leaves there. *)
Theorem parallel_copy_matches_serial (f : Adios2File) (nranks : nat)
    (var_names : list string) (num_steps : nat) (vars : dict var_info)
    (ds : Dataset) :
  (1 <= nranks)%nat ->
  issued ds = [] ->
  (forall var, var ∈ var_names ->
     declared_as vars num_steps ds var
     /\ comparable f (Z.of_nat nranks) vars var) ->
  snd (r_w_data_serial f var_names num_steps vars ds) = Ok tt ->
  (forall r, (r < nranks)%nat ->
     snd (r_w_data_parallel f (comm_of nranks r) var_names num_steps vars ds)
     = Ok tt) ->
  forall c,
    contents (parallel_issued f nranks var_names num_steps vars ds) c
    = contents (issued (fst (r_w_data_serial f var_names num_steps vars ds))) c.
Proof.
  intros Hranks Hfresh Hvars _ _.
  apply (contents_agree f vars num_steps nranks Hranks var_names ds); [|exact Hfresh].
  intros var Hin. destruct (Hvars var Hin) as [Hdecl Hcmp].
  split; [|exact Hcmp].
  destruct Hdecl as (info & v & time & dims & n & _ & Hv & _). eauto.
Qed.

Lemma sample_comparable (nranks : Z) (var : string) :
  var ∈ ["temp"; "Times"] ->
  declared_as sample_variables 3 sample_dest var
  /\ comparable sample_file nranks sample_variables var.
Proof.
  intros Hin. apply elem_of_cons in Hin as [->|Hin].
  - split.
    + exists {| v_Type := "float"; v_Shape := "100, 4" |},
             {| datatype := "f";
                var_dimensions := ["Time"; "south_north"; "west_east"];
                var_ncattrs := [] |},
             "Time", ["south_north"; "west_east"], 3.
      repeat split; try reflexivity; try lia.
      intros _. exists [100; 4]. split; [reflexivity|].
      split; [repeat constructor; unfold int64_range; lia|].
      repeat constructor.
    + exists {| v_Type := "float"; v_Shape := "100, 4" |}.
      split; [reflexivity|]. right. split; [discriminate|].
      exists [100; 4]. split; [reflexivity|]. split; [simpl; lia|].
      split; [reflexivity|]. split; [intros; split; reflexivity|].
      intros L HL. discriminate.
  - apply list_elem_of_singleton in Hin. subst var. split.
    + exists {| v_Type := "string"; v_Shape := "" |},
             {| datatype := "c"; var_dimensions := ["Time"; "DateStrLen"];
                var_ncattrs := [] |},
             "Time", ["DateStrLen"], 3.
      repeat split; try reflexivity; try lia.
      intros H. contradiction H. reflexivity.
    + exists {| v_Type := "string"; v_Shape := "" |}.
      split; [reflexivity|]. left. reflexivity.
Qed.

Lemma parallel_copy_matches_serial_witness :
  contents (parallel_issued sample_file 2 ["temp"; "Times"] 3
              sample_variables sample_dest) ("temp", 2%nat, [99; 3])
  = contents (issued (fst (r_w_data_serial sample_file ["temp"; "Times"] 3
                             sample_variables sample_dest)))
      ("temp", 2%nat, [99; 3]).
Proof.
  apply (parallel_copy_matches_serial sample_file 2 ["temp"; "Times"] 3
           sample_variables sample_dest).
  - lia.
  - reflexivity.
  - apply sample_comparable.
  - vm_compute. reflexivity.
  - intros r Hr. destruct r as [|[|r]]; [vm_compute; reflexivity ..|lia].
Defined.

(** The one-axis case left out above: on 50 ranks an array of 50 elements
    is planned in blocks of one element, and a block of one element takes
    the branch of the single-value variables. *)
Lemma one_element_block_takes_scalar_branch (f : Adios2File)
    (info : var_info) (var : string) (step : nat) :
  v_Type info <> "string" ->
  nd_shape (read_sel f var [7] [1] step) = [1] ->
  decomp_shape (comm_of 50 7) [50] = Ok ([7], [1])
  /\ parallel_ops f info var [7] [1] step
     = [SetItem var (At step) (Arr (read_sel f var [7] [1] step))].
Proof.
  intros Hty Hshape. split; [reflexivity|].
  unfold parallel_ops, single_element, ndim, len.
  rewrite (proj2 (String.eqb_neq _ _) Hty), Hshape. reflexivity.
Qed.

(** The sample file converts in both modes. *)
Example convert_sample :
  snd (convert sample_file (comm_of 1 0) false false) = Ok tt
  /\ snd (convert sample_file (comm_of 2 0) true false) = Ok tt
  /\ snd (convert sample_file (comm_of 2 1) true false) = Ok tt
  /\ dimensions (fst (convert sample_file (comm_of 1 0) false false))
     = [("Time", 3); ("south_north", 100); ("west_east", 4); ("DateStrLen", 19)]
  /\ ncattrs (fst (convert sample_file (comm_of 1 0) false false))
     = [("TITLE", StrList ["OUTPUT FROM WRF"]); ("DX", NumArray [3000])].
Proof. repeat split; reflexivity. Qed.

(** * Further properties *)

(** ** More on the decomposition *)

Lemma block_inside_axis (L W r : Z) :
  0 <= L -> 1 <= W -> 0 <= r < W ->
  0 <= block_start L W r /\ 0 <= block_count L W r
  /\ block_start L W r + block_count L W r <= L.
Proof.
  intros HL HW Hr. unfold block_start, block_count.
  destruct (block_quotient L W HL HW) as (Hq & Hdm & Hm).
  destruct (Z.eqb_spec r (W - 1)); nia.
Qed.

(** X1.  On a shape of non-negative extents that are 64-bit integers, for
    a rank of a group that has one, the two vectors of [decomp] have the
    length of the shape, and on every axis the block starts at a
    non-negative offset, has a non-negative extent and ends inside the
    axis. *)
Theorem decomp_block_within_shape
    (vars : dict var_info) (var : string) (info : var_info)
    (dshape : list Z) (W r : Z) :
  dict_get var vars = Some info ->
  parse_shape (v_Shape info) = Ok dshape ->
  Forall int64_range dshape ->
  (forall x, x ∈ dshape -> 0 <= x) ->
  1 <= W -> 0 <= r < W ->
  exists start_arr count_arr,
    decomp {| Get_size := W; Get_rank := r |} var vars = Ok (start_arr, count_arr)
    /\ length start_arr = length dshape
    /\ length count_arr = length dshape
    /\ forall j s c n,
         start_arr !! j = Some s -> count_arr !! j = Some c ->
         dshape !! j = Some n ->
         0 <= s /\ 0 <= c /\ s + c <= n.
Proof.
  intros Hv Hparse _ Hpos HW Hr.
  rewrite (decomp_parsed _ var vars info dshape (getitem_Some _ _ _ Hv) Hparse).
  destruct (decomp_shape_cases W dshape (parse_shape_nonempty _ _ Hparse)
              ltac:(lia)) as (m & L & Hm & [[Hs Hall] | [Hb Hall]]).
  - rewrite Hall. exists (zeros_like dshape), dshape.
    split; [reflexivity|]. unfold zeros_like.
    split; [apply length_replicate|]. split; [reflexivity|].
    intros j s c n Hsj Hcj Hnj.
    apply lookup_replicate in Hsj as [-> _].
    assert (c = n) as -> by congruence.
    assert (0 <= n) by (apply Hpos; eapply list_elem_of_lookup_2; eauto).
    lia.
  - rewrite Hall.
    exists (<[m := block_start L W r]> (zeros_like dshape)),
           (<[m := block_count L W r]> dshape).
    split; [reflexivity|]. unfold zeros_like.
    split; [rewrite length_insert; apply length_replicate|].
    split; [apply length_insert|].
    intros j s c n Hsj Hcj Hnj.
    assert (j < length dshape)%nat as Hj by (eapply lookup_lt_Some; eauto).
    destruct (Nat.eq_dec m j) as [<-|Hne].
    + rewrite list_lookup_insert_eq in Hsj by (rewrite length_replicate; lia).
      rewrite list_lookup_insert_eq in Hcj by lia.
      assert (n = L) as -> by congruence.
      inversion Hsj; inversion Hcj; subst.
      apply block_inside_axis; lia.
    + rewrite list_lookup_insert_ne in Hsj by exact Hne.
      rewrite list_lookup_insert_ne in Hcj by exact Hne.
      apply lookup_replicate in Hsj as [-> _].
      assert (c = n) as -> by congruence.
      assert (0 <= n) by (apply Hpos; eapply list_elem_of_lookup_2; eauto).
      lia.
Qed.

Lemma decomp_block_within_shape_witness :
  exists start_arr count_arr,
    decomp {| Get_size := 3; Get_rank := 2 |} "temp" sample_variables
      = Ok (start_arr, count_arr)
    /\ length start_arr = length [100; 4]
    /\ length count_arr = length [100; 4]
    /\ forall j s c n,
         start_arr !! j = Some s -> count_arr !! j = Some c ->
         [100; 4] !! j = Some n ->
         0 <= s /\ 0 <= c /\ s + c <= n.
Proof.
  apply (decomp_block_within_shape sample_variables "temp"
           {| v_Type := "float"; v_Shape := "100, 4" |} [100; 4] 3 2).
  - reflexivity.
  - reflexivity.
  - repeat constructor; unfold int64_range; lia.
  - intros x Hx.
    repeat (apply elem_of_cons in Hx as [->|Hx]; [lia|]). inversion Hx.
  - lia.
  - lia.
Defined.

(** X2.  More ranks than elements: [Locate] gives every rank but the last
    an empty block at offset 0, and the last rank the whole axis. *)
Theorem Locate_more_ranks_than_elements (rank nproc datasize : Z) :
  0 <= datasize < nproc ->
  Locate rank nproc datasize
  = Ok (0, if rank =? nproc - 1 then datasize else 0).
Proof.
  intros H. rewrite Locate_spec by lia.
  rewrite Z.div_small, Z.mod_small by lia.
  destruct (rank =? nproc - 1); f_equal; f_equal; lia.
Qed.

Lemma Locate_more_ranks_than_elements_witness :
  Locate 63 64 51 = Ok (0, if 63 =? 64 - 1 then 51 else 0).
Proof. apply Locate_more_ranks_than_elements. lia. Defined.

(** X3.  In a group of one process the plan of [decomp] is the whole
    array, small or large, for every shape of 64-bit extents: start is the
    zero vector and count the shape. *)
Theorem decomp_single_rank_is_whole
    (vars : dict var_info) (var : string) (info : var_info) (dshape : list Z) :
  dict_get var vars = Some info ->
  parse_shape (v_Shape info) = Ok dshape ->
  Forall int64_range dshape ->
  decomp {| Get_size := 1; Get_rank := 0 |} var vars
  = Ok (replicate (length dshape) 0, dshape).
Proof.
  intros Hv Hparse _.
  rewrite (decomp_parsed _ var vars info dshape (getitem_Some _ _ _ Hv) Hparse).
  destruct (decomp_shape_cases 1 dshape (parse_shape_nonempty _ _ Hparse)
              ltac:(lia)) as (m & L & Hm & [[Hs Hall] | [Hb Hall]]).
  - rewrite Hall. reflexivity.
  - rewrite Hall. unfold block_start, block_count, zeros_like.
    change (0 =? 1 - 1) with true. cbv iota.
    rewrite Z.div_1_r, Z.mod_1_r, Z.add_0_r. change (0 * L) with 0.
    rewrite !list_insert_id; [reflexivity | exact Hm |].
    apply lookup_replicate_2. eapply lookup_lt_Some; eauto.
Qed.

Lemma decomp_single_rank_is_whole_witness :
  decomp {| Get_size := 1; Get_rank := 0 |} "temp" sample_variables
  = Ok (replicate (length [100; 4]) 0, [100; 4]).
Proof.
  apply (decomp_single_rank_is_whole sample_variables "temp"
           {| v_Type := "float"; v_Shape := "100, 4" |}).
  - reflexivity.
  - reflexivity.
  - repeat constructor; unfold int64_range; lia.
Defined.

(** X4.  Among several axes of the largest extent [decomp] cuts the first,
    for a shape of 64-bit extents and a rank of the group: every axis
    before the one it cuts is strictly shorter, and no other axis is
    cut. *)
Theorem decomp_cuts_first_largest_axis
    (vars : dict var_info) (var : string) (info : var_info)
    (dshape : list Z) (L W r : Z) :
  dict_get var vars = Some info ->
  parse_shape (v_Shape info) = Ok dshape ->
  Forall int64_range dshape ->
  L ∈ dshape -> (forall x, x ∈ dshape -> x <= L) ->
  50 <= L -> 1 <= W -> 0 <= r < W ->
  exists m : nat,
    dshape !! m = Some L
    /\ (forall j x, (j < m)%nat -> dshape !! j = Some x -> x < L)
    /\ decomp {| Get_size := W; Get_rank := r |} var vars
       = Ok (<[m := block_start L W r]> (replicate (length dshape) 0),
             <[m := block_count L W r]> dshape).
Proof.
  intros Hv Hparse _ Hin Hmax Hbig HW Hr.
  destruct (argmax_spec dshape L Hin Hmax) as (m & Hm & Hat & Hfirst).
  exists m. split; [exact Hat|]. split; [exact Hfirst|].
  rewrite (decomp_parsed _ var vars info dshape (getitem_Some _ _ _ Hv) Hparse).
  apply decomp_shape_blocks; (assumption || lia).
Qed.

Lemma decomp_cuts_first_largest_axis_witness :
  exists m : nat,
    [64; 64; 3] !! m = Some 64
    /\ (forall j x, (j < m)%nat -> [64; 64; 3] !! j = Some x -> x < 64)
    /\ decomp {| Get_size := 2; Get_rank := 1 |} "U"
              [("U", {| v_Type := "float"; v_Shape := "64, 64, 3" |})]
       = Ok (<[m := block_start 64 2 1]> (replicate (length [64; 64; 3]) 0),
             <[m := block_count 64 2 1]> [64; 64; 3]).
Proof.
  apply (decomp_cuts_first_largest_axis
           [("U", {| v_Type := "float"; v_Shape := "64, 64, 3" |})] "U"
           {| v_Type := "float"; v_Shape := "64, 64, 3" |} [64; 64; 3] 64 2 1).
  - reflexivity.
  - reflexivity.
  - repeat constructor; unfold int64_range; lia.
  - apply list_elem_of_here.
  - intros x Hx.
    repeat (apply elem_of_cons in Hx as [->|Hx]; [lia|]). inversion Hx.
  - lia.
  - lia.
  - lia.
Defined.

Lemma py_int_raises (s : string) (e : exn) :
  py_int s = Raise e -> e = ValueError.
Proof.
  unfold py_int. destruct (int_literal _); intros H; inversion H; reflexivity.
Qed.

Lemma mapM_py_int_raises (l : list string) (e : exn) :
  mapM py_int l = Raise e -> e = ValueError.
Proof.
  induction l as [|s l IH]; cbn [mapM]; [discriminate|].
  destruct (py_int s) as [n|e'] eqn:Hs; cbn [mbind result_bind].
  - destruct (mapM py_int l) as [ns|e'']; cbn [mbind result_bind mret result_ret];
      [discriminate|].
    intros H. inversion H; subst. apply IH. reflexivity.
  - intros H. inversion H; subst. eapply py_int_raises; eauto.
Qed.

(** X5.  In a group that has a rank, [decomp] fails in two ways only: with
    [KeyError] on a name that is not in the catalog, and with [ValueError]
    on a shape string that is not a comma-separated list of integers; on
    every other variable it returns a plan. *)
Theorem decomp_failures (comm : Comm) (var : string) (vars : dict var_info) :
  Get_size comm <> 0 ->
  match dict_get var vars with
  | None => decomp comm var vars = Raise (KeyError var)
  | Some info =>
      match parse_shape (v_Shape info) with
      | Ok dshape =>
          exists start_arr count_arr,
            decomp comm var vars = Ok (start_arr, count_arr)
            /\ length start_arr = length dshape
            /\ length count_arr = length dshape
      | Raise _ => decomp comm var vars = Raise ValueError
      end
  end.
Proof.
  intros Hsize. unfold decomp, getitem.
  destruct (dict_get var vars) as [info|]; [|reflexivity].
  cbn [mbind result_bind].
  destruct (parse_shape (v_Shape info)) as [dshape|e] eqn:Hparse;
    cbn [mbind result_bind].
  - apply decomp_shape_Ok; [|exact Hsize].
    eapply parse_shape_nonempty; eauto.
  - unfold parse_shape in Hparse. apply mapM_py_int_raises in Hparse.
    congruence.
Qed.

Lemma decomp_failures_witness :
  decomp {| Get_size := 2; Get_rank := 0 |} "P_TOP"
         (available_variables single_value_file) = Raise ValueError
  /\ decomp {| Get_size := 2; Get_rank := 0 |} "Q"
            (available_variables single_value_file) = Raise (KeyError "Q").
Proof.
  split.
  - apply (decomp_failures {| Get_size := 2; Get_rank := 0 |} "P_TOP"
             (available_variables single_value_file)). simpl. lia.
  - apply (decomp_failures {| Get_size := 2; Get_rank := 0 |} "Q"
             (available_variables single_value_file)). simpl. lia.
Defined.

(** ** More on the metadata *)

Lemma foldM_raises_only {A B} (f : A -> B -> result A) (e0 : exn) (l : list B) :
  (forall x acc e, x ∈ l -> f acc x = Raise e -> e = e0) ->
  forall acc e, foldM f acc l = Raise e -> e = e0.
Proof.
  induction l as [|x l IH]; intros Hbody acc e H; [discriminate|].
  simpl in H. destruct (f acc x) as [acc'|e'] eqn:Hx; simpl in H.
  - apply (IH (fun y a e1 Hy => Hbody y a e1 (list_elem_of_further _ _ _ Hy))
              acc' e H).
  - inversion H; subst. apply (Hbody x acc e (list_elem_of_here _ _) Hx).
Qed.

Lemma r_attrs_body_raises (f : Adios2File)
    (acc : dict (dict attr_val) * dict attr_val) (k : string) (e : exn) :
  (contains "/Dims" k = false ->
   (exists a, read_attribute f k = Ok a) \/ read_attribute f k = Raise ValueError) ->
  r_attrs_body f acc k = Raise e -> e = ValueError.
Proof.
  intros Hread. unfold r_attrs_body. destruct acc as [va ga].
  destruct (contains "/Dims" k); [discriminate|].
  assert (exists val, read_value f k = Ok val) as [val ->].
  { unfold read_value. destruct (Hread eq_refl) as [[a ->] | ->]; eauto. }
  cbn [mbind result_bind].
  destruct (contains "/" k).
  - destruct (split "/" k) as [|var [|name [|x rest]]]; intros H;
      inversion H; reflexivity.
  - destruct (startswith k "_DIM_"); discriminate.
Qed.

(** X6.  A key with three or more pieces, such as [a/b/c], that does not
    contain ["/Dims"] makes [r_attrs] fail: the unpacking of the split key
    into two names raises.  When the typed reads fail in no other way than
    the handled one, the exception [r_attrs] ends with is that
    [ValueError]. *)
Theorem r_attrs_rejects_nested_key (f : Adios2File) (k a b c : string)
    (rest : list string) :
  k ∈ dict_keys (available_attributes f) ->
  contains "/Dims" k = false ->
  split "/" k = a :: b :: c :: rest ->
  (exists e, r_attrs f = Raise e)
  /\ ((forall k', k' ∈ dict_keys (available_attributes f) ->
         contains "/Dims" k' = false ->
         (exists x, read_attribute f k' = Ok x)
         \/ read_attribute f k' = Raise ValueError) ->
      r_attrs f = Raise ValueError).
Proof.
  intros Hin HD Hsplit.
  assert (exists e, r_attrs f = Raise e) as [e He].
  { destruct (r_attrs f) as [[[attrs va] ga]|e] eqn:Hr; [|eauto].
    exfalso. apply r_attrs_recorded in Hr as (-> & _ & Hkeys).
    destruct (Hkeys k Hin HD) as (_ & _ & Htwo).
    destruct (contains "/" k) eqn:Hsep.
    - destruct (Htwo eq_refl) as (var & name & Hs). congruence.
    - apply split_no_separator in Hsep. congruence. }
  split; [eauto|]. intros Hreads. rewrite He. f_equal.
  unfold r_attrs in He.
  destruct (foldM (r_attrs_body f) ([], []) (dict_keys (available_attributes f)))
    as [[va ga]|e'] eqn:Hfold; [discriminate|].
  cbn [mbind result_bind] in He. inversion He; subst e'.
  apply (foldM_raises_only (r_attrs_body f) ValueError _) in Hfold; [exact Hfold|].
  intros x acc e1 Hx. apply r_attrs_body_raises. intros HDx. apply Hreads; assumption.
Qed.

Lemma r_attrs_rejects_nested_key_witness :
  r_attrs nested_key_file = Raise ValueError.
Proof.
  destruct (r_attrs_rejects_nested_key nested_key_file "temp/stagger/x"
              "temp" "stagger" "x" []) as [_ H].
  - do 9 apply list_elem_of_further. apply list_elem_of_here.
  - reflexivity.
  - reflexivity.
  - apply H. intros k' Hk' _.
    repeat (apply elem_of_cons in Hk' as [->|Hk'];
            [first [left; eexists; reflexivity | right; reflexivity]|]).
    inversion Hk'.
Defined.

Lemma dim_lens_body_raises (d : dict Z) (item : string * attr_info) (e : exn) :
  dim_lens_body d item = Raise e -> e = ValueError.
Proof.
  unfold dim_lens_body. destruct item as [key value].
  destruct (startswith key "_DIM_"); [|discriminate].
  destruct (py_int (a_Value value)) as [n|e'] eqn:Hn; cbn [mbind result_bind];
    [discriminate|].
  intros H. inversion H; subst. eapply py_int_raises; eauto.
Qed.

(** X7.  A key marked with ["_DIM_"] whose value is not an integer literal
    makes [r_metadata] raise [ValueError], whatever the variables of the
    file are. *)
Theorem r_metadata_rejects_bad_length (f : Adios2File)
    (attrs : dict attr_info) (k : string) (info : attr_info) :
  (k, info) ∈ attrs ->
  startswith k "_DIM_" = true ->
  py_int (a_Value info) = Raise ValueError ->
  r_metadata f attrs = Raise ValueError.
Proof.
  intros Hin Hdim Hbad. unfold r_metadata.
  destruct (foldM dim_lens_body [] attrs) as [dl|e] eqn:Hfold.
  - exfalso. destruct (dim_lens_Ok_each attrs dl Hfold k info Hin Hdim) as [n Hn].
    congruence.
  - cbn [mbind result_bind]. f_equal.
    apply (foldM_raises_only dim_lens_body ValueError _) in Hfold; [exact Hfold|].
    intros x acc e1 _. apply dim_lens_body_raises.
Qed.

Lemma r_metadata_rejects_bad_length_witness :
  r_metadata bad_length_file (available_attributes bad_length_file)
  = Raise ValueError.
Proof.
  apply (r_metadata_rejects_bad_length bad_length_file
           (available_attributes bad_length_file) "_DIM_west_east"
           {| a_Type := "string"; a_Elements := "1"; a_Value := "four" |}).
  - apply list_elem_of_here.
  - reflexivity.
  - reflexivity.
Defined.

Lemma dict_get_Some_item {V} (k : string) (v : V) (d : dict V) :
  dict_get k d = Some v -> (k, v) ∈ d.
Proof.
  induction d as [|[k' v'] d IH]; simpl; [discriminate|].
  destruct (String.eqb_spec k k') as [->|Hne]; intros H.
  - inversion H; subst. apply list_elem_of_here.
  - apply list_elem_of_further. auto.
Qed.

(** X8.  The dimension lengths [r_metadata] returns are the marked keys
    read back: a name has the length [n] exactly when the source has the
    key ["_DIM_"] followed by that name, with a value that reads as [n].
    The name is all that follows the marker, separators included. *)
Theorem dimension_lengths_from_marked_keys (f : Adios2File)
    (attrs : dict attr_info) (var_names : list string) (num_steps : nat)
    (dim_lens : dict Z) (var_dims : dict (list string))
    (var_types : dict string) (vars : dict var_info) :
  NoDup (dict_keys attrs) ->
  r_metadata f attrs
    = Ok (var_names, num_steps, dim_lens, var_dims, var_types, vars) ->
  forall name n,
    dict_get name dim_lens = Some n <->
    exists info, dict_get ("_DIM_" +:+ name) attrs = Some info
                 /\ py_int (a_Value info) = Ok n.
Proof.
  intros Hnd Hm name n.
  apply r_metadata_Ok in Hm as (_ & _ & _ & Hdl & _ & _).
  rewrite (dim_lens_spec attrs dim_lens Hnd Hdl). split.
  - intros (k & info & Hin & Hdim & -> & Hint).
    exists info. split; [|exact Hint].
    rewrite <- (DIM_key_from k Hdim). apply dict_get_item; assumption.
  - intros (info & Hget & Hint).
    exists ("_DIM_" +:+ name), info.
    split; [apply dict_get_Some_item; exact Hget|].
    split; [apply startswith_split; eauto|].
    split; [reflexivity | exact Hint].
Qed.

Lemma dimension_lengths_from_marked_keys_witness :
  NoDup (dict_keys sample_attributes)
  /\ (dict_get "west_east"
        [("south_north", 100); ("west_east", 4); ("DateStrLen", 19)]
      = Some 4 <->
      exists info, dict_get ("_DIM_" +:+ "west_east") sample_attributes = Some info
                   /\ py_int (a_Value info) = Ok 4).
Proof.
  assert (NoDup (dict_keys sample_attributes)) as Hnd
    by (apply (bool_decide_unpack (NoDup _)); vm_compute; exact I).
  split; [exact Hnd|].
  apply (dimension_lengths_from_marked_keys sample_file sample_attributes
           ["temp"; "Times"] 3%nat
           [("south_north", 100); ("west_east", 4); ("DateStrLen", 19)]
           [("temp", ["Time"; "south_north"; "west_east"]);
            ("Times", ["Time"; "DateStrLen"])]
           [("temp", "f"); ("Times", "c")] sample_variables Hnd).
  reflexivity.
Defined.

Lemma var_dims_untouched (f : Adios2File) (var : string) (l : list string)
    (acc : dict (list string)) :
  var ∉ l ->
  dict_get var (fold_left (var_dims_body f) l acc) = dict_get var acc.
Proof.
  revert acc. induction l as [|x l IH]; intros acc Hnot; [reflexivity|].
  simpl. rewrite IH.
  - unfold var_dims_body. apply dict_get_set_ne. intros ->.
    apply Hnot, list_elem_of_here.
  - intros Hin. apply Hnot, list_elem_of_further, Hin.
Qed.

Lemma var_types_untouched (vars : dict var_info) (var : string)
    (l : list string) (acc var_types : dict string) :
  foldM (var_types_body vars) acc l = Ok var_types ->
  var ∉ l ->
  dict_get var var_types = dict_get var acc.
Proof.
  revert acc. induction l as [|x l IH]; intros acc Hf Hnot.
  - inversion Hf; reflexivity.
  - simpl in Hf.
    destruct (var_types_body vars acc x) as [acc1|e] eqn:Hb; [|discriminate].
    simpl in Hf. rewrite (IH _ Hf).
    + apply var_types_body_Ok in Hb as (info & t & _ & _ & ->).
      apply dict_get_set_ne. intros ->. apply Hnot, list_elem_of_here.
    + intros Hin. apply Hnot, list_elem_of_further, Hin.
Qed.

Lemma dict_get_None_key {V} (k : string) (d : dict V) :
  dict_get k d = None -> k ∉ dict_keys d.
Proof.
  intros Hnone Hin. apply dict_get_key_Some in Hin as [v Hv]. congruence.
Qed.

(** X9.  What [r_metadata] returns about the variables: the names are the
    catalog's keys in order and the step count is the handle's; the
    dimension list and the type code are defined for exactly the
    catalogued names, the type code being the one [typemap] holds for the
    variable's type. *)
Theorem r_metadata_catalog (f : Adios2File) (attrs : dict attr_info)
    (var_names : list string) (num_steps : nat) (dim_lens : dict Z)
    (var_dims : dict (list string)) (var_types : dict string)
    (vars : dict var_info) :
  r_metadata f attrs
    = Ok (var_names, num_steps, dim_lens, var_dims, var_types, vars) ->
  vars = available_variables f
  /\ var_names = dict_keys vars
  /\ num_steps = steps f
  /\ forall var,
       match dict_get var vars with
       | Some info =>
           dict_get var var_dims
             = Some (rev (read_attribute_string_of f "Dims" var))
           /\ dict_get var var_types = dict_get (v_Type info) typemap
           /\ is_Some (dict_get var var_types)
       | None =>
           dict_get var var_dims = None /\ dict_get var var_types = None
       end.
Proof.
  intros Hm. apply r_metadata_Ok in Hm as (-> & -> & -> & _ & -> & Htypes).
  split; [reflexivity|]. split; [reflexivity|]. split; [reflexivity|].
  intros var.
  destruct (dict_get var (available_variables f)) as [info|] eqn:Hv.
  - assert (var ∈ dict_keys (available_variables f)) as Hin
      by (eapply dict_get_Some_key; eauto).
    split; [apply var_dims_reversed; exact Hin|].
    destruct (var_types_spec _ _ _ _ Htypes var Hin) as (info' & t & Hi & Ht & Hg).
    assert (info' = info) as -> by congruence.
    apply getitem_Ok in Ht. rewrite Hg, Ht. eauto.
  - apply dict_get_None_key in Hv. split.
    + rewrite var_dims_untouched by exact Hv. reflexivity.
    + rewrite (var_types_untouched _ _ _ _ _ Htypes Hv). reflexivity.
Qed.

Lemma r_metadata_catalog_witness :
  sample_variables = available_variables sample_file
  /\ ["temp"; "Times"] = dict_keys sample_variables
  /\ 3%nat = steps sample_file.
Proof.
  destruct (r_metadata_catalog sample_file sample_attributes
              ["temp"; "Times"] 3%nat
              [("south_north", 100); ("west_east", 4); ("DateStrLen", 19)]
              [("temp", ["Time"; "south_north"; "west_east"]);
               ("Times", ["Time"; "DateStrLen"])]
              [("temp", "f"); ("Times", "c")] sample_variables)
    as (H1 & H2 & H3 & _).
  - reflexivity.
  - auto.
Defined.

(** ** More on the schema *)

Lemma dict_set_fresh {V} (k : string) (v : V) (d : dict V) :
  dict_get k d = None -> dict_set k v d = d ++ [(k, v)].
Proof.
  induction d as [|[k' v'] d IH]; simpl; [reflexivity|].
  destruct (String.eqb k k'); [discriminate|].
  intros H. rewrite IH by exact H. reflexivity.
Qed.

Lemma dict_get_app_None {V} (k : string) (d1 d2 : dict V) :
  dict_get k (d1 ++ d2) = None <-> dict_get k d1 = None /\ dict_get k d2 = None.
Proof.
  induction d1 as [|[k' v'] d1 IH]; simpl.
  - split; [auto | intros [_ H]; exact H].
  - destruct (String.eqb k k'); [|exact IH].
    split; [discriminate | intros [H _]; discriminate].
Qed.

(** The loop of [create_nc_dims] on names the destination does not have. *)
Lemma create_dims_loop (dim_lens rest : dict Z) (d : Dataset) :
  (forall k v, (k, v) ∈ rest -> dict_get k dim_lens = Some v) ->
  NoDup (dict_keys rest) ->
  (forall k, k ∈ dict_keys rest -> dict_get k (dimensions d) = None) ->
  for_each (dict_keys rest)
    (fun dim => size ← lift (getitem dim_lens dim); createDimension dim size) d
  = ({| fill := fill d; dimensions := dimensions d ++ rest;
        variables := variables d; ncattrs := ncattrs d;
        issued := issued d; closed := closed d |}, Ok tt).
Proof.
  revert d. induction rest as [|[k v] rest IH]; intros d Hget Hnd Hfree.
  - simpl. rewrite app_nil_r. destruct d; reflexivity.
  - simpl. unfold mbind at 1, NC_bind at 1. unfold mbind at 1, NC_bind at 1, lift.
    rewrite (getitem_Some _ _ _ (Hget k v (list_elem_of_here _ _))).
    unfold createDimension at 1.
    rewrite (Hfree k (list_elem_of_here _ _)).
    simpl in Hnd. apply NoDup_cons in Hnd as [Hk Hnd].
    rewrite IH.
    + simpl. rewrite dict_set_fresh by (apply Hfree, list_elem_of_here).
      rewrite <- app_assoc. reflexivity.
    + intros k' v' Hin. apply Hget, list_elem_of_further, Hin.
    + exact Hnd.
    + intros k' Hin. simpl.
      rewrite dict_set_fresh by (apply Hfree, list_elem_of_here).
      apply dict_get_app_None. split.
      * apply Hfree, list_elem_of_further, Hin.
      * simpl. destruct (String.eqb_spec k' k) as [->|]; [|reflexivity].
        contradiction.
Qed.

(** A loop of [create_nc_dims] that ends normally has declared every name
    once, and none that the destination had. *)
Lemma create_dims_loop_Ok (dim_lens : dict Z) (l : list string)
    (d d' : Dataset) :
  for_each l
    (fun dim => size ← lift (getitem dim_lens dim); createDimension dim size) d
  = (d', Ok tt) ->
  NoDup l /\ forall k, k ∈ l -> dict_get k (dimensions d) = None.
Proof.
  revert d. induction l as [|x l IH]; intros d H.
  - split; [constructor | intros k Hk; inversion Hk].
  - simpl in H. unfold mbind at 1, NC_bind at 1 in H.
    unfold mbind at 1, NC_bind at 1, lift in H.
    destruct (getitem dim_lens x) as [size|e]; [|discriminate].
    unfold createDimension at 1 in H.
    destruct (dict_get x (dimensions d)) as [old|] eqn:Hx; [discriminate|].
    apply IH in H as [Hnd Hfree]. simpl in Hfree.
    assert (x ∉ l) as Hnot.
    { intros Hin. specialize (Hfree x Hin).
      rewrite dict_get_set_eq in Hfree. discriminate. }
    split; [constructor; assumption|].
    intros k Hk. apply elem_of_cons in Hk as [->|Hk]; [exact Hx|].
    specialize (Hfree k Hk).
    rewrite dict_get_set_ne in Hfree; [exact Hfree|].
    intros ->. contradiction.
Qed.

(** X10.  When [create_nc_dims] ends normally on a destination without
    dimensions, the destination has ["Time"] with the step count first,
    followed by the dimension lengths in their order, with their lengths,
    and nothing else has changed; the source then declares no length for
    the name ["Time"]. *)
Theorem create_nc_dims_declares_in_order (num_steps : nat)
    (dim_lens : dict Z) (ds ds' : Dataset) :
  dimensions ds = [] ->
  create_nc_dims num_steps dim_lens ds = (ds', Ok tt) ->
  ds' = {| fill := fill ds;
           dimensions := ("Time", Z.of_nat num_steps) :: dim_lens;
           variables := variables ds; ncattrs := ncattrs ds;
           issued := issued ds; closed := closed ds |}
  /\ dict_get "Time" dim_lens = None.
Proof.
  intros Hempty H.
  assert (NoDup (dict_keys dim_lens) /\ dict_get "Time" dim_lens = None)
    as [Hnd Htime].
  { revert H.
    unfold create_nc_dims, mbind at 1, NC_bind at 1, createDimension at 1.
    rewrite Hempty. simpl dict_get. cbv iota. intros H.
    apply create_dims_loop_Ok in H as [Hnd Hfree]. split; [exact Hnd|].
    destruct (dict_get "Time" dim_lens) as [n|] eqn:Ht; [|reflexivity].
    apply dict_get_Some_key in Ht. specialize (Hfree "Time" Ht).
    simpl in Hfree. discriminate. }
  split; [|exact Htime].
  revert H.
  unfold create_nc_dims, mbind at 1, NC_bind at 1, createDimension at 1.
  rewrite Hempty. simpl dict_get. cbv iota.
  rewrite (create_dims_loop dim_lens dim_lens).
  - intros H. inversion H. reflexivity.
  - intros k v Hin. apply dict_get_item; assumption.
  - exact Hnd.
  - intros k Hin. simpl.
    destruct (String.eqb_spec k "Time") as [->|]; [|reflexivity].
    apply dict_get_key_Some in Hin as [v Hv]. congruence.
Qed.

Lemma create_nc_dims_declares_in_order_witness :
  fst (create_nc_dims 3
         [("south_north", 100); ("west_east", 4); ("DateStrLen", 19)]
         new_Dataset)
  = {| fill := false;
       dimensions := [("Time", 3); ("south_north", 100); ("west_east", 4);
                      ("DateStrLen", 19)];
       variables := []; ncattrs := []; issued := []; closed := false |}.
Proof.
  apply (create_nc_dims_declares_in_order 3
           [("south_north", 100); ("west_east", 4); ("DateStrLen", 19)]
           new_Dataset).
  - reflexivity.
  - vm_compute. reflexivity.
Defined.




(** ** More on the copy loops *)

Lemma for_each_ext {A} (l : list A) (body1 body2 : A -> NC unit) (d : Dataset) :
  (forall x d', x ∈ l -> body1 x d' = body2 x d') ->
  for_each l body1 d = for_each l body2 d.
Proof.
  revert d. induction l as [|x l IH]; intros d H; [reflexivity|].
  simpl. unfold mbind, NC_bind.
  rewrite (H x d (list_elem_of_here _ _)).
  destruct (body2 x d) as [d' [[]|e]]; [|reflexivity].
  apply IH. intros y d'' Hy. apply H, list_elem_of_further, Hy.
Qed.

Lemma flat_map_length_const {A B} (g : A -> list B) (l : list A) (n : nat) :
  (forall x, x ∈ l -> length (g x) = n) ->
  length (flat_map g l) = (length l * n)%nat.
Proof.
  induction l as [|x l IH]; intros H; simpl; [reflexivity|].
  rewrite length_app, (H x (list_elem_of_here _ _)), IH; [reflexivity|].
  intros y Hy. apply H, list_elem_of_further, Hy.
Qed.

Lemma flat_map_block {A B} (g : A -> list B) (l : list A) (n i j : nat)
    (x : A) :
  (forall y, y ∈ l -> length (g y) = n) ->
  l !! i = Some x -> (j < n)%nat ->
  flat_map g l !! (i * n + j)%nat = g x !! j.
Proof.
  revert i. induction l as [|y l IH]; intros i Hlen Hi Hj; [discriminate|].
  simpl. destruct i as [|i]; simpl in Hi.
  - inversion Hi; subst y. simpl.
    apply lookup_app_l. rewrite (Hlen x (list_elem_of_here _ _)). exact Hj.
  - rewrite lookup_app_r by (rewrite (Hlen y (list_elem_of_here _ _)); lia).
    rewrite (Hlen y (list_elem_of_here _ _)).
    replace (S i * n + j - n)%nat with (i * n + j)%nat by lia.
    apply IH; [|exact Hi | exact Hj].
    intros z Hz. apply Hlen, list_elem_of_further, Hz.
Qed.

(** A loop that has ended normally has run every iteration to its end. *)
Lemma for_each_Ok_each {A} (l : list A) (body : A -> NC unit)
    (ds ds' : Dataset) :
  for_each l body ds = (ds', Ok tt) ->
  forall x, x ∈ l -> exists d d', body x d = (d', Ok tt).
Proof.
  revert ds. induction l as [|y l IH]; intros ds H x Hx; [inversion Hx|].
  simpl in H. unfold mbind, NC_bind in H.
  destruct (body y ds) as [d1 [[]|e]] eqn:Hy; [|discriminate].
  apply elem_of_cons in Hx as [->|Hx]; [eauto|].
  eapply IH; eauto.
Qed.

(** A loop whose iterations, when they end normally, have only issued
    calls: when it ends normally, it has issued them in order. *)
Lemma for_each_issued {A} (l : list A) (body : A -> NC unit)
    (g : A -> list nc_op) :
  (forall x d d', x ∈ l -> body x d = (d', Ok tt) -> d' = issue_all (g x) d) ->
  forall ds ds',
    for_each l body ds = (ds', Ok tt) -> ds' = issue_all (flat_map g l) ds.
Proof.
  induction l as [|x l IH]; intros Hbody ds ds' H.
  - inversion H. simpl. rewrite issue_all_nil. reflexivity.
  - simpl in H. unfold mbind, NC_bind in H.
    destruct (body x ds) as [d1 [[]|e]] eqn:Hx; [|discriminate].
    apply (Hbody x ds d1 (list_elem_of_here _ _)) in Hx. subst d1.
    apply IH in H.
    + rewrite H. simpl. apply issue_all_app.
    + intros y d d' Hy. apply Hbody, list_elem_of_further, Hy.
Qed.

(** The assignment of the serial copy for one variable and step. *)
Lemma serial_ops_one (f : Adios2File) (info : var_info) (var : string)
    (step : nat) :
  serial_ops f info var step
  = [if String.eqb (v_Type info) "string"
     then SetItem var (AtAll step) (Str (read_string f var step))
     else if single_element (read f var step)
          then SetItem var (At step) (Arr (read f var step))
          else SetItem var (AtAll step) (Arr (read f var step))].
Proof.
  unfold serial_ops. destruct (String.eqb (v_Type info) "string"); [reflexivity|].
  cbv zeta. destruct (single_element (read f var step)); reflexivity.
Qed.

Lemma setitem_Ok (var : string) (ix : index) (data : pydata) (d d' : Dataset) :
  setitem var ix data d = (d', Ok tt) ->
  is_Some (dict_get var (variables d)).
Proof.
  unfold setitem. destruct (dict_get var (variables d)); [eauto | discriminate].
Qed.

Lemma serial_step_Ok (f : Adios2File) (vars : dict var_info) (var : string)
    (step : nat) (d d' : Dataset) :
  serial_step f vars var step d = (d', Ok tt) ->
  exists info,
    dict_get var vars = Some info
    /\ d' = issue_all (serial_ops f info var step) d.
Proof.
  intros H.
  destruct (dict_get var vars) as [info|] eqn:Hv.
  - exists info. split; [reflexivity|].
    assert (is_Some (dict_get var (variables d))) as Hd.
    { revert H. unfold serial_step, mbind, NC_bind, lift.
      rewrite (getitem_Some _ _ _ Hv).
      destruct (String.eqb (v_Type info) "string"); [apply setitem_Ok|].
      cbv zeta. destruct (single_element (read f var step)); apply setitem_Ok. }
    rewrite (serial_step_issues f vars var info step d Hv Hd) in H.
    inversion H. reflexivity.
  - revert H. unfold serial_step, mbind, NC_bind, lift, getitem.
    rewrite Hv. discriminate.
Qed.

Lemma serial_var_Ok (f : Adios2File) (vars : dict var_info) (num_steps : nat)
    (var : string) (d d' : Dataset) :
  for_each (range num_steps) (serial_step f vars var) d = (d', Ok tt) ->
  d' = issue_all (serial_var_ops f vars num_steps var) d
  /\ length (serial_var_ops f vars num_steps var) = num_steps.
Proof.
  intros H. unfold serial_var_ops.
  destruct (dict_get var vars) as [info|] eqn:Hv.
  - split.
    + apply (for_each_issued _ _ (serial_ops f info var)) in H; [exact H|].
      intros step d1 d2 _ Hs. apply serial_step_Ok in Hs as (info' & Hv' & ->).
      congruence.
    + rewrite (flat_map_length_const _ _ 1%nat).
      * unfold range. rewrite length_seq. lia.
      * intros step _. rewrite serial_ops_one. reflexivity.
  - destruct num_steps as [|n].
    + inversion H. rewrite issue_all_nil. auto.
    + destruct (for_each_Ok_each _ _ _ _ H 0%nat) as (d1 & d2 & Hs).
      * unfold range. apply elem_of_seq. lia.
      * apply serial_step_Ok in Hs as (info & Hv' & _). congruence.
Qed.

(** X12.  When the serial copy ends normally, it has issued one assignment
    for each variable and step and nothing else, variable after variable
    in the order of the list and step after step: the text of a string
    variable and an array are assigned at [[step, :]], an array of one axis
    and one element at [[step]].  Every name is then in the catalog, unless
    there is no step to copy. *)
Theorem serial_copy_assigns_each_step (f : Adios2File)
    (var_names : list string) (num_steps : nat) (vars : dict var_info)
    (ds ds' : Dataset) :
  r_w_data_serial f var_names num_steps vars ds = (ds', Ok tt) ->
  exists ops,
    ds' = issue_all ops ds
    /\ length ops = (length var_names * num_steps)%nat
    /\ forall i step var,
         var_names !! i = Some var -> (step < num_steps)%nat ->
         exists info,
           dict_get var vars = Some info
           /\ ops !! (i * num_steps + step)%nat
              = Some (if String.eqb (v_Type info) "string"
                      then SetItem var (AtAll step)
                                   (Str (read_string f var step))
                      else if single_element (read f var step)
                           then SetItem var (At step) (Arr (read f var step))
                           else SetItem var (AtAll step)
                                        (Arr (read f var step))).
Proof.
  intros H. unfold r_w_data_serial in H.
  exists (flat_map (serial_var_ops f vars num_steps) var_names).
  assert (forall var, var ∈ var_names ->
            length (serial_var_ops f vars num_steps var) = num_steps) as Hlen.
  { intros var Hin.
    destruct (for_each_Ok_each _ _ _ _ H var Hin) as (d & d' & Hvar).
    apply serial_var_Ok in Hvar as [_ Hl]. exact Hl. }
  split; [|split].
  - apply (for_each_issued _ _ (serial_var_ops f vars num_steps)) in H;
      [exact H|].
    intros var d d' _ Hvar. apply serial_var_Ok in Hvar as [Hd _]. exact Hd.
  - apply flat_map_length_const. exact Hlen.
  - intros i step var Hi Hstep.
    assert (var ∈ var_names) as Hin by (eapply list_elem_of_lookup_2; eauto).
    destruct (for_each_Ok_each _ _ _ _ H var Hin) as (d & d' & Hvar).
    destruct (for_each_Ok_each _ _ _ _ Hvar step) as (d1 & d2 & Hs).
    { unfold range. apply elem_of_seq. lia. }
    apply serial_step_Ok in Hs as (info & Hv & _).
    exists info. split; [exact Hv|].
    rewrite (flat_map_block _ _ num_steps i step var Hlen Hi Hstep).
    unfold serial_var_ops. rewrite Hv.
    replace step with (step * 1 + 0)%nat at 1 by lia.
    rewrite (flat_map_block (serial_ops f info var) (range num_steps) 1
               step 0 step).
    + rewrite serial_ops_one. reflexivity.
    + intros y _. rewrite serial_ops_one. reflexivity.
    + unfold range. apply lookup_seq. lia.
    + lia.
Qed.

Lemma serial_copy_assigns_each_step_witness :
  exists ops,
    fst (r_w_data_serial sample_file ["temp"; "Times"] 3 sample_variables
           sample_dest)
    = issue_all ops sample_dest
    /\ length ops = 6%nat
    /\ ops !! 5%nat
       = Some (SetItem "Times" (AtAll 2) (Str ["2026-01-01_00:00:00"])).
Proof.
  destruct (serial_copy_assigns_each_step sample_file ["temp"; "Times"] 3
              sample_variables sample_dest
              (fst (r_w_data_serial sample_file ["temp"; "Times"] 3
                      sample_variables sample_dest)))
    as (ops & Hrun & Hlen & Hat).
  - vm_compute. reflexivity.
  - exists ops. split; [exact Hrun|]. split; [exact Hlen|].
    destruct (Hat 1%nat 2%nat "Times") as (info & Hv & Hop);
      [reflexivity | lia |].
    vm_compute in Hv. inversion Hv; subst info. exact Hop.
Defined.

(** X13.  With no step to copy the serial path leaves the destination as
    it is for any list of names, in the catalog or not.  The parallel path
    looks every name up before its steps: a name that is not in the
    catalog ends it with [KeyError], whatever the number of steps. *)
Theorem zero_steps_and_unknown_names (f : Adios2File) (comm : Comm)
    (var : string) (rest : list string) (vars : dict var_info) (ds : Dataset) :
  dict_get var vars = None ->
  (forall var_names, r_w_data_serial f var_names 0 vars ds = (ds, Ok tt))
  /\ forall num_steps,
       r_w_data_parallel f comm (var :: rest) num_steps vars ds
       = (ds, Raise (KeyError var)).
Proof.
  intros Hv. split.
  - intros var_names. unfold r_w_data_serial.
    induction var_names as [|x l IH]; [reflexivity|].
    simpl. unfold mbind, NC_bind. simpl. exact IH.
  - intros num_steps. unfold r_w_data_parallel. simpl.
    unfold mbind at 1, NC_bind at 1, parallel_var.
    unfold mbind at 1, NC_bind at 1, lift, getitem. rewrite Hv. reflexivity.
Qed.

Lemma zero_steps_and_unknown_names_witness :
  r_w_data_serial sample_file ["temp"; "Q"] 0 sample_variables sample_dest
    = (sample_dest, Ok tt)
  /\ r_w_data_parallel sample_file (comm_of 2 0) ["Q"; "temp"] 0
       sample_variables sample_dest
     = (sample_dest, Raise (KeyError "Q")).
Proof.
  destruct (zero_steps_and_unknown_names sample_file (comm_of 2 0) "Q" ["temp"]
              sample_variables sample_dest) as [Hs Hp].
  - reflexivity.
  - split; [apply Hs | apply Hp].
Defined.

(** X14.  A string variable is copied by the parallel path exactly as by
    the serial path, on every rank and for any shape string: [decomp] is
    not called for it, and the two loops over its steps do the same to
    every destination, exceptions included. *)
Theorem parallel_string_copy_is_serial (f : Adios2File) (comm : Comm)
    (num_steps : nat) (vars : dict var_info) (var : string) (info : var_info)
    (ds : Dataset) :
  dict_get var vars = Some info ->
  v_Type info = "string" ->
  parallel_var f comm num_steps vars var ds
  = for_each (range num_steps) (serial_step f vars var) ds.
Proof.
  intros Hv Hty.
  unfold parallel_var, mbind at 1 2, NC_bind at 1 2, lift.
  rewrite (getitem_Some _ _ _ Hv), Hty. simpl.
  apply for_each_ext. intros step d _.
  unfold parallel_step, serial_step, mbind, NC_bind, lift.
  rewrite (getitem_Some _ _ _ Hv), Hty. reflexivity.
Qed.

Lemma parallel_string_copy_is_serial_witness :
  parallel_var sample_file (comm_of 2 1) 3 sample_variables "Times" sample_dest
  = for_each (range 3) (serial_step sample_file sample_variables "Times")
      sample_dest.
Proof.
  apply (parallel_string_copy_is_serial sample_file (comm_of 2 1) 3
           sample_variables "Times" {| v_Type := "string"; v_Shape := "" |});
    reflexivity.
Defined.

(** X15.  A variable that is not a string and whose shape string does not
    parse, as the empty shape of a single value, stops the parallel path
    with [ValueError] before anything is assigned for it, on every rank.
    The serial path never reads the shape: it does for the variable, on
    every destination, what it does under a catalog that gives the
    variable the same type and another shape string. *)
Theorem unparsable_shape_stops_parallel_only (f : Adios2File) (comm : Comm)
    (num_steps : nat) (vars vars' : dict var_info) (var : string)
    (info info' : var_info) (e : exn) (ds : Dataset) :
  dict_get var vars = Some info ->
  v_Type info <> "string" ->
  parse_shape (v_Shape info) = Raise e ->
  dict_get var vars' = Some info' ->
  v_Type info' = v_Type info ->
  parallel_var f comm num_steps vars var ds = (ds, Raise ValueError)
  /\ for_each (range num_steps) (serial_step f vars var) ds
     = for_each (range num_steps) (serial_step f vars' var) ds.
Proof.
  intros Hv Hty Hparse Hv' Hsame. split.
  - unfold parallel_var, mbind at 1 2, NC_bind at 1 2, lift.
    rewrite (getitem_Some _ _ _ Hv), (proj2 (String.eqb_neq _ _) Hty).
    cbn [negb]. unfold decomp. rewrite (getitem_Some _ _ _ Hv).
    cbn [mbind result_bind]. rewrite Hparse.
    unfold parse_shape in Hparse. apply mapM_py_int_raises in Hparse. subst e.
    reflexivity.
  - apply for_each_ext. intros step d _.
    unfold serial_step, mbind, NC_bind, lift.
    rewrite (getitem_Some _ _ _ Hv), (getitem_Some _ _ _ Hv'), Hsame.
    reflexivity.
Qed.

Lemma unparsable_shape_stops_parallel_only_witness :
  parallel_var single_value_file (comm_of 2 0) 2
    (available_variables single_value_file) "P_TOP"
    (fst (create_nc_vars ["P_TOP"] [("P_TOP", "f")] [("P_TOP", ["Time"])]
            (fst (create_nc_dims 2 [] new_Dataset))))
  = (fst (create_nc_vars ["P_TOP"] [("P_TOP", "f")] [("P_TOP", ["Time"])]
            (fst (create_nc_dims 2 [] new_Dataset))), Raise ValueError).
Proof.
  apply (unparsable_shape_stops_parallel_only single_value_file (comm_of 2 0) 2
           (available_variables single_value_file)
           [("P_TOP", {| v_Type := "float"; v_Shape := "1" |})] "P_TOP"
           {| v_Type := "float"; v_Shape := "" |}
           {| v_Type := "float"; v_Shape := "1" |} ValueError).
  - reflexivity.
  - discriminate.
  - reflexivity.
  - reflexivity.
  - reflexivity.
Defined.

Lemma slices_of_extents (start_arr count_arr : list Z) :
  length start_arr = length count_arr ->
  map (fun p => snd p - fst p) (slices_of start_arr count_arr) = count_arr.
Proof.
  revert count_arr. induction start_arr as [|s st IH]; intros [|c ct] H;
    simpl in *; try discriminate; [reflexivity|].
  f_equal; [lia|]. apply IH. lia.
Qed.

Lemma set_collective_Ok (var : string) (b : bool) (d d' : Dataset) :
  set_collective var b d = (d', Ok tt) ->
  is_Some (dict_get var (variables d)).
Proof.
  unfold set_collective.
  destruct (dict_get var (variables d)); [eauto | discriminate].
Qed.

Lemma parallel_step_Ok (f : Adios2File) (vars : dict var_info) (var : string)
    (start_arr count_arr : list Z) (step : nat) (d d' : Dataset) :
  length start_arr = length count_arr ->
  parallel_step f vars var (Some (start_arr, count_arr)) step d = (d', Ok tt) ->
  exists info,
    dict_get var vars = Some info
    /\ d' = issue_all (parallel_ops f info var start_arr count_arr step) d.
Proof.
  intros Hlen H.
  destruct (dict_get var vars) as [info|] eqn:Hv.
  - exists info. split; [reflexivity|].
    assert (is_Some (dict_get var (variables d))) as Hd.
    { revert H. unfold parallel_step, mbind at 1, NC_bind at 1, lift.
      rewrite (getitem_Some _ _ _ Hv).
      destruct (String.eqb (v_Type info) "string"); [apply setitem_Ok|].
      cbv zeta.
      destruct (single_element (read_sel f var start_arr count_arr step));
        [apply setitem_Ok|].
      unfold mbind, NC_bind.
      destruct (set_collective var true d) as [d1 [[]|e]] eqn:Hc;
        [|discriminate].
      intros _. eapply set_collective_Ok; eauto. }
    rewrite (parallel_step_issues f vars var info start_arr count_arr step d
               Hv Hd Hlen) in H.
    inversion H. reflexivity.
  - revert H. unfold parallel_step, mbind, NC_bind, lift, getitem.
    rewrite Hv. discriminate.
Qed.

(** X16.  A slice assignment of the parallel path conforms to its data:
    when a step of an array variable whose selection read has the shape
    asked for ends normally, every assignment through slices it has issued
    addresses its own variable and step, starts at the start vector, and
    has on every axis the extent of the data it carries. *)
Theorem parallel_slices_fit_data (f : Adios2File) (vars : dict var_info)
    (var : string) (start_arr count_arr : list Z)
    (step : nat) (ds ds' : Dataset) :
  length start_arr = length count_arr ->
  nd_shape (read_sel f var start_arr count_arr step) = count_arr ->
  parallel_step f vars var (Some (start_arr, count_arr)) step ds
    = (ds', Ok tt) ->
  exists ops,
    ds' = issue_all ops ds
    /\ forall v s slices a,
         SetItem v (AtSlices s slices) (Arr a) ∈ ops ->
         v = var /\ s = step
         /\ a = read_sel f var start_arr count_arr step
         /\ map fst slices = start_arr
         /\ map (fun p => snd p - fst p) slices = nd_shape a.
Proof.
  intros Hlen Hshape H.
  apply parallel_step_Ok in H as (info & Hv & ->); [|exact Hlen].
  exists (parallel_ops f info var start_arr count_arr step).
  split; [reflexivity|].
  intros v s slices a Hin. unfold parallel_ops in Hin.
  destruct (String.eqb (v_Type info) "string").
  { apply list_elem_of_singleton in Hin. discriminate. }
  cbv zeta in Hin.
  destruct (single_element (read_sel f var start_arr count_arr step)).
  { apply list_elem_of_singleton in Hin. discriminate. }
  destruct (bool_decide (1 <= length start_arr <= 3)%nat).
  - apply elem_of_cons in Hin as [Hin|Hin]; [discriminate|].
    apply list_elem_of_singleton in Hin. inversion Hin; subst.
    split; [reflexivity|]. split; [reflexivity|]. split; [reflexivity|].
    split; [apply slices_of_starts; exact Hlen|].
    rewrite Hshape. apply slices_of_extents. exact Hlen.
  - apply list_elem_of_singleton in Hin. discriminate.
Qed.

Lemma parallel_slices_fit_data_witness :
  exists ops,
    fst (parallel_step sample_file sample_variables "temp"
           (Some ([50; 0], [50; 4])) 1 sample_dest)
    = issue_all ops sample_dest
    /\ forall v s slices a,
         SetItem v (AtSlices s slices) (Arr a) ∈ ops ->
         v = "temp" /\ s = 1%nat
         /\ a = read_sel sample_file "temp" [50; 0] [50; 4] 1
         /\ map fst slices = [50; 0]
         /\ map (fun p => snd p - fst p) slices = nd_shape a.
Proof.
  apply (parallel_slices_fit_data sample_file sample_variables "temp"
           [50; 0] [50; 4] 1 sample_dest).
  - reflexivity.
  - reflexivity.
  - reflexivity.
Defined.

(** ** Frames *)

Lemma NC_bind_rel {A B} (R : Dataset -> Dataset -> Prop) (m : NC A)
    (k : A -> NC B) :
  (forall d1 d2 d3, R d1 d2 -> R d2 d3 -> R d1 d3) ->
  (forall d, R d (fst (m d))) ->
  (forall a d, R d (fst (k a d))) ->
  forall d, R d (fst ((x ← m; k x) d)).
Proof.
  intros Htrans Hm Hk d. unfold mbind, NC_bind.
  specialize (Hm d). destruct (m d) as [d' [a|e]]; simpl in *.
  - eapply Htrans; [exact Hm | apply Hk].
  - exact Hm.
Qed.

Lemma for_each_rel {A} (R : Dataset -> Dataset -> Prop) (l : list A)
    (body : A -> NC unit) :
  (forall d, R d d) ->
  (forall d1 d2 d3, R d1 d2 -> R d2 d3 -> R d1 d3) ->
  (forall x d, R d (fst (body x d))) ->
  forall d, R d (fst (for_each l body d)).
Proof.
  intros Hrefl Htrans Hbody. induction l as [|x l IH]; intros d; simpl.
  - apply Hrefl.
  - apply NC_bind_rel; [exact Htrans | apply Hbody | intros _; exact IH].
Qed.

Lemma same_meta_refl (d : Dataset) : same_meta d d.
Proof. repeat split. Qed.

Lemma same_meta_trans (d1 d2 d3 : Dataset) :
  same_meta d1 d2 -> same_meta d2 d3 -> same_meta d1 d3.
Proof. unfold same_meta. intros (A1 & B1 & C1) (A2 & B2 & C2). repeat split; congruence. Qed.

Lemma same_schema_refl (d : Dataset) : same_schema d d.
Proof. repeat split. Qed.

Lemma same_schema_trans (d1 d2 d3 : Dataset) :
  same_schema d1 d2 -> same_schema d2 d3 -> same_schema d1 d3.
Proof. unfold same_schema. intros (A1 & B1) (A2 & B2). split; congruence. Qed.

Lemma lift_fst {A} (r : result A) (d : Dataset) : fst (lift r d) = d.
Proof. reflexivity. Qed.

Lemma createDimension_meta (name : string) (size : Z) (d : Dataset) :
  same_meta d (fst (createDimension name size d)).
Proof.
  unfold createDimension. destruct (dict_get name (dimensions d));
    repeat split.
Qed.

Lemma createVariable_meta (name dtype : string) (dims : list string)
    (d : Dataset) :
  same_meta d (fst (createVariable name dtype dims d)).
Proof.
  unfold createVariable. destruct (dict_get name (variables d));
    [repeat split|].
  destruct (forallb _ dims); repeat split.
Qed.

Lemma setitem_meta (var : string) (ix : index) (data : pydata) (d : Dataset) :
  same_meta d (fst (setitem var ix data d))
  /\ same_schema d (fst (setitem var ix data d)).
Proof.
  unfold setitem. destruct (dict_get var (variables d)); repeat split.
Qed.

Lemma set_collective_meta (var : string) (b : bool) (d : Dataset) :
  same_meta d (fst (set_collective var b d))
  /\ same_schema d (fst (set_collective var b d)).
Proof.
  unfold set_collective. destruct (dict_get var (variables d)); repeat split.
Qed.

Lemma create_nc_dims_meta (num_steps : nat) (dim_lens : dict Z) (d : Dataset) :
  same_meta d (fst (create_nc_dims num_steps dim_lens d)).
Proof.
  unfold create_nc_dims.
  apply NC_bind_rel; [exact same_meta_trans | apply createDimension_meta|].
  intros _. apply for_each_rel;
    [exact same_meta_refl | exact same_meta_trans|].
  intros dim d'. apply NC_bind_rel;
    [exact same_meta_trans | intros; apply same_meta_refl|].
  intros size d''. apply createDimension_meta.
Qed.

Lemma create_nc_vars_meta (var_names : list string) (var_types : dict string)
    (var_dims : dict (list string)) (d : Dataset) :
  same_meta d (fst (create_nc_vars var_names var_types var_dims d)).
Proof.
  unfold create_nc_vars. apply for_each_rel;
    [exact same_meta_refl | exact same_meta_trans|].
  intros var d'. apply NC_bind_rel;
    [exact same_meta_trans | intros; apply same_meta_refl|].
  intros t d''. apply NC_bind_rel;
    [exact same_meta_trans | intros; apply same_meta_refl|].
  intros dims d3. apply createVariable_meta.
Qed.

Lemma serial_step_frame (f : Adios2File) (vars : dict var_info) (var : string)
    (step : nat) (d : Dataset) :
  same_meta d (fst (serial_step f vars var step d))
  /\ same_schema d (fst (serial_step f vars var step d)).
Proof.
  unfold serial_step, mbind, NC_bind, lift.
  destruct (getitem vars var) as [info|e]; [|repeat split].
  destruct (String.eqb (v_Type info) "string"); [apply setitem_meta|].
  simpl. destruct (single_element (read f var step)); apply setitem_meta.
Qed.

Lemma parallel_step_frame (f : Adios2File) (vars : dict var_info)
    (var : string) (plan : option (list Z * list Z)) (step : nat) (d : Dataset) :
  same_meta d (fst (parallel_step f vars var plan step d))
  /\ same_schema d (fst (parallel_step f vars var plan step d)).
Proof.
  unfold parallel_step, mbind, NC_bind, lift.
  destruct (getitem vars var) as [info|e]; [|repeat split].
  destruct (String.eqb (v_Type info) "string"); [apply setitem_meta|].
  destruct plan as [[start_arr count_arr]|]; [|repeat split].
  cbv zeta.
  destruct (single_element (read_sel f var start_arr count_arr step));
    [apply setitem_meta|].
  pose proof (set_collective_meta var true d) as [Hm Hs].
  destruct (set_collective var true d) as [d1 [[]|e]]; simpl in *; [|auto].
  assert (forall sl a, same_meta d (fst (setitem var sl a d1))
                       /\ same_schema d (fst (setitem var sl a d1))) as Hset.
  { intros sl a. destruct (setitem_meta var sl a d1) as [Hm1 Hs1].
    split; [eapply same_meta_trans | eapply same_schema_trans]; eauto. }
  destruct start_arr as [|s0 [|s1 [|s2 [|s3 rest]]]];
    destruct count_arr as [|c0 [|c1 [|c2 [|c3 rest']]]];
    try apply Hset; split; assumption.
Qed.

Lemma copy_frame (f : Adios2File) (comm : Comm) (parallel : bool)
    (var_names : list string) (num_steps : nat) (vars : dict var_info)
    (d : Dataset) :
  let d' := fst ((if parallel
                  then r_w_data_parallel f comm var_names num_steps vars
                  else r_w_data_serial f var_names num_steps vars) d) in
  same_meta d d' /\ same_schema d d'.
Proof.
  pose (R := fun d d' => same_meta d d' /\ same_schema d d').
  assert (forall d, R d d) as Hrefl
    by (intros d0; split; [apply same_meta_refl | apply same_schema_refl]).
  assert (forall d1 d2 d3, R d1 d2 -> R d2 d3 -> R d1 d3) as Htrans.
  { intros d1 d2 d3 [A1 B1] [A2 B2].
    split; [eapply same_meta_trans | eapply same_schema_trans]; eauto. }
  cbv zeta. change (R d (fst ((if parallel
                  then r_w_data_parallel f comm var_names num_steps vars
                  else r_w_data_serial f var_names num_steps vars) d))).
  destruct parallel.
  - unfold r_w_data_parallel. apply for_each_rel; [exact Hrefl | exact Htrans|].
    intros var d0. unfold parallel_var.
    apply NC_bind_rel; [exact Htrans | intros; apply Hrefl|].
    intros info d1. apply NC_bind_rel; [exact Htrans | |].
    + intros d2. destruct (negb (String.eqb (v_Type info) "string"));
        apply Hrefl.
    + intros plan d2. apply for_each_rel; [exact Hrefl | exact Htrans|].
      intros step d3. apply parallel_step_frame.
  - unfold r_w_data_serial. apply for_each_rel; [exact Hrefl | exact Htrans|].
    intros var d0. apply for_each_rel; [exact Hrefl | exact Htrans|].
    intros step d1. apply serial_step_frame.
Qed.

(** ** Writing the attributes *)

Lemma dict_set_keys_existing {V} (k : string) (v : V) (d : dict V) :
  is_Some (dict_get k d) -> dict_keys (dict_set k v d) = dict_keys d.
Proof.
  induction d as [|[k' v'] d IH]; simpl; intros [x Hx]; [discriminate|].
  destruct (String.eqb_spec k k') as [->|Hne]; [reflexivity|].
  simpl. f_equal. apply IH. eauto.
Qed.

Lemma dict_set_keys_fresh {V} (k : string) (v : V) (d : dict V) :
  dict_get k d = None -> dict_keys (dict_set k v d) = dict_keys d ++ [k].
Proof.
  intros H. rewrite dict_set_fresh by exact H.
  unfold dict_keys. rewrite map_app. reflexivity.
Qed.

Lemma dict_set_NoDup {V} (k : string) (v : V) (d : dict V) :
  NoDup (dict_keys d) -> NoDup (dict_keys (dict_set k v d)).
Proof.
  intros Hnd. destruct (dict_get k d) as [x|] eqn:Hk.
  - rewrite dict_set_keys_existing by eauto. exact Hnd.
  - rewrite dict_set_keys_fresh by exact Hk.
    apply NoDup_app. split; [exact Hnd|]. split.
    + intros y Hy Hy'. apply list_elem_of_singleton in Hy'. subst y.
      apply dict_get_key_Some in Hy as [z Hz]. congruence.
    + apply NoDup_singleton.
Qed.

(** The global attributes [r_attrs] returns have distinct keys. *)
Lemma r_attrs_global_NoDup (f : Adios2File) (attrs : dict attr_info)
    (var_attrs : dict (dict attr_val)) (global_attrs : dict attr_val) :
  r_attrs f = Ok (attrs, var_attrs, global_attrs) ->
  NoDup (dict_keys global_attrs).
Proof.
  unfold r_attrs.
  destruct (foldM (r_attrs_body f) ([], []) (dict_keys (available_attributes f)))
    as [[va ga]|e] eqn:Hfold; simpl; [|discriminate].
  intros H. inversion H; subst.
  apply (foldM_invariant (r_attrs_body f)
           (fun _ acc => NoDup (dict_keys (snd acc))))
    with (seen := []) (acc := ([], [])) (acc' := (var_attrs, global_attrs))
         (l := dict_keys (available_attributes f)).
  - intros seen [va0 ga0] k [va1 ga1] Hnd Hb. simpl in *.
    apply r_attrs_body_Ok in Hb
      as [(_ & _ & ->) | (_ & val & _ & [(_ & _ & _ & _ & -> & _)
                                        | [(_ & _ & _ & ->) | (_ & _ & _ & ->)]])];
      try exact Hnd.
    apply dict_set_NoDup. exact Hnd.
  - apply NoDup_nil_2.
  - exact Hfold.
Qed.

Lemma setncatts_lookup (ga : dict attr_val) (d : dict attr_val) (k : string) :
  NoDup (dict_keys ga) ->
  dict_get k (fold_left (fun d kv => dict_set (fst kv) (snd kv) d) ga d)
  = match dict_get k ga with Some v => Some v | None => dict_get k d end.
Proof.
  revert d. induction ga as [|[k0 v0] ga IH]; intros d Hnd; [reflexivity|].
  simpl in Hnd. apply NoDup_cons in Hnd as [Hk0 Hnd].
  simpl. rewrite (IH _ Hnd), dict_get_set.
  destruct (String.eqb_spec k k0) as [->|Hne]; [|reflexivity].
  destruct (dict_get k0 ga) as [v|] eqn:Hg; [|reflexivity].
  exfalso. apply Hk0. eapply dict_get_Some_key; eauto.
Qed.

Lemma same_declarations_refl (d : Dataset) : same_declarations d d.
Proof. split; [reflexivity|]. split; [reflexivity|]. eauto. Qed.

Lemma setncattr_Ok (var attr : string) (val : attr_val) (d d' : Dataset) :
  setncattr var attr val d = (d', Ok tt) ->
  exists v,
    dict_get var (variables d) = Some v
    /\ variables d'
       = dict_set var {| datatype := datatype v;
                         var_dimensions := var_dimensions v;
                         var_ncattrs := dict_set attr val (var_ncattrs v) |}
                  (variables d)
    /\ dimensions d' = dimensions d /\ ncattrs d' = ncattrs d
    /\ issued d' = issued d /\ closed d' = closed d /\ fill d' = fill d.
Proof.
  unfold setncattr. destruct (dict_get var (variables d)) as [v|]; [|discriminate].
  intros H. inversion H; subst. exists v. repeat split.
Qed.

Lemma setncattr_meta (var attr : string) (val : attr_val) (d : Dataset) :
  same_meta d (fst (setncattr var attr val d)).
Proof.
  unfold setncattr. destruct (dict_get var (variables d)); repeat split.
Qed.

Lemma attrs_written_weaken (va : dict (dict attr_val)) (ds0 d : Dataset)
    (done done' : string -> string -> Prop) :
  attrs_written va ds0 done d ->
  (forall v n val, done' v n -> dict_get2 v n va = Some val -> done v n) ->
  attrs_written va ds0 done' d.
Proof.
  intros (Hdecl & Hmeta & Hiss & Hhas) Hsub.
  split; [exact Hdecl|]. split; [exact Hmeta|]. split; [exact Hiss|].
  intros v n val Hd Hg. apply Hhas; [eapply Hsub; eauto | exact Hg].
Qed.

Lemma attrs_written_step (va : dict (dict attr_val)) (ds0 d d' : Dataset)
    (done : string -> string -> Prop) (var attr : string) (val : attr_val) :
  attrs_written va ds0 done d ->
  dict_get2 var attr va = Some val ->
  setncattr var attr val d = (d', Ok tt) ->
  attrs_written va ds0 (fun v n => done v n \/ (v = var /\ n = attr)) d'.
Proof.
  intros ((Hdims & Hkeys & Hsame) & (Hfill & Hclosed & Hnc) & Hiss & Hhas) Hval Hset.
  apply setncattr_Ok in Hset
    as (v & Hv & Hvars & Hd' & Hn' & Hi' & Hc' & Hf').
  split; [|split; [|split]].
  - split; [congruence|]. split.
    + rewrite Hvars, dict_set_keys_existing by eauto. exact Hkeys.
    + intros var0 v' Hg. rewrite Hvars, dict_get_set in Hg.
      destruct (String.eqb_spec var0 var) as [->|Hne].
      * inversion Hg; subst v'. simpl.
        destruct (Hsame var v Hv) as (v0 & Hv0 & Ht & Hdm). eauto.
      * apply Hsame. exact Hg.
  - repeat split; congruence.
  - congruence.
  - intros v0 n0 val0 Hdone Hg. unfold has_var_attr.
    rewrite Hvars, dict_get_set.
    destruct (String.eqb_spec v0 var) as [->|Hne].
    + eexists. split; [reflexivity|]. simpl. rewrite dict_get_set.
      destruct (String.eqb_spec n0 attr) as [->|Hn]; [congruence|].
      destruct Hdone as [Hdone | [_ Hn0]]; [|congruence].
      destruct (Hhas var n0 val0 Hdone Hg) as (v2 & Hv2 & Ha2).
      congruence.
    + destruct Hdone as [Hdone | [Hv0 _]]; [|congruence].
      apply (Hhas v0 n0 val0 Hdone Hg).
Qed.

(** What [w_var_attrs] has done when it returns. *)
Lemma w_var_attrs_Ok (va : dict (dict attr_val)) (ds ds' : Dataset) :
  w_var_attrs va ds = (ds', Ok tt) ->
  attrs_written va ds (fun _ _ => True) ds'.
Proof.
  intros H. unfold w_var_attrs in H.
  apply (for_each_invariant _
           (fun seen d => attrs_written va ds (fun v _ => v ∈ seen) d))
    with (seen := []) in H.
  - eapply attrs_written_weaken; [exact H|].
    intros v n val _ Hg. simpl. unfold dict_get2 in Hg.
    destruct (dict_get v va) as [entry|] eqn:Hv; [|discriminate].
    eapply dict_get_Some_key; eauto.
  - clear H ds'. intros seen var d d' Hinv Hb.
    unfold mbind at 1, NC_bind at 1, lift in Hb.
    destruct (getitem va var) as [entry|e] eqn:Hentry; [|discriminate].
    apply getitem_Ok in Hentry.
    apply (for_each_invariant _
             (fun names d0 =>
                attrs_written va ds
                  (fun v n => v ∈ seen \/ (v = var /\ n ∈ names)) d0))
      with (seen := []) in Hb.
    + eapply attrs_written_weaken; [exact Hb|].
      intros v n val Hin Hg. simpl.
      apply elem_of_app in Hin as [Hin|Hin]; [left; exact Hin|].
      apply list_elem_of_singleton in Hin. subst v. right.
      split; [reflexivity|]. unfold dict_get2 in Hg. rewrite Hentry in Hg.
      eapply dict_get_Some_key; eauto.
    + clear Hb d'. intros names attr d0 d1 Hinv0 Hb0.
      unfold mbind, NC_bind, lift in Hb0.
      destruct (getitem entry attr) as [val|e] eqn:Hval; [|discriminate].
      apply getitem_Ok in Hval.
      assert (dict_get2 var attr va = Some val) as Hg
        by (unfold dict_get2; rewrite Hentry; exact Hval).
      pose proof (attrs_written_step va ds d0 d1 _ var attr val Hinv0 Hg Hb0)
        as Hstep.
      eapply attrs_written_weaken; [exact Hstep|].
      intros v n val' [Hin | [-> Hin]] _; [auto|].
      apply elem_of_app in Hin as [Hin|Hin]; [auto|].
      apply list_elem_of_singleton in Hin. auto.
    + eapply attrs_written_weaken; [exact Hinv|].
      intros v n val' [Hin | [_ Hin]] _; [exact Hin | inversion Hin].
  - split; [apply same_declarations_refl|].
    split; [apply same_meta_refl|]. split; [reflexivity|].
    intros v n val Hin. inversion Hin.
Qed.

(** X17.  When [w_var_attrs] returns, every attribute of [var_attrs] is on
    its variable of the destination with its value, and nothing else has
    changed: the variables are the same, with the same types and dimension
    lists, and the dimensions, global attributes, assignments and flags
    are as before. *)
Theorem w_var_attrs_sets_every_attribute (var_attrs : dict (dict attr_val))
    (ds ds' : Dataset) :
  w_var_attrs var_attrs ds = (ds', Ok tt) ->
  (forall var name val,
     dict_get2 var name var_attrs = Some val -> has_var_attr ds' var name val)
  /\ same_declarations ds ds'
  /\ same_meta ds ds'
  /\ issued ds' = issued ds.
Proof.
  intros H. apply w_var_attrs_Ok in H as (Hdecl & Hmeta & Hiss & Hhas).
  split; [|auto]. intros var name val Hg. apply (Hhas var name val I Hg).
Qed.

Lemma w_var_attrs_sets_every_attribute_witness :
  has_var_attr
    (fst (w_var_attrs [("temp", [("units", StrList ["K"])])] sample_dest))
    "temp" "units" (StrList ["K"]).
Proof.
  destruct (w_var_attrs_sets_every_attribute
              [("temp", [("units", StrList ["K"])])] sample_dest
              (fst (w_var_attrs [("temp", [("units", StrList ["K"])])] sample_dest)))
    as [H _].
  - reflexivity.
  - apply H. reflexivity.
Defined.

Lemma w_var_attrs_meta (va : dict (dict attr_val)) (d : Dataset) :
  same_meta d (fst (w_var_attrs va d)).
Proof.
  unfold w_var_attrs. apply for_each_rel;
    [exact same_meta_refl | exact same_meta_trans|].
  intros var d0. apply NC_bind_rel;
    [exact same_meta_trans | intros; apply same_meta_refl|].
  intros entry d1. apply for_each_rel;
    [exact same_meta_refl | exact same_meta_trans|].
  intros attr d2. apply NC_bind_rel;
    [exact same_meta_trans | intros; apply same_meta_refl|].
  intros val d3. apply setncattr_meta.
Qed.

(** ** The driver, phase by phase *)

Ltac fresh_destination :=
  change (fill new_Dataset) with false in *;
  change (closed new_Dataset) with false in *;
  change (ncattrs new_Dataset) with (@nil (string * attr_val)) in *;
  change (variables new_Dataset) with (@nil (string * nc_variable)) in *.

(** How [convert] ends: either with an exception, on a destination that is
    still open, or after every phase has ended normally. *)
Lemma convert_cases (f : Adios2File) (comm : Comm) (parallel diskless : bool) :
  (exists e, snd (convert f comm parallel diskless) = Raise e
             /\ closed (fst (convert f comm parallel diskless)) = false
             /\ fill (fst (convert f comm parallel diskless)) = false)
  \/ exists attrs var_attrs global_attrs var_names num_steps dim_lens var_dims
            var_types vars ds1 ds2 ds3 ds4 ds5,
       r_attrs f = Ok (attrs, var_attrs, global_attrs)
       /\ r_metadata f attrs
          = Ok (var_names, num_steps, dim_lens, var_dims, var_types, vars)
       /\ create_nc_dims num_steps dim_lens new_Dataset = (ds1, Ok tt)
       /\ create_nc_vars var_names var_types var_dims ds1 = (ds2, Ok tt)
       /\ (if parallel
           then r_w_data_parallel f comm var_names num_steps vars
           else r_w_data_serial f var_names num_steps vars) ds2 = (ds3, Ok tt)
       /\ w_global_attrs global_attrs ds3 = (ds4, Ok tt)
       /\ w_var_attrs var_attrs ds4 = (ds5, Ok tt)
       /\ convert f comm parallel diskless = close_files diskless ds5.
Proof.
  unfold convert, convert_opened, mbind, NC_bind, lift.
  destruct (r_attrs f) as [[[attrs va] ga]|e] eqn:Hattrs;
    [|left; exists e; auto].
  destruct (r_metadata f attrs) as [[[[[[names n] dl] vd] vt] vars]|e] eqn:Hmeta;
    [|left; exists e; auto].
  pose proof (create_nc_dims_meta n dl new_Dataset) as M1.
  destruct (create_nc_dims n dl new_Dataset) as [ds1 [[]|e]] eqn:H1; simpl in M1.
  2: { left. exists e. destruct M1 as (A & B & _). simpl. auto. }
  pose proof (create_nc_vars_meta names vt vd ds1) as M2.
  destruct (create_nc_vars names vt vd ds1) as [ds2 [[]|e]] eqn:H2; simpl in M2.
  2: { left. exists e. destruct M1 as (A1 & B1 & _), M2 as (A2 & B2 & _).
       fresh_destination.
       simpl. split; [reflexivity|]. split; congruence. }
  pose proof (copy_frame f comm parallel names n vars ds2) as [M3 _].
  destruct ((if parallel
             then r_w_data_parallel f comm names n vars
             else r_w_data_serial f names n vars) ds2) as [ds3 [[]|e]] eqn:H3;
    simpl in M3.
  2: { left. exists e. destruct M1 as (A1 & B1 & _), M2 as (A2 & B2 & _),
         M3 as (A3 & B3 & _).
       fresh_destination.
       simpl. split; [reflexivity|]. split; congruence. }
  destruct (w_global_attrs ga ds3) as [ds4 [[]|e]] eqn:H4.
  2: { unfold w_global_attrs, setncatts in H4. discriminate. }
  assert (fill ds4 = fill ds3 /\ closed ds4 = closed ds3) as [A4 B4].
  { unfold w_global_attrs, setncatts in H4. inversion H4. auto. }
  pose proof (w_var_attrs_meta va ds4) as M5.
  destruct (w_var_attrs va ds4) as [ds5 [[]|e]] eqn:H5; simpl in M5.
  2: { left. exists e. destruct M1 as (A1 & B1 & _), M2 as (A2 & B2 & _),
         M3 as (A3 & B3 & _), M5 as (A5 & B5 & _).
       fresh_destination.
       simpl. split; [reflexivity|]. split; congruence. }
  right. exists attrs, va, ga, names, n, dl, vd, vt, vars, ds1, ds2, ds3, ds4, ds5.
  repeat split; first [assumption | reflexivity].
Qed.

Lemma convert_Ok (f : Adios2File) (comm : Comm) (parallel diskless : bool)
    (ds : Dataset) :
  convert f comm parallel diskless = (ds, Ok tt) ->
  exists attrs var_attrs global_attrs var_names num_steps dim_lens var_dims
         var_types vars ds1 ds2 ds3 ds4 ds5,
    r_attrs f = Ok (attrs, var_attrs, global_attrs)
    /\ r_metadata f attrs
       = Ok (var_names, num_steps, dim_lens, var_dims, var_types, vars)
    /\ create_nc_dims num_steps dim_lens new_Dataset = (ds1, Ok tt)
    /\ create_nc_vars var_names var_types var_dims ds1 = (ds2, Ok tt)
    /\ (if parallel
        then r_w_data_parallel f comm var_names num_steps vars
        else r_w_data_serial f var_names num_steps vars) ds2 = (ds3, Ok tt)
    /\ w_global_attrs global_attrs ds3 = (ds4, Ok tt)
    /\ w_var_attrs var_attrs ds4 = (ds5, Ok tt)
    /\ close_files diskless ds5 = (ds, Ok tt).
Proof.
  intros H.
  destruct (convert_cases f comm parallel diskless)
    as [(e & He & _) | (attrs & va & ga & names & n & dl & vd & vt & vars
                        & ds1 & ds2 & ds3 & ds4 & ds5 & Hc)].
  - rewrite H in He. discriminate.
  - exists attrs, va, ga, names, n, dl, vd, vt, vars, ds1, ds2, ds3, ds4, ds5.
    destruct Hc as (C1 & C2 & C3 & C4 & C5 & C6 & C7 & C8).
    rewrite H in C8. auto 10.
Qed.

Lemma close_files_Ok (diskless : bool) (d d' : Dataset) :
  close_files diskless d = (d', Ok tt) ->
  variables d' = variables d /\ dimensions d' = dimensions d
  /\ ncattrs d' = ncattrs d /\ issued d' = issued d /\ fill d' = fill d
  /\ closed d' = (negb diskless || closed d).
Proof.
  unfold close_files, close. destruct diskless; simpl; intros H; inversion H;
    subst; simpl; repeat split.
Qed.

Lemma convert_closed_iff (f : Adios2File) (comm : Comm)
    (parallel diskless : bool) :
  fill (fst (convert f comm parallel diskless)) = false
  /\ (closed (fst (convert f comm parallel diskless)) = true <->
      snd (convert f comm parallel diskless) = Ok tt /\ diskless = false).
Proof.
  destruct (convert_cases f comm parallel diskless)
    as [(e & He & Hc & Hf) | (attrs & va & ga & names & n & dl & vd & vt & vars
                              & ds1 & ds2 & ds3 & ds4 & ds5 & C1 & C2 & C3 & C4
                              & C5 & C6 & C7 & C8)].
  - split; [exact Hf|]. rewrite Hc, He.
    split; [discriminate | intros [H _]; discriminate].
  - rewrite C8.
    pose proof (create_nc_dims_meta n dl new_Dataset) as M1. rewrite C3 in M1.
    pose proof (create_nc_vars_meta names vt vd ds1) as M2. rewrite C4 in M2.
    pose proof (copy_frame f comm parallel names n vars ds2) as [M3 _].
    rewrite C5 in M3.
    pose proof (w_var_attrs_meta va ds4) as M5. rewrite C7 in M5.
    assert (fill ds4 = fill ds3 /\ closed ds4 = closed ds3) as [A4 B4].
    { unfold w_global_attrs, setncatts in C6. inversion C6. auto. }
    destruct M1 as (A1 & B1 & _), M2 as (A2 & B2 & _), M3 as (A3 & B3 & _),
      M5 as (A5 & B5 & _). simpl in *.
    fresh_destination.
    assert (fill ds5 = false /\ closed ds5 = false) as [Hf Hc]
      by (split; congruence).
    unfold close_files, close. destruct diskless; simpl.
    + split; [exact Hf|]. rewrite Hc. split; [discriminate|].
      intros [_ H]. discriminate.
    + split; [exact Hf|]. split; auto.
Qed.

(** X18.  [convert] never turns the fill mode of the destination back on,
    and it closes the destination in one case only: when every phase has
    ended normally and [diskless] is off.  An exception in any phase
    leaves the destination open. *)
Theorem convert_closes_only_on_success (f : Adios2File) (comm : Comm)
    (parallel diskless : bool) :
  fill (fst (convert f comm parallel diskless)) = false
  /\ (closed (fst (convert f comm parallel diskless)) = true <->
      snd (convert f comm parallel diskless) = Ok tt /\ diskless = false).
Proof. apply convert_closed_iff. Qed.

Lemma create_nc_vars_keys (var_names : list string) (var_types : dict string)
    (var_dims : dict (list string)) (ds ds' : Dataset) :
  create_nc_vars var_names var_types var_dims ds = (ds', Ok tt) ->
  dict_keys (variables ds') = dict_keys (variables ds) ++ var_names.
Proof.
  intros H. unfold create_nc_vars in H.
  apply (for_each_invariant _
           (fun seen d => dict_keys (variables d)
                          = dict_keys (variables ds) ++ seen))
    with (seen := []) in H.
  - exact H.
  - clear. intros seen var d d' Hkeys Hb.
    unfold mbind, NC_bind, lift in Hb.
    destruct (getitem var_types var) as [t|e]; [|discriminate].
    destruct (getitem var_dims var) as [dims|e]; [|discriminate].
    apply createVariable_Ok in Hb as (Hfree & Hv & _).
    rewrite Hv, dict_set_keys_fresh by exact Hfree.
    rewrite Hkeys, app_assoc. reflexivity.
  - rewrite app_nil_r. reflexivity.
Qed.

Lemma convert_schema (f : Adios2File) (comm : Comm)
    (parallel diskless : bool) (ds : Dataset) :
  convert f comm parallel diskless = (ds, Ok tt) ->
  dict_keys (variables ds) = dict_keys (available_variables f)
  /\ dict_get "Time" (dimensions ds) = Some (Z.of_nat (steps f))
  /\ forall var info,
       dict_get var (available_variables f) = Some info ->
       exists v,
         dict_get var (variables ds) = Some v
         /\ Some (datatype v) = dict_get (v_Type info) typemap
         /\ var_dimensions v = rev (read_attribute_string_of f "Dims" var).
Proof.
  intros H.
  apply convert_Ok in H
    as (attrs & va & ga & names & n & dl & vd & vt & vars
        & ds1 & ds2 & ds3 & ds4 & ds5 & C1 & C2 & C3 & C4 & C5 & C6 & C7 & C8).
  pose proof (r_metadata_Ok _ _ _ _ _ _ _ _ C2) as (-> & -> & -> & _ & -> & Htypes).
  pose proof (create_nc_dims_Ok _ _ _ _ C3) as (Htime & Hv1 & _).
  pose proof (create_nc_vars_keys _ _ _ _ _ C4) as Hkeys.
  pose proof (create_nc_vars_Ok _ _ _ _ _ C4) as (Hd2 & _ & Hdecl).
  pose proof (copy_frame f comm parallel (dict_keys (available_variables f))
                (steps f) (available_variables f) ds2) as [_ S3].
  rewrite C5 in S3. destruct S3 as [Hd3 Hv3]. simpl in Hd3, Hv3.
  assert (dimensions ds4 = dimensions ds3 /\ variables ds4 = variables ds3)
    as [Hd4 Hv4].
  { unfold w_global_attrs, setncatts in C6. inversion C6. auto. }
  apply w_var_attrs_Ok in C7 as ((Hd5 & Hk5 & Hsame) & _).
  apply close_files_Ok in C8 as (Hv6 & Hd6 & _).
  rewrite Hv1 in Hkeys. simpl in Hkeys.
  split; [|split].
  - rewrite Hv6, Hk5, Hv4, Hv3. exact Hkeys.
  - rewrite Hd6, Hd5, Hd4, Hd3, Hd2. exact Htime.
  - intros var info Hv.
    assert (var ∈ dict_keys (available_variables f)) as Hin
      by (eapply dict_get_Some_key; eauto).
    assert (var ∈ dict_keys (variables ds5)) as Hin5
      by (rewrite Hk5, Hv4, Hv3, Hkeys; exact Hin).
    apply dict_get_key_Some in Hin5 as [v' Hv'].
    destruct (Hsame var v' Hv') as (v & Hv4' & Ht & Hdm).
    rewrite Hv4, Hv3 in Hv4'.
    destruct (Hdecl var Hin) as (t & dims & Hvt & Hvd & Hv2).
    assert (v = {| datatype := t; var_dimensions := dims; var_ncattrs := [] |})
      as -> by congruence.
    exists v'. split; [rewrite Hv6; exact Hv'|]. simpl in Ht, Hdm.
    rewrite Ht, Hdm. split.
    + destruct (var_types_spec _ _ _ _ Htypes var Hin) as (info' & t' & Hi & Htm & Hg).
      apply getitem_Ok in Htm. congruence.
    + rewrite var_dims_reversed in Hvd by exact Hin. congruence.
Qed.

(** X19.  A conversion that ends normally leaves the schema of the source
    in the destination: the variables are the catalogued names, in the
    catalog's order; each has the type code of its source type and the
    reversed dimension list of the source; and ["Time"] has the length of
    the step count. *)
Theorem convert_declares_the_catalog (f : Adios2File) (comm : Comm)
    (parallel diskless : bool) (ds : Dataset) :
  convert f comm parallel diskless = (ds, Ok tt) ->
  dict_keys (variables ds) = dict_keys (available_variables f)
  /\ dict_get "Time" (dimensions ds) = Some (Z.of_nat (steps f))
  /\ forall var info,
       dict_get var (available_variables f) = Some info ->
       exists v,
         dict_get var (variables ds) = Some v
         /\ Some (datatype v) = dict_get (v_Type info) typemap
         /\ var_dimensions v = rev (read_attribute_string_of f "Dims" var).
Proof. apply convert_schema. Qed.

Lemma convert_declares_the_catalog_witness :
  dict_keys (variables (fst (convert sample_file (comm_of 2 1) true false)))
  = dict_keys (available_variables sample_file).
Proof.
  apply (convert_declares_the_catalog sample_file (comm_of 2 1) true false
           (fst (convert sample_file (comm_of 2 1) true false))).
  vm_compute. reflexivity.
Defined.

(** X20.  A conversion that ends normally carries the attributes over: the
    global attributes of the destination are exactly the source keys
    without separator and without the dimension marker, each with the
    value read for it, and every source key of two pieces [var/name] that
    does not contain ["/Dims"] is an attribute [name] of the destination
    variable [var], with the value read for it; [var] is then a variable
    of the catalog. *)
Theorem convert_carries_attributes (f : Adios2File) (comm : Comm)
    (parallel diskless : bool) (ds : Dataset) :
  convert f comm parallel diskless = (ds, Ok tt) ->
  (forall k val,
     dict_get k (ncattrs ds) = Some val <->
     k ∈ dict_keys (available_attributes f) /\ contains "/" k = false
     /\ startswith k "_DIM_" = false /\ read_value f k = Ok val)
  /\ (forall k var name val,
        k ∈ dict_keys (available_attributes f) ->
        contains "/Dims" k = false ->
        split "/" k = [var; name] ->
        read_value f k = Ok val ->
        has_var_attr ds var name val
        /\ var ∈ dict_keys (available_variables f)).
Proof.
  intros H.
  pose proof (convert_schema f comm parallel diskless ds H) as (Hcat & _).
  apply convert_Ok in H
    as (attrs & va & ga & names & n & dl & vd & vt & vars
        & ds1 & ds2 & ds3 & ds4 & ds5 & C1 & C2 & C3 & C4 & C5 & C6 & C7 & C8).
  pose proof (r_attrs_global_NoDup _ _ _ _ C1) as Hnd.
  pose proof (r_attrs_recorded _ _ _ _ C1) as (-> & [Hva Hga] & _).
  pose proof (create_nc_dims_meta n dl new_Dataset) as M1. rewrite C3 in M1.
  pose proof (create_nc_vars_meta names vt vd ds1) as M2. rewrite C4 in M2.
  pose proof (copy_frame f comm parallel names n vars ds2) as [M3 _].
  rewrite C5 in M3.
  destruct M1 as (_ & _ & N1), M2 as (_ & _ & N2), M3 as (_ & _ & N3).
  simpl in N1, N2, N3.
  fresh_destination.
  assert (ncattrs ds3 = []) as Hempty by congruence.
  assert (ncattrs ds4
          = fold_left (fun d kv => dict_set (fst kv) (snd kv) d) ga (ncattrs ds3))
    as N4.
  { unfold w_global_attrs, setncatts in C6. inversion C6. reflexivity. }
  apply w_var_attrs_Ok in C7 as (_ & (_ & _ & N5) & _ & Hhas).
  apply close_files_Ok in C8 as (Hv6 & _ & N6 & _).
  split.
  - intros k val. rewrite N6, N5, N4, (setncatts_lookup ga _ k Hnd), Hempty.
    rewrite <- Hga. destruct (dict_get k ga); simpl; split; congruence.
  - intros k var name val Hin HD Hsplit Hval.
    assert (has_var_attr ds5 var name val) as Hattr.
    { apply (Hhas var name val I). apply Hva. exists k. auto. }
    assert (has_var_attr ds var name val) as Hattr'.
    { unfold has_var_attr in *. rewrite Hv6. exact Hattr. }
    split; [exact Hattr'|].
    rewrite <- Hcat. destruct Hattr' as (v & Hv & _).
    eapply dict_get_Some_key; eauto.
Qed.

Lemma convert_carries_attributes_witness :
  dict_get "TITLE" (ncattrs (fst (convert sample_file (comm_of 1 0) false false)))
    = Some (StrList ["OUTPUT FROM WRF"])
  /\ has_var_attr (fst (convert sample_file (comm_of 1 0) false false))
       "temp" "units" (StrList ["K"]).
Proof.
  assert (convert sample_file (comm_of 1 0) false false
          = (fst (convert sample_file (comm_of 1 0) false false), Ok tt)) as H
    by (vm_compute; reflexivity).
  split.
  - apply (proj1 (convert_carries_attributes _ _ _ _ _ H)).
    split; [repeat constructor|]. repeat split; vm_compute; reflexivity.
  - apply (proj2 (convert_carries_attributes _ _ _ _ _ H)
             "temp/units" "temp" "units" (StrList ["K"]));
      [repeat constructor | vm_compute; reflexivity ..].
Defined.

(** The attribute [ghost/units] of a name that is no variable: the
    conversion copies the data and the global attributes, then ends with
    [KeyError] and leaves the destination open. *)
Example convert_ghost_attribute :
  snd (convert ghost_attr_file (comm_of 1 0) false false)
    = Raise (KeyError "ghost")
  /\ closed (fst (convert ghost_attr_file (comm_of 1 0) false false)) = false
  /\ length (issued (fst (convert ghost_attr_file (comm_of 1 0) false false)))
     = 6%nat
  /\ dict_keys (ncattrs (fst (convert ghost_attr_file (comm_of 1 0) false false)))
     = ["TITLE"; "DX"].
Proof. repeat split; vm_compute; reflexivity. Qed.

(** ** The script *)

Lemma decomp_raises (comm : Comm) (var : string) (vars : dict var_info)
    (e : exn) :
  Get_size comm <> 0 ->
  decomp comm var vars = Raise e ->
  e = KeyError var \/ e = ValueError.
Proof.
  intros Hsize Hr.
  pose proof (decomp_shape_Ok comm) as Hok.
  unfold decomp, getitem in Hr.
  destruct (dict_get var vars) as [info|]; [|inversion Hr; auto].
  cbn [mbind result_bind] in Hr.
  destruct (parse_shape (v_Shape info)) as [dshape|e'] eqn:Hparse;
    cbn [mbind result_bind] in Hr.
  - destruct (Hok dshape (parse_shape_nonempty _ _ Hparse) Hsize)
      as (s & c & Hd & _). congruence.
  - inversion Hr; subst. right.
    unfold parse_shape in Hparse. apply mapM_py_int_raises in Hparse. exact Hparse.
Qed.

(** X21.  The script converts in parallel exactly when MPI is there and
    the group has more than one process, and never in diskless mode.  So
    the plans it asks of [decomp] are for a group of at least two, where
    [decomp] cannot fail on the division in [Locate]; and the destination
    is closed exactly when the conversion ends normally. *)
Theorem main_mode_and_closing (f : Adios2File) (mpi : option Comm) :
  (parallel_flag mpi = true <->
   exists comm, mpi = Some comm /\ 1 < Get_size comm)
  /\ (forall comm var vars e,
        mpi = Some comm -> parallel_flag mpi = true ->
        decomp comm var vars = Raise e -> e = KeyError var \/ e = ValueError)
  /\ (closed (fst (main f mpi)) = true <-> snd (main f mpi) = Ok tt).
Proof.
  split; [|split].
  - destruct mpi as [comm|]; simpl.
    + rewrite Z.gtb_lt. split.
      * intros H. exists comm. split; [reflexivity | lia].
      * intros (c & Hc & Hs). inversion Hc; subst. lia.
    + split; [discriminate | intros (c & Hc & _); discriminate].
  - intros comm var vars e -> Hflag. simpl in Hflag.
    apply Z.gtb_lt in Hflag. apply decomp_raises. lia.
  - unfold main.
    destruct (convert_closed_iff f (default {| Get_size := 1; Get_rank := 0 |} mpi)
                (parallel_flag mpi) false) as [_ ->].
    split; [intros [H _]; exact H | auto].
Qed.

Lemma main_mode_and_closing_witness :
  parallel_flag (Some (comm_of 2 0)) = true
  /\ closed (fst (main sample_file (Some (comm_of 2 0)))) = true.
Proof.
  split.
  - apply (proj1 (main_mode_and_closing sample_file (Some (comm_of 2 0)))).
    exists (comm_of 2 0). split; [reflexivity | vm_compute; reflexivity].
  - apply (proj2 (proj2 (main_mode_and_closing sample_file (Some (comm_of 2 0))))).
    vm_compute. reflexivity.
Defined.
